(** * Client1: test server, dispatcher, catalog query and framed channel

    A shallow embedding of the parts of the repository the specification
    makes claims about:

    - [Server3]: [Server_depen/Server3.py], class [TestServer]: the session
      command handlers and the worker [execute_model_test];
    - [TestCases2]: [Server_depen/test_case_2.py], [run_test_by_name];
    - [Catalog]: [Client6.py], [get_testcase];
    - [Json]: the library calls [json.dumps] and [raw_decode] on the
      objects the channel carries;
    - [Channel]: [TestServer.send_to_client] and, in [Client6.py],
      [SocketManager.process_buffer].

    Python values are modelled as follows.  A [str] is the list of its code
    points ([text]); a dict with a fixed set of optional keys is a record of
    options; a dict used as a registry is a list in insertion order; a
    socket is the log of the frames written to it; a DataFrame is the list
    of its rows.  A call that can raise returns an [Outcome].

    The worker runs on a thread of its own.  Its statements between two
    plugin calls are taken as one step; what the other threads and the
    plugin do to the server while the worker is inside a plugin call (the
    constructor, [setup], [run_tests], [cleanup]) is given, call by call,
    as a list of [Action]s, and every property is stated for all such
    lists. *)

From Stdlib Require Import List String Ascii NArith ZArith Bool Arith Lia.
From Stdlib Require Import DecimalString Permutation.
Import ListNotations.

Set Implicit Arguments.
Open Scope list_scope.

(** [len] of a list; [String.length] would shadow it. *)
Abbreviation length := Datatypes.length.

(** ** Python strings *)

Definition text := list N.

(** A literal of the source, character by character. *)
Definition lit (s : string) : text := map N_of_ascii (list_ascii_of_string s).

Fixpoint text_eqb (a b : text) : bool :=
  match a, b with
  | [], [] => true
  | x :: a', y :: b' => N.eqb x y && text_eqb a' b'
  | _, _ => false
  end.

(** [str(n)] for a non-negative integer. *)
Definition str_of_nat (n : nat) : text :=
  lit (NilEmpty.string_of_uint (Nat.to_uint n)).

(** [str(n)] for a non-negative integer held as [N]. *)
Definition str_of_N (n : N) : text :=
  lit (NilEmpty.string_of_uint (N.to_uint n)).

(** [sep.join(parts)] *)
Fixpoint join (sep : text) (parts : list text) : text :=
  match parts with
  | [] => []
  | [p] => p
  | p :: rest => p ++ sep ++ join sep rest
  end.

(** [s.startswith(prefix)] *)
Fixpoint startswith (prefix s : text) : bool :=
  match prefix, s with
  | [], _ => true
  | x :: p', y :: s' => N.eqb x y && startswith p' s'
  | _ :: _, [] => false
  end.

(** The result of a call that may raise; an exception is carried as the
    text [str(e)] that the handlers interpolate into their messages. *)
Inductive Outcome (A : Type) : Type :=
| Return (a : A)
| Raise (e : text).
Arguments Return {A} a.
Arguments Raise {A} e.

(** ** The server: [Server_depen/Server3.py] *)

Module Server3.

(** Outward message: the dict [{"message": ..., "status": ...}]. *)
Record Event := { message : text; status : text }.

(** The keys of a loadlist entry; [temperature] and [band] are read with
    [.get(key, 'N/A')], so a missing key is [None], and a value is held as
    the text an f-string shows for it. *)
Record item_fields := {
  temperature : option text;
  band : option text;
  test_cases : list text
}.

(** One element of the loadlist: a dict, or a JSON value of another type
    (named as Python names it: ["str"], ["int"], ["list"], ...), which
    [handle_start_command] lets through. *)
Inductive run_item :=
| ItemDict (fields : item_fields)
| ItemOther (type_name : text).

(** The value stored under ['loadlist']: a list, or some other JSON value. *)
Inductive loadlist_value :=
| LoadList (items : list run_item)
| NotAList.

(** The dict sent under ['test_config']; a key that is absent is [None]. *)
Record test_config := {
  serial_number : option text;
  model : option text;
  stage : option text;
  loadlist : option loadlist_value
}.

Definition client_id := text.

(** What happens while the worker is inside a plugin call: the plugin
    reports through the callback it was given, and the session threads go
    on serving their clients. *)
Inductive Action :=
| Report (message status : text)
| StartCmd (sender : client_id) (cfg : option test_config)
| StopCmd (sender : client_id)
| StatusCmd (sender : client_id)
| Accept (c : client_id)
| Disconnect (c : client_id).

(** The behaviour of one plugin call: what happens during it, in order,
    and how it ends. *)
Definition Behaviour (A : Type) : Type := (list Action * Outcome A)%type.

(** A model class instance: constructor, [setup], [run_tests] (by position
    in the loadlist and item) and [cleanup] (the call after the loop, and
    the one made by the exception handler). *)
Record Plugin := {
  p_init : Behaviour unit;
  p_setup : Behaviour bool;
  p_run_tests : nat -> run_item -> Behaviour bool;
  p_cleanup : bool -> Behaviour unit
}.

Record TestServer := {
  clients : list client_id;
  current_test : option test_config;
  test_running : bool;
  current_model_instance : option Plugin;
  sockets : list (client_id * Event);
  threads : list (text * test_config)
}.

Definition set_test_running (b : bool) (s : TestServer) : TestServer :=
  {| clients := clients s; current_test := current_test s; test_running := b;
     current_model_instance := current_model_instance s;
     sockets := sockets s; threads := threads s |}.

Definition set_current_test (t : option test_config) (s : TestServer) : TestServer :=
  {| clients := clients s; current_test := t; test_running := test_running s;
     current_model_instance := current_model_instance s;
     sockets := sockets s; threads := threads s |}.

Definition set_current_model_instance (p : option Plugin) (s : TestServer) : TestServer :=
  {| clients := clients s; current_test := current_test s;
     test_running := test_running s; current_model_instance := p;
     sockets := sockets s; threads := threads s |}.

Definition set_clients (cs : list client_id) (s : TestServer) : TestServer :=
  {| clients := cs; current_test := current_test s; test_running := test_running s;
     current_model_instance := current_model_instance s;
     sockets := sockets s; threads := threads s |}.

Definition start_thread (model_name : text) (cfg : test_config) (s : TestServer) : TestServer :=
  {| clients := clients s; current_test := current_test s;
     test_running := test_running s;
     current_model_instance := current_model_instance s;
     sockets := sockets s; threads := threads s ++ [(model_name, cfg)] |}.

(** [send_to_client]: one frame written to the socket of [c]; a failing
    write is caught inside and changes nothing else. *)
Definition send_to_client (c : client_id) (e : Event) (s : TestServer) : TestServer :=
  {| clients := clients s; current_test := current_test s;
     test_running := test_running s;
     current_model_instance := current_model_instance s;
     sockets := sockets s ++ [(c, e)]; threads := threads s |}.

(** [broadcast_to_all_clients]: [send_to_client] never raises, so the list
    of disconnected clients stays empty. *)
Definition broadcast_to_all_clients (e : Event) (s : TestServer) : TestServer :=
  fold_left (fun s' c => send_to_client c e s') (clients s) s.

Definition disconnect_client (c : client_id) (s : TestServer) : TestServer :=
  set_clients (filter (fun c' => negb (text_eqb c' c)) (clients s)) s.

(** [start_test]; the two raising statements inside its [try] are the
    subscript [test_config['serial_number']] and the explicit [ValueError]. *)
Definition start_test (sender : client_id) (cfg : test_config) (s : TestServer) : TestServer :=
  let s1 := set_current_test (Some cfg) (set_test_running true s) in
  let failed (s' : TestServer) (e : text) :=
    send_to_client sender
      {| message := lit "Failed to start test: " ++ e; status := lit "error" |}
      (set_current_test None (set_test_running false s')) in
  match serial_number cfg with
  | None => failed s1 (lit "'serial_number'")
  | Some sn =>
      let s2 := broadcast_to_all_clients
                  {| message := lit "Starting test for SN: " ++ sn;
                     status := lit "running" |} s1 in
      match model cfg with
      | Some (c :: m) => start_thread (c :: m) cfg s2
      | _ => failed s2 (lit "No model specified in test configuration")
      end
  end.

(** [field in test_config] *)
Definition present {A : Type} (o : option A) : bool :=
  match o with Some _ => true | None => false end.

Definition missing_fields (cfg : test_config) : list text :=
  (if present (serial_number cfg) then [] else [lit "serial_number"]) ++
  (if present (model cfg) then [] else [lit "model"]) ++
  (if present (stage cfg) then [] else [lit "stage"]) ++
  (if present (loadlist cfg) then [] else [lit "loadlist"]).

(** [handle_start_command]; [cfg] is [message.get('test_config', {})],
    [None] when it is missing or empty. *)
Definition handle_start_command (sender : client_id) (cfg : option test_config)
    (s : TestServer) : TestServer :=
  if test_running s then
    send_to_client sender
      {| message := lit "Test already running. Please stop current test first.";
         status := lit "running" |} s
  else
    match cfg with
    | None =>
        send_to_client sender
          {| message := lit "No test configuration provided";
             status := lit "error" |} s
    | Some test_config =>
        match missing_fields test_config with
        | (_ :: _) as missing =>
            send_to_client sender
              {| message := lit "Missing required fields: " ++ join (lit ", ") missing;
                 status := lit "error" |} s
        | [] =>
            match loadlist test_config with
            | Some (LoadList (_ :: _)) => start_test sender test_config s
            | _ =>
                send_to_client sender
                  {| message := lit "The 'loadlist' must be a non-empty list.";
                     status := lit "error" |} s
            end
        end
    end.

Definition stop_test (s : TestServer) : TestServer :=
  set_current_test None
    (broadcast_to_all_clients
       {| message := lit "Test stopped by user request"; status := lit "stopped" |}
       (set_test_running false s)).

Definition handle_stop_command (sender : client_id) (s : TestServer) : TestServer :=
  if negb (test_running s) then
    send_to_client sender
      {| message := lit "No test currently running"; status := lit "idle" |} s
  else stop_test s.

Definition handle_status_command (sender : client_id) (s : TestServer) : TestServer :=
  let st := if test_running s then lit "running" else lit "idle" in
  let title := if test_running s then lit "Running" else lit "Idle" in
  let msg := lit "Server status: " ++ title in
  let msg :=
    match current_test s with
    | Some t =>
        msg ++ lit " | Current test: " ++
        match serial_number t with Some sn => sn | None => lit "Unknown" end
    | None => msg
    end in
  send_to_client sender {| message := msg; status := st |} s.

(** The greeting a session sends when its connection is accepted. *)
Definition accept_client (c : client_id) (s : TestServer) : TestServer :=
  let s1 := set_clients
              (if existsb (text_eqb c) (clients s) then clients s
               else clients s ++ [c]) s in
  send_to_client c
    {| message := lit "Connected to server. Status: " ++
                  (if test_running s1 then lit "Running" else lit "Idle");
       status := if test_running s1 then lit "running" else lit "idle" |} s1.

(** The closure [status_callback] of [execute_model_test]. *)
Definition status_callback (message status : text) (s : TestServer) : TestServer :=
  if test_running s then
    broadcast_to_all_clients {| message := message; status := status |} s
  else s.

(** An action is served in one step.  The handlers run in one thread per
    session, without a lock: between the statements of [stop_test] (the
    flag is lowered, the event is broadcast, [current_test] is cleared),
    of [start_test] and of the worker's [finally] clause another thread
    can see the state half-way.  What is seen there is not part of this
    model, and no property below is about it. *)
Definition perform (a : Action) (s : TestServer) : TestServer :=
  match a with
  | Report m st => status_callback m st s
  | StartCmd c cfg => handle_start_command c cfg s
  | StopCmd c => handle_stop_command c s
  | StatusCmd c => handle_status_command c s
  | Accept c => accept_client c s
  | Disconnect c => disconnect_client c s
  end.

Definition perform_all (l : list Action) (s : TestServer) : TestServer :=
  fold_left (fun s' a => perform a s') l s.

(** *** The worker: [execute_model_test] *)

(** The plugin calls the worker makes, recorded as it makes them. *)
Inductive Call :=
| CallInit
| CallSetup
| CallRunTests (i : nat) (item : run_item)
| CallCleanup.

Record World := { server : TestServer; invoked : list Call }.

(** State and exceptions: the body of the worker's [try]. *)
Definition M (A : Type) : Type := World -> Outcome A * World.

Definition ret {A : Type} (a : A) : M A := fun w => (Return a, w).

Definition raise {A : Type} (e : text) : M A := fun w => (Raise e, w).

Definition bind {A B : Type} (m : M A) (k : A -> M B) : M B :=
  fun w =>
    match m w with
    | (Return a, w') => k a w'
    | (Raise e, w') => (Raise e, w')
    end.

Notation "x <- m ;; k" := (bind m (fun x => k))
  (at level 61, m at next level, right associativity).
Notation "m ;; k" := (bind m (fun _ => k))
  (at level 61, right associativity).

Definition on_server (f : TestServer -> TestServer) : M unit :=
  fun w => (Return tt, {| server := f (server w); invoked := invoked w |}).

Definition read {A : Type} (f : TestServer -> A) : M A :=
  fun w => (Return (f (server w)), w).

(** A plugin call: what happens during it is applied to the server, the
    call is recorded, and its outcome is the outcome of the behaviour. *)
Definition call {A : Type} (c : Call) (b : Behaviour A) : M A :=
  fun w =>
    (snd b, {| server := perform_all (fst b) (server w);
               invoked := invoked w ++ [c] |}).

(** [self.current_model_instance.<name>(...)] *)
Definition instance_call {A : Type} (name : string) (c : Call)
    (f : Plugin -> Behaviour A) : M A :=
  inst <- read current_model_instance ;;
  match inst with
  | Some p => call c (f p)
  | None => raise (lit "'NoneType' object has no attribute '" ++ lit name ++ lit "'")
  end.

(** [d.get(key, default)] *)
Definition get_or (o : option text) (default : text) : text :=
  match o with Some v => v | None => default end.

(** The [for] loop over the loadlist, from position [i] on; the result is
    [overall_success] when the loop is left. *)
Fixpoint run_loadlist (total i : nat) (items : list run_item)
    (overall_success : bool) : M bool :=
  match items with
  | [] => ret overall_success
  | run_item :: rest =>
      running <- read test_running ;;
      if negb running then
        on_server (status_callback (lit "Test execution was stopped.") (lit "stopped")) ;;
        ret false
      else
        match run_item with
        | ItemOther type_name =>
            raise (lit "'" ++ type_name ++ lit "' object has no attribute 'get'")
        | ItemDict fields =>
            let temp := get_or (temperature fields) (lit "N/A") in
            let band := get_or (band fields) (lit "N/A") in
            on_server (status_callback
              (lit "--- Running Loadlist item " ++ str_of_nat (i + 1) ++ lit "/" ++
               str_of_nat total ++ lit ": Temp=" ++ temp ++ lit ", Band=" ++ band ++
               lit " ---") (lit "running")) ;;
            run_success <- instance_call "run_tests" (CallRunTests i run_item)
                             (fun p => p_run_tests p i run_item) ;;
            if negb run_success then
              on_server (status_callback
                (lit "Failed item: Temp=" ++ temp ++ lit ", Band=" ++ band)
                (lit "error")) ;;
              run_loadlist total (S i) rest false
            else
              run_loadlist total (S i) rest overall_success
        end
  end.

(** [f"Model{model_name[-1]}" if model_name.startswith('Model') and
    len(model_name) > 5 else model_name] *)
Definition model_class_name (model_name : text) : text :=
  if startswith (lit "Model") model_name && (5 <? length model_name)
  then lit "Model" ++ [last model_name 0%N]
  else model_name.

(** A loaded module, as [getattr(module, class_name)]. *)
Definition PyModule : Type := text -> option Plugin.

(** The final status report. *)
Definition final_event (overall_success : bool) (sn : text) : Event :=
  {| message := lit "Test " ++
       (if overall_success then lit "completed successfully"
        else lit "finished with errors") ++ lit " for SN: " ++ sn;
     status := if overall_success then lit "completed" else lit "error" |}.

Section Worker.

(** [load_model_module]: the model files found on disk. *)
Variable load_model_module : text -> option PyModule.

(** The statements from the end of the loop to the end of the [try]:
    cleanup and the final status report. *)
Definition after_loop (model_name : text) (cfg : test_config)
    (overall_success : bool) : M bool :=
  on_server (status_callback
    (lit "Cleaning up " ++ model_name ++ lit " test environment...")
    (lit "running")) ;;
  instance_call "cleanup" CallCleanup (fun p => p_cleanup p false) ;;
  on_server (set_current_model_instance None) ;;
  running <- read test_running ;;
  (if running then
     match serial_number cfg with
     | Some sn =>
         on_server (broadcast_to_all_clients (final_event overall_success sn))
     | None => raise (lit "'serial_number'")
     end
   else ret tt) ;;
  ret overall_success.

(** The body of the [try]. *)
Definition try_body (model_name : text) (cfg : test_config) : M bool :=
  match load_model_module model_name with
  | None => raise (lit "Model module '" ++ model_name ++ lit ".py' not found")
  | Some model_module =>
      match model_module (model_class_name model_name) with
      | None =>
          raise (lit "Model module '" ++ model_name ++
                 lit ".py' missing required class '" ++
                 model_class_name model_name ++ lit "'")
      | Some model_class =>
          call CallInit (p_init model_class) ;;
          on_server (set_current_model_instance (Some model_class)) ;;
          on_server (status_callback
            (lit "Setting up " ++ model_name ++ lit " test environment...")
            (lit "running")) ;;
          ok <- instance_call "setup" CallSetup p_setup ;;
          if negb ok then raise (lit "Setup failed for " ++ model_name)
          else
            match loadlist cfg with
            | Some NotAList =>
                (* not reached: a thread is started only after
                   [handle_start_command] has checked the loadlist *)
                raise (lit "loadlist is not a list")
            | other =>
                let items := match other with
                             | Some (LoadList l) => l
                             | _ => []
                             end in
                overall_success <- run_loadlist (length items) 0 items true ;;
                after_loop model_name cfg overall_success
            end
      end
  end.

(** The [except Exception as e] clause. *)
Definition except_clause (e : text) (w : World) : World :=
  let w1 := {| server := broadcast_to_all_clients
                  {| message := lit "Test execution error: " ++ e;
                     status := lit "error" |} (server w);
               invoked := invoked w |} in
  match current_model_instance (server w1) with
  | Some p => snd (call CallCleanup (p_cleanup p true) w1)
  | None => w1
  end.

(** The [finally] clause. *)
Definition finally_clause (w : World) : World :=
  {| server := set_current_model_instance None
                 (set_current_test None (set_test_running false (server w)));
     invoked := invoked w |}.

(** [execute_model_test]: the last value of [overall_success] and the
    world the thread leaves behind. *)
Definition execute_model_test (model_name : text) (cfg : test_config)
    (w : World) : bool * World :=
  match try_body model_name cfg w with
  | (Return overall_success, w') => (overall_success, finally_clause w')
  | (Raise e, w') => (false, finally_clause (except_clause e w'))
  end.

End Worker.

(** *** Vocabulary for the properties of the worker *)

(** Actions other than a stop command. *)
Definition quiet (a : Action) : bool :=
  match a with StopCmd _ => false | _ => true end.

Definition is_report (a : Action) : bool :=
  match a with Report _ _ => true | _ => false end.

(** The [run_tests] calls the loop makes when it goes through [items]
    from position [i] without leaving early. *)
Fixpoint run_calls (i : nat) (items : list run_item) : list Call :=
  match items with
  | [] => []
  | x :: rest => CallRunTests i x :: run_calls (S i) rest
  end.

(** The loadlist items [run_tests] was invoked on, in invocation order. *)
Fixpoint invocations (cs : list Call) : list run_item :=
  match cs with
  | [] => []
  | CallRunTests _ x :: rest => x :: invocations rest
  | _ :: rest => invocations rest
  end.

(** What [run_tests] returns for each item of [items], from position [i];
    a call that raises counts as [false]. *)
Fixpoint item_results (p : Plugin) (i : nat) (items : list run_item) : list bool :=
  match items with
  | [] => []
  | x :: rest =>
      match snd (p_run_tests p i x) with
      | Return b => b
      | Raise _ => false
      end :: item_results p (S i) rest
  end.

(** A call that returns [r] while no stop command is served. *)
Definition returns_quietly {A : Type} (b : Behaviour A) (r : A) : Prop :=
  forallb quiet (fst b) = true /\ snd b = Return r.

(** Every item of [items] is a dict and every [run_tests] call on them,
    from position [i], returns while no stop command is served. *)
Fixpoint runs_quietly (p : Plugin) (i : nat) (items : list run_item) : Prop :=
  match items with
  | [] => True
  | x :: rest =>
      (exists fields, x = ItemDict fields)
      /\ (exists r, returns_quietly (p_run_tests p i x) r)
      /\ runs_quietly p (S i) rest
  end.

(** The invariant of TestConfig: the four fields are present and the
    loadlist is a non-empty list. *)
Definition valid_config (cfg : test_config) : bool :=
  present (serial_number cfg) && present (model cfg) && present (stage cfg) &&
  match loadlist cfg with
  | Some (LoadList (_ :: _)) => true
  | _ => false
  end.

(** [test_config.get('loadlist', [])] when it is a list. *)
Definition items_of (cfg : test_config) : list run_item :=
  match loadlist cfg with
  | Some (LoadList l) => l
  | _ => []
  end.

(** The world in which the worker enters the loop over the loadlist, once
    the constructor and [setup] have returned: the instance is stored
    and what happened during the two calls has been applied. *)
Definition loop_entry (model_name : text) (p : Plugin) (w : World) : World :=
  {| server :=
       perform_all (fst (p_setup p))
         (status_callback
            (lit "Setting up " ++ model_name ++ lit " test environment...")
            (lit "running")
            (set_current_model_instance (Some p)
               (perform_all (fst (p_init p)) (server w))));
     invoked := (invoked w ++ [CallInit]) ++ [CallSetup] |}.

(** A small Hoare logic on the record of plugin calls: [tracks I m J]
    when [m], started with a record in [I], leaves one in [J], whether it
    returns or raises. *)
Definition tracks {A : Type} (I : list Call -> Prop) (m : M A)
    (J : list Call -> Prop) : Prop :=
  forall w, I (invoked w) -> J (invoked (snd (m w))).

(** *** A run used in the examples

    Two sessions, the configuration of Scenario A with three loadlist
    items, and a model class whose [run_tests] fails on the items at the
    positions in [failing] and during which, at the positions in
    [stopping], the second session's stop command is served. *)

Definition item_25C : run_item :=
  ItemDict {| temperature := Some (lit "25C"); band := Some (lit "B1");
              test_cases := [lit "gain flatness"] |}.

Definition item_85C : run_item :=
  ItemDict {| temperature := Some (lit "85C"); band := Some (lit "B1");
              test_cases := [lit "gain flatness"; lit "spur"] |}.

Definition item_cold : run_item :=
  ItemDict {| temperature := Some (lit "-40C"); band := Some (lit "B5");
              test_cases := [lit "power sweep"] |}.

Definition demo_config : test_config :=
  {| serial_number := Some (lit "SN1"); model := Some (lit "ModelC");
     stage := Some (lit "S1");
     loadlist := Some (LoadList [item_25C; item_85C; item_cold]) |}.

Definition session_a : client_id := lit "127.0.0.1:50001".
Definition session_b : client_id := lit "127.0.0.1:50002".

Definition demo_plugin (failing stopping : list nat) : Plugin :=
  {| p_init := ([], Return tt);
     p_setup := ([Report (lit "[ModelC] Test runner initialized.") (lit "running")],
                 Return true);
     p_run_tests := fun i _ =>
       if existsb (Nat.eqb i) stopping then
         ([Report (lit "[ModelC] Waiting for temperature to stabilize") (lit "running");
           StopCmd session_b;
           Report (lit "[ModelC] Test stopped by user.") (lit "stopped")],
          Return false)
       else
         ([Report (lit "[ModelC] Temperature stabilized") (lit "running")],
          Return (negb (existsb (Nat.eqb i) failing)));
     p_cleanup := fun _ => ([Report (lit "[ModelC] Cleanup complete.") (lit "running")],
                            Return tt) |}.

(** A model class whose [run_tests] raises on the item at position [n]
    and returns true on the others, while nothing else happens. *)
Definition raising_plugin (n : nat) : Plugin :=
  {| p_init := ([], Return tt);
     p_setup := ([], Return true);
     p_run_tests := fun i _ =>
       if Nat.eqb i n then ([], Raise (lit "instrument not responding"))
       else ([], Return true);
     p_cleanup := fun _ => ([], Return tt) |}.

Definition demo_modules (p : Plugin) (model_name : text) : option PyModule :=
  if text_eqb model_name (lit "ModelC")
  then Some (fun cls => if text_eqb cls (lit "ModelC") then Some p else None)
  else None.

(** The server as [start_test] leaves it for [demo_config]. *)
Definition demo_running : World :=
  {| server := {| clients := [session_a; session_b];
                  current_test := Some demo_config; test_running := true;
                  current_model_instance := None; sockets := [];
                  threads := [(lit "ModelC", demo_config)] |};
     invoked := [] |}.

(** The same server once the worker has stored its plugin instance. *)
Definition demo_in_loop (p : Plugin) : World :=
  {| server := set_current_model_instance (Some p) (server demo_running);
     invoked := [CallInit; CallSetup] |}.

Definition demo_idle : TestServer :=
  {| clients := [session_a; session_b]; current_test := None;
     test_running := false; current_model_instance := None;
     sockets := []; threads := [] |}.

(** The frames of a socket log that carry the status [st]. *)
Definition with_status (st : text) (log : list (client_id * Event)) :
    list (client_id * Event) :=
  filter (fun f => text_eqb (status (snd f)) st) log.

(** Whether some frame of a socket log carries the message [m]. *)
Definition carries (m : text) (log : list (client_id * Event)) : bool :=
  existsb (fun f => text_eqb (message (snd f)) m) log.

End Server3.

(** ** The reference dispatcher: [Server_depen/test_case_2.py] *)

Module TestCases2.

(** The dict [run_test_by_name] returns. *)
Record result := { passed : bool; message : text }.

(** The instance: what [is_running_func] answers, the reports made through
    [status_callback] (message and status, "running" when the call leaves
    the status to the callback's default), the entries of
    [test_config_dict] the test cases read and write, and the clock read
    by [time.time()], in milliseconds. *)
Record Instance := {
  is_running : bool;
  reports : list (text * text);
  model_number : option text;
  param_stage : option text;
  param_temperature : option text;
  param_band : option text;
  test_case_run_id : option N;
  clock_ms : N
}.

Definition status_callback (msg status : text) (self : Instance) : Instance :=
  {| is_running := is_running self; reports := reports self ++ [(msg, status)];
     model_number := model_number self; param_stage := param_stage self;
     param_temperature := param_temperature self; param_band := param_band self;
     test_case_run_id := test_case_run_id self; clock_ms := clock_ms self |}.

(** A callback that returns once it has taken the report: the closure
    [status_callback] of the engine, whose writes to the sockets catch
    their exceptions, and [_status_callback_placeholder], which prints. *)
Definition recording_callback (msg status : text) (self : Instance) :
    Outcome unit * Instance :=
  (Return tt, status_callback msg status self).

Definition set_test_case_run_id (id : N) (self : Instance) : Instance :=
  {| is_running := is_running self; reports := reports self;
     model_number := model_number self; param_stage := param_stage self;
     param_temperature := param_temperature self; param_band := param_band self;
     test_case_run_id := Some id; clock_ms := clock_ms self |}.

(** What [getattr(self, method_name, None)] finds: a bound method, an
    attribute that is not callable, or nothing. *)
Inductive Attribute :=
| Method (body : Instance -> Outcome bool * Instance)
| Data
| Missing.

(** [str(x)] for an optional entry. *)
Definition str_of_option (o : option text) : text :=
  match o with Some v => v | None => lit "None" end.

(** [_should_continue] *)
Definition should_continue (self : Instance) : bool := is_running self.

(** [test_gain_flatness]; the instrument of the mock is a GPIB one, the
    limits are -0.5 and 0.5 and the simulated measurement is 0.2, so the
    comparison [lo_limit <= measured_value <= hi_limit] holds. *)
Definition test_gain_flatness (self : Instance) : Outcome bool * Instance :=
  if negb (should_continue self) then (Return false, self)
  else
    let s1 := status_callback
                (lit "Gain Flatness test starting for Model=" ++
                 match model_number self with Some v => v | None => lit "Unknown" end ++
                 lit ", Stage=" ++ str_of_option (param_stage self) ++
                 lit ", Temp=" ++ str_of_option (param_temperature self) ++
                 lit ", Band=" ++ str_of_option (param_band self)) (lit "running") self in
    let run_id := (clock_ms s1 mod 100000)%N in
    let s2 := set_test_case_run_id run_id
                (status_callback
                   (lit "Created Test Case Run Record ID: " ++ str_of_N run_id)
                   (lit "running") s1) in
    let s3 := status_callback
                (lit "Retrieved for 'power meter output': Conn='GPIB0::15::INSTR', CH=1")
                (lit "running") s2 in
    let s4 := status_callback
                (lit "Initializing Power Meter: Conn='GPIB0::15::INSTR', CH=1")
                (lit "running") s3 in
    let s5 := status_callback
                (lit "Retrieved specs: {'center_freq': 2500, 'span': '2.5G', 'max_gain_ripple': 0.5}")
                (lit "running") s4 in
    let s6 := status_callback (lit "Retrieved measurement definitions.") (lit "running") s5 in
    let s7 := status_callback (lit "Measured Value: 0.2") (lit "running") s6 in
    let s8 := status_callback
                (lit "Setting measurement result for MeasID 101: Value=0.2, Status=Passed")
                (lit "running") s7 in
    let s9 := status_callback
                (lit "Completing Test Case Run ID: " ++ str_of_N run_id ++
                 lit " with status: passed") (lit "running") s8 in
    (Return true, s9).

Definition test_power_sweep (self : Instance) : Outcome bool * Instance :=
  (Return false,
   status_callback (lit "Executing Power Sweep test (placeholder)...") (lit "running") self).

Definition test_am_pm (self : Instance) : Outcome bool * Instance :=
  (Return true,
   status_callback (lit "Executing AM/PM test (placeholder)...") (lit "running") self).

Definition test_spur (self : Instance) : Outcome bool * Instance :=
  (Return true,
   status_callback (lit "Executing Spur test (placeholder)...") (lit "running") self).

(** The attributes of a [TestCases2] instance whose name starts with
    ["test_"]: four methods and the dict [test_config_dict]. *)
Definition attributes (name : text) : Attribute :=
  if text_eqb name (lit "test_gain_flatness") then Method test_gain_flatness
  else if text_eqb name (lit "test_power_sweep") then Method test_power_sweep
  else if text_eqb name (lit "test_am_pm") then Method test_am_pm
  else if text_eqb name (lit "test_spur") then Method test_spur
  else if text_eqb name (lit "test_config_dict") then Data
  else Missing.

Section Dispatcher.

(** [str.lower] on text that holds a character outside ASCII: the Unicode
    case mapping, which is not a mapping character by character (a
    capital sigma is lowered according to what stands around it). *)
Variable unicode_lower : text -> text.

(** [getattr(self, name, None)] of the class at hand. *)
Variable getattr : text -> Attribute.

(** An ASCII letter in lower case, another ASCII character as it is. *)
Definition lower_char (c : N) : N :=
  if (65 <=? c)%N && (c <=? 90)%N then (c + 32)%N else c.

(** [s.lower()] *)
Definition lower (s : text) : text :=
  if forallb (fun c => (c <? 128)%N) s then map lower_char s else unicode_lower s.

(** [s.replace(old, new)] for one-character [old] and [new]. *)
Definition replace (old new : N) (s : text) : text :=
  map (fun c => if N.eqb c old then new else c) s.

(** ["test_" + test_name.lower().replace(' ', '_').replace('/', '_')] *)
Definition method_name (test_name : text) : text :=
  lit "test_" ++ replace 47 95 (replace 32 95 (lower test_name)).

(** [self.status_callback(message, "error")] as [run_test_by_name] calls
    it, outside any [try]: the callback is the one the instance was given,
    and an exception it raises is not caught. *)
Variable callback : text -> text -> Instance -> Outcome unit * Instance.

Definition run_test_by_name (test_name : text) (self : Instance) :
    Outcome result * Instance :=
  match getattr (method_name test_name) with
  | Method test_method =>
      match test_method self with
      | (Return passed, self') =>
          (Return {| passed := passed;
                     message := if passed
                                then lit "'" ++ test_name ++ lit "' completed."
                                else lit "'" ++ test_name ++ lit "' failed during execution." |},
           self')
      | (Raise e, self') =>
          match callback (lit "CRITICAL ERROR in " ++ test_name ++ lit ": " ++ e)
                  (lit "error") self' with
          | (Return _, self'') =>
              (Return {| passed := false;
                         message := lit "Execution error in '" ++ test_name ++
                                    lit "': " ++ e |},
               self'')
          | (Raise e', self'') => (Raise e', self'')
          end
      end
  | _ =>
      let message := lit "Test case '" ++ test_name ++
                     lit "' is not implemented in TestCases2." in
      match callback message (lit "error") self with
      | (Return _, self') => (Return {| passed := false; message := message |}, self')
      | (Raise e, self') => (Raise e, self')
      end
  end.

End Dispatcher.

(** One pass over an ASCII name doing what the three passes do. *)
Definition normalize_ascii (c : N) : N :=
  if (65 <=? c)%N && (c <=? 90)%N then (c + 32)%N
  else if (c =? 32)%N || (c =? 47)%N then 95%N
  else c.


Definition demo_instance : Instance :=
  {| is_running := true; reports := []; model_number := Some (lit "ModelC");
     param_stage := Some (lit "S1"); param_temperature := Some (lit "25C");
     param_band := Some (lit "B1"); test_case_run_id := None;
     clock_ms := 1234567%N |}.

End TestCases2.

(** ** The catalog query: [get_testcase] of [Client6.py] *)

Module Catalog.

(** A row of the sheet [TestCaseRules]. *)
Record rule := {
  ModelID : Z; BandID : Z; TemperatureID : Z; Priority : Z; TestCaseID : Z
}.

(** A row of the sheet [TestCaseDefinitions]. *)
Record definition := { ID : Z; TestCaseName : text }.

(** [Series.unique()]: the values in order of first appearance. *)
Fixpoint unique (l : list Z) : list Z :=
  match l with
  | [] => []
  | x :: rest => x :: filter (fun y => negb (Z.eqb y x)) (unique rest)
  end.

(** [Series.min()] of a non-empty column. *)
Definition column_min (first : Z) (rest : list Z) : Z := fold_left Z.min rest first.

Section Tables.

Variable TESTCASE_RULES_DF : list rule.
Variable TESTCASE_DEFS_DF : list definition.

(** [model_match & band_match & temp_match] for one row. *)
Definition rule_matches (model_id band_id temperature_id : Z) (r : rule) : bool :=
  ((ModelID r =? model_id)%Z || (ModelID r =? 0)%Z) &&
  ((BandID r =? band_id)%Z || (BandID r =? 0)%Z) &&
  ((TemperatureID r =? temperature_id)%Z || (TemperatureID r =? 0)%Z).

Definition get_testcase (model_id band_id temperature_id : Z) : list definition :=
  let applicable_rules :=
    filter (rule_matches model_id band_id temperature_id) TESTCASE_RULES_DF in
  match applicable_rules with
  | [] => []
  | r :: rest =>
      let highest_priority := column_min (Priority r) (map Priority rest) in
      let winning_rule_tcs :=
        filter (fun r' => (Priority r' =? highest_priority)%Z) applicable_rules in
      let test_case_ids := unique (map TestCaseID winning_rule_tcs) in
      filter (fun d => existsb (Z.eqb (ID d)) test_case_ids) TESTCASE_DEFS_DF
  end.

End Tables.

(** A rule table with a wildcard rule and two more specific ones, and the
    definitions they refer to. *)
Definition demo_rules : list rule :=
  [ {| ModelID := 0; BandID := 0; TemperatureID := 0; Priority := 100; TestCaseID := 1 |};
    {| ModelID := 3; BandID := 0; TemperatureID := 0; Priority := 10; TestCaseID := 2 |};
    {| ModelID := 3; BandID := 7; TemperatureID := 0; Priority := 10; TestCaseID := 4 |};
    {| ModelID := 3; BandID := 0; TemperatureID := 5; Priority := 10; TestCaseID := 2 |};
    {| ModelID := 9; BandID := 7; TemperatureID := 5; Priority := 1; TestCaseID := 3 |} ]%Z.

Definition demo_defs : list definition :=
  [ {| ID := 1; TestCaseName := lit "Gain Flatness" |};
    {| ID := 2; TestCaseName := lit "Power Sweep" |};
    {| ID := 3; TestCaseName := lit "AM/PM" |};
    {| ID := 4; TestCaseName := lit "Spur" |} ]%Z.

End Catalog.

(** ** JSON text: [json.dumps] and [JSONDecoder.raw_decode]

    The library functions the channel calls, for the values the channel
    carries: objects whose members are strings.  The encoder is the
    default one ([ensure_ascii], separators [", "] and [": "]); the decoder
    follows [scanner.py] and [decoder.py]. *)

Module Json.
Local Open Scope N_scope.

(** A dict with string keys and string values, in insertion order. *)
Definition dict := list (text * text).

(** [d[k] = v] *)
Fixpoint dict_set (k v : text) (d : dict) : dict :=
  match d with
  | [] => [(k, v)]
  | (k', v') :: rest =>
      if text_eqb k' k then (k', v) :: rest else (k', v') :: dict_set k v rest
  end.

(** [d.get(k)] *)
Fixpoint dict_get (k : text) (d : dict) : option text :=
  match d with
  | [] => None
  | (k', v') :: rest => if text_eqb k' k then Some v' else dict_get k rest
  end.

(** [dict(pairs)] *)
Definition dict_of_pairs (pairs : list (text * text)) : dict :=
  fold_left (fun d kv => dict_set (fst kv) (snd kv) d) pairs [].

(** *** Encoding *)

Definition hexdigit (n : N) : N := if n <? 10 then 48 + n else 87 + n.

(** ['{0:04x}'.format(n)], for [n < 0x10000]. *)
Definition hex4 (n : N) : text :=
  [hexdigit (n / 4096 mod 16); hexdigit (n / 256 mod 16);
   hexdigit (n / 16 mod 16); hexdigit (n mod 16)].

(** The replacement [py_encode_basestring_ascii] makes for one character:
    the short escapes of [ESCAPE_DCT], the printable ASCII characters as
    they are, and [\uXXXX] for the rest, as a surrogate pair above the
    basic plane. *)
Definition escape (c : N) : text :=
  if c =? 34 then [92; 34]
  else if c =? 92 then [92; 92]
  else if c =? 10 then [92; 110]
  else if c =? 13 then [92; 114]
  else if c =? 9 then [92; 116]
  else if c =? 12 then [92; 102]
  else if c =? 8 then [92; 98]
  else if (32 <=? c) && (c <=? 126) then [c]
  else if c <? 65536 then 92 :: 117 :: hex4 c
  else
    let n := c - 65536 in
    let s1 := N.lor 55296 (N.land (N.shiftr n 10) 1023) in
    let s2 := N.lor 56320 (N.land n 1023) in
    (92 :: 117 :: hex4 s1) ++ (92 :: 117 :: hex4 s2).

Definition encode_basestring_ascii (s : text) : text :=
  34 :: flat_map escape s ++ [34].

(** [json.dumps(d)] *)
Definition dumps (d : dict) : text :=
  [123] ++
  join (lit ", ")
    (map (fun kv => encode_basestring_ascii (fst kv) ++ lit ": " ++
                    encode_basestring_ascii (snd kv)) d) ++
  [125].

(** *** Decoding *)

Definition hexval (c : N) : option N :=
  if (48 <=? c) && (c <=? 57) then Some (c - 48)
  else if (97 <=? c) && (c <=? 102) then Some (c - 87)
  else if (65 <=? c) && (c <=? 70) then Some (c - 55)
  else None.

(** [_decode_uXXXX] on the four characters after [\u]. *)
Definition decode_uXXXX (h1 h2 h3 h4 : N) : option N :=
  match hexval h1, hexval h2, hexval h3, hexval h4 with
  | Some a, Some b, Some c, Some d => Some (((a * 16 + b) * 16 + c) * 16 + d)
  | _, _, _, _ => None
  end.

(** The table [BACKSLASH]. *)
Definition backslash (esc : N) : option N :=
  if esc =? 34 then Some 34
  else if esc =? 92 then Some 92
  else if esc =? 47 then Some 47
  else if esc =? 98 then Some 8
  else if esc =? 102 then Some 12
  else if esc =? 110 then Some 10
  else if esc =? 114 then Some 13
  else if esc =? 116 then Some 9
  else None.

Definition is_high_surrogate (u : N) : bool := (55296 <=? u) && (u <=? 56319).
Definition is_low_surrogate (u : N) : bool := (56320 <=? u) && (u <=? 57343).

(** [0x10000 + (((uni - 0xd800) << 10) | (uni2 - 0xdc00))] *)
Definition join_surrogates (uni uni2 : N) : N :=
  65536 + N.lor (N.shiftl (uni - 55296) 10) (uni2 - 56320).

Definition push (c : N) (r : option (text * text)) : option (text * text) :=
  match r with
  | Some (str, rest) => Some (c :: str, rest)
  | None => None
  end.

(** [py_scanstring] in strict mode, from the character after the opening
    quote: the string and what follows its closing quote, or [None] for
    [JSONDecodeError]. *)
Fixpoint scanstring (s : text) : option (text * text) :=
  match s with
  | [] => None
  | c :: rest =>
      if c =? 34 then Some ([], rest)
      else if c =? 92 then
        match rest with
        | [] => None
        | esc :: rest1 =>
            if esc =? 117 then
              match rest1 with
              | h1 :: h2 :: h3 :: h4 :: rest2 =>
                  match decode_uXXXX h1 h2 h3 h4 with
                  | None => None
                  | Some uni =>
                      if is_high_surrogate uni then
                        match rest2 with
                        | b :: u :: rest3 =>
                            if (b =? 92) && (u =? 117) then
                              match rest3 with
                              | k1 :: k2 :: k3 :: k4 :: rest4 =>
                                  match decode_uXXXX k1 k2 k3 k4 with
                                  | None => None
                                  | Some uni2 =>
                                      if is_low_surrogate uni2
                                      then push (join_surrogates uni uni2) (scanstring rest4)
                                      else push uni (scanstring rest2)
                                  end
                              | _ => None
                              end
                            else push uni (scanstring rest2)
                        | _ => push uni (scanstring rest2)
                        end
                      else push uni (scanstring rest2)
                  end
              | _ => None
              end
            else
              match backslash esc with
              | Some char => push char (scanstring rest1)
              | None => None
              end
        end
      else if c <? 32 then None
      else push c (scanstring rest)
  end.

(** The characters of [WHITESPACE]. *)
Definition is_ws (c : N) : bool :=
  (c =? 32) || (c =? 9) || (c =? 10) || (c =? 13).

(** [_w(s, end).end()] *)
Fixpoint skip_ws (s : text) : text :=
  match s with
  | c :: rest => if is_ws c then skip_ws rest else s
  | [] => []
  end.

Inductive value :=
| VString (s : text)
| VObject (d : dict).

(** The outcome of decoding at the head of a text: a value and the text
    after it; [JSONDecodeError]; or [Unsupported] when the text goes on
    with a JSON value other than a string or an object of strings, about
    which the model says nothing. *)
Inductive decoded :=
| Decoded (v : value) (rest : text)
| DecodeError
| Unsupported.

(** Characters that can start a number, an array, an object or a literal. *)
Definition starts_other_value (c : N) : bool :=
  (c =? 123) || (c =? 91) || (c =? 45) || ((48 <=? c) && (c <=? 57)) ||
  (c =? 110) || (c =? 116) || (c =? 102) || (c =? 78) || (c =? 73).

(** [scan_once] at the value of a member. *)
Definition scan_member_value (s : text) : decoded :=
  match s with
  | [] => DecodeError
  | c :: rest =>
      if c =? 34 then
        match scanstring rest with
        | Some (str, tl) => Decoded (VString str) tl
        | None => DecodeError
        end
      else if starts_other_value c then Unsupported
      else DecodeError
  end.

(** The [while True] loop of [JSONObject], entered after the opening quote
    of a key; one unit of [fuel] per member. *)
Fixpoint object_members (fuel : nat) (s : text) (pairs : list (text * text)) : decoded :=
  match fuel with
  | O => Unsupported
  | S fuel' =>
      match scanstring s with
      | None => DecodeError
      | Some (key, s1) =>
          match skip_ws s1 with
          | [] => DecodeError
          | colon :: s2 =>
              if colon =? 58 then
                match scan_member_value (skip_ws s2) with
                | Decoded (VString v) s3 =>
                    match skip_ws s3 with
                    | [] => DecodeError
                    | nextchar :: s4 =>
                        if nextchar =? 125 then
                          Decoded (VObject (dict_of_pairs (pairs ++ [(key, v)]))) s4
                        else if nextchar =? 44 then
                          match skip_ws s4 with
                          | quote :: s5 =>
                              if quote =? 34
                              then object_members fuel' s5 (pairs ++ [(key, v)])
                              else DecodeError
                          | [] => DecodeError
                          end
                        else DecodeError
                    end
                | Decoded (VObject _) _ => Unsupported
                | DecodeError => DecodeError
                | Unsupported => Unsupported
                end
              else DecodeError
          end
      end
  end.

(** [JSONObject], from the character after the opening brace; the member
    loop is given a unit of fuel per character, more than it can use. *)
Definition JSONObject (s : text) : decoded :=
  match skip_ws s with
  | [] => DecodeError
  | c :: rest =>
      if c =? 125 then Decoded (VObject []) rest
      else if c =? 34 then object_members (length s) rest []
      else DecodeError
  end.

(** [JSONDecoder().raw_decode(s)]: the value at the head of [s] and the
    text after it; the index the library returns is the length of what was
    consumed. *)
Definition raw_decode (s : text) : decoded :=
  match s with
  | [] => DecodeError
  | c :: rest =>
      if c =? 34 then
        match scanstring rest with
        | Some (str, tl) => Decoded (VString str) tl
        | None => DecodeError
        end
      else if c =? 123 then JSONObject rest
      else if starts_other_value c then Unsupported
      else DecodeError
  end.

Definition is_ascii (c : N) : bool := c <? 128.

(** Unicode scalar values: code points that are not surrogates. *)
Definition is_scalar (c : N) : bool :=
  (c <? 55296) || ((57343 <? c) && (c <? 1114112)).

Definition well_formed (s : text) : bool := forallb is_scalar s.

(** *** Vocabulary for the properties of the codec *)

(** One member as [dumps] writes it. *)
Definition member (kv : text * text) : text :=
  encode_basestring_ascii (fst kv) ++ lit ": " ++ encode_basestring_ascii (snd kv).

(** The text of an object whose first member is [(k, v)], from the
    character after the opening quote of [k]. *)
Definition member_tail (k v : text) (more : text) : text :=
  flat_map escape k ++ 34 :: 58 :: 32 :: 34 :: flat_map escape v ++ 34 :: more.

Fixpoint members_after (d : dict) (close : text) : text :=
  match d with
  | [] => close
  | (k, v) :: d' => 44 :: 32 :: 34 :: member_tail k v (members_after d' close)
  end.

(** Every key and value of a dict is Unicode text. *)
Definition well_formed_dict (d : dict) : bool :=
  forallb (fun kv => well_formed (fst kv) && well_formed (snd kv)) d.

End Json.

(** ** The framed channel: [send_to_client] and [process_buffer] *)

Module Channel.
Import Json.

(** The dict [send_to_client] is given for an event. *)
Definition event_dict (e : Server3.Event) : dict :=
  [(lit "message", Server3.message e); (lit "status", Server3.status e)].

(** [str.encode('utf-8')] of ASCII text, one byte per character; [None]
    for other text, which [json.dumps] does not produce. *)
Definition encode_utf8 (s : text) : option (list N) :=
  if forallb is_ascii s then Some s else None.

(** [bytes.decode('utf-8', errors='replace')] of ASCII bytes; [None] for
    other bytes. *)
Definition decode_utf8 (data : list N) : option text :=
  if forallb is_ascii data then Some data else None.

(** [send_to_client]: the bytes handed to [sendall]. *)
Definition send_to_client (message : dict) : option (list N) :=
  encode_utf8 (dumps message ++ [10%N]).

(** The colours the client uses. *)
Inductive Color := RED | BLUE | ORANGE_100 | GREEN_ACCENT_700 | AMBER | YELLOW | GREY.

(** [SocketManager]: the receive buffer, the lines shown and the status
    indicator; [handled] records the objects given to [handle_message]. *)
Record SocketManager := {
  buffer : text;
  output_list : list (text * Color);
  status_indicator : Color;
  handled : list dict
}.

Definition set_buffer (b : text) (self : SocketManager) : SocketManager :=
  {| buffer := b; output_list := output_list self;
     status_indicator := status_indicator self; handled := handled self |}.

Definition is_failure_status (status : option text) : bool :=
  match status with
  | Some st => text_eqb st (lit "stopped") || text_eqb st (lit "error") ||
               text_eqb st (lit "Failed")
  | None => false
  end.

Definition has_status (status : option text) (name : string) : bool :=
  match status with
  | Some st => text_eqb st (lit name)
  | None => false
  end.

Definition handle_message (decoded_data : dict) (self : SocketManager) : SocketManager :=
  let message := match dict_get (lit "message") decoded_data with
                 | Some v => v
                 | None => lit "No message field"
                 end in
  let status := dict_get (lit "status") decoded_data in
  {| buffer := buffer self;
     output_list := output_list self ++
                    [(message, if is_failure_status status then RED else BLUE)];
     status_indicator :=
       if has_status status "idle" then ORANGE_100
       else if has_status status "running" then RED
       else if has_status status "completed" then GREEN_ACCENT_700
       else if is_failure_status status then AMBER
       else YELLOW;
     handled := handled self ++ [decoded_data] |}.

(** [str.isspace] for one character. *)
Definition isspace (c : N) : bool :=
  ((9 <=? c) && (c <=? 13))%N || ((28 <=? c) && (c <=? 32))%N ||
  (c =? 133)%N || (c =? 160)%N || (c =? 5760)%N ||
  ((8192 <=? c) && (c <=? 8202))%N || (c =? 8232)%N || (c =? 8233)%N ||
  (c =? 8239)%N || (c =? 8287)%N || (c =? 12288)%N.

(** The number of leading characters of [s] that are spaces. *)
Fixpoint leading_spaces (s : text) : nat :=
  match s with
  | c :: rest => if isspace c then S (leading_spaces rest) else 0
  | [] => 0
  end.

(** The index of the first ['{'] of [s], if any. *)
Fixpoint index_of_brace (s : text) : option nat :=
  match s with
  | [] => None
  | c :: rest =>
      if (c =? 123)%N then Some 0
      else match index_of_brace rest with
           | Some k => Some (S k)
           | None => None
           end
  end.

(** [buffer.find('{', start)] *)
Definition find_brace (buffer : text) (start : nat) : option nat :=
  match index_of_brace (skipn start buffer) with
  | Some k => Some (start + k)
  | None => None
  end.

(** How [process_buffer] ends: normally, with the exception
    [handle_message] raises on a decoded value that is not a dict, or in a
    way the model does not cover. *)
Inductive processed :=
| Processed (self : SocketManager)
| HandlerRaised
| Beyond.

(** The statement after the loop: [if start_pos > 0: self.buffer =
    self.buffer[start_pos:]]. *)
Definition drop_consumed (start_pos : nat) (self : SocketManager) : SocketManager :=
  if 0 <? start_pos then set_buffer (skipn start_pos (buffer self)) self else self.

(** The [while] loop of [process_buffer] followed by [drop_consumed];
    [fuel] bounds the turns of the loop. *)
Fixpoint process_loop (fuel : nat) (start_pos : nat) (self : SocketManager) : processed :=
  match fuel with
  | O => Beyond
  | S fuel' =>
      if start_pos <? length (buffer self) then
        let tail := skipn start_pos (buffer self) in
        match raw_decode tail with
        | Decoded (VObject obj) rest =>
            let end_pos := length tail - length rest in
            let self1 := handle_message obj self in
            let start_pos := start_pos + end_pos in
            let start_pos :=
              start_pos + leading_spaces (skipn start_pos (buffer self1)) in
            process_loop fuel' start_pos self1
        | Decoded (VString _) _ => HandlerRaised
        | Unsupported => Beyond
        | DecodeError =>
            if 1000 <? length (buffer self) - start_pos then
              let kept := skipn (length (buffer self) - 500) (buffer self) in
              process_loop fuel' 0 (set_buffer kept self)
            else
              match find_brace (buffer self) (start_pos + 1) with
              | Some next_open_brace => process_loop fuel' next_open_brace self
              | None => Processed (drop_consumed start_pos self)
              end
        end
      else Processed (drop_consumed start_pos self)
  end.

(** [process_buffer]; a turn of the loop moves [start_pos] forward or, at
    most once, cuts the buffer down to 500 characters: the fuel given
    here is never used up. *)
Definition process_buffer (self : SocketManager) : processed :=
  process_loop (2 * length (buffer self) + 2) 0 self.

(** One turn of [receive_messages] for a chunk of data that was read. *)
Definition receive (data : list N) (self : SocketManager) : processed :=
  match decode_utf8 data with
  | Some decoded_chunk => process_buffer (set_buffer (buffer self ++ decoded_chunk) self)
  | None => Beyond
  end.

(** The bytes of a sequence of events sent one after the other. *)
Fixpoint send_all (events : list Server3.Event) : option (list N) :=
  match events with
  | [] => Some []
  | e :: rest =>
      match send_to_client (event_dict e), send_all rest with
      | Some frame, Some more => Some (frame ++ more)
      | _, _ => None
      end
  end.

(** What the client has done once it has handled [events] in order. *)
Definition handle_all (events : list Server3.Event) (self : SocketManager) : SocketManager :=
  fold_left (fun s e => handle_message (event_dict e) s) events self.

(** The text of the frames of a sequence of events. *)
Fixpoint frames (events : list Server3.Event) : text :=
  match events with
  | [] => []
  | e :: rest => dumps (event_dict e) ++ 10%N :: frames rest
  end.

(** The turns the loop can still make. *)
Definition turns_left (start_pos : nat) (self : SocketManager) : nat :=
  (length (buffer self) - start_pos) +
  (if 1000 <? length (buffer self) then 502 else 0).

Definition fresh : SocketManager :=
  {| buffer := []; output_list := []; status_indicator := YELLOW; handled := [] |}.

(** [f] holds of the [fuel] numbers from [i] on. *)
Fixpoint all_from (fuel : nat) (i : N) (f : N -> bool) : bool :=
  match fuel with
  | O => true
  | S k => f i && all_from k (N.succ i) f
  end.

(** [_decode_uXXXX] reads back what [hex4] writes. *)
Definition hex4_reads_back (n : N) : bool :=
  match hex4 n with
  | [a; b; c; d] =>
      match decode_uXXXX a b c d with
      | Some k => N.eqb k n
      | None => false
      end
  | _ => false
  end.

(** The surrogates written for a character above the basic plane are a
    high and a low one that join back into the character. *)
Definition surrogates_join_back (c : N) : bool :=
  let n := (c - 65536)%N in
  let s1 := N.lor 55296 (N.land (N.shiftr n 10) 1023) in
  let s2 := N.lor 56320 (N.land n 1023) in
  is_high_surrogate s1 && is_low_surrogate s2 && N.eqb (join_surrogates s1 s2) c.

(** Two events of a run, the first with a quote, a backslash, a line
    break, an accented letter, a euro sign and an emoji in its message. *)
Definition demo_event_1 : Server3.Event :=
  {| Server3.message := lit "Retrieved specs: {'center_freq': 2500} " ++
                        [34; 92; 10; 233; 8364; 128512]%N;
     Server3.status := lit "running" |}.

Definition demo_event_2 : Server3.Event :=
  {| Server3.message := lit "Failed item: Temp=25C, Band=B1";
     Server3.status := lit "error" |}.

(** A report of [TestCases2] whose message holds a brace. *)
Definition demo_event_3 : Server3.Event :=
  {| Server3.message := lit "Retrieved specs: {'center_freq': 2500}";
     Server3.status := lit "running" |}.

(** An event is well formed when its two strings are Unicode text. *)
Definition well_formed_event (e : Server3.Event) : bool :=
  well_formed (Server3.message e) && well_formed (Server3.status e).

End Channel.

(** ** The session loop: [handle_client] and [process_client_message] of
    [Server3.py], and the requests [Client6.py] sends *)

Module Session.
Import Server3.

(** The value a decoded line holds under ['command']: a string, or a JSON
    value of another type, named as Python names it (["int"],
    ["NoneType"], ...). *)
Inductive command_value :=
| CommandStr (c : text)
| CommandOther (type_name : text).

(** A decoded line: an object, of which the handlers read the keys
    ['command'] and ['test_config'], or a JSON value of another type.
    The configuration is [None] when the key is missing or its value is
    empty, as [handle_start_command] takes it; a value under
    ['test_config'] that is neither empty nor an object is not covered. *)
Inductive client_message :=
| MsgObject (command : option command_value) (test_config : option test_config)
| MsgOther (type_name : text).

(** What [json.loads] does with a line: a value, the exception
    [JSONDecodeError] with its text, or a line the model of the library
    does not cover. *)
Inductive parsed :=
| Parsed (message : client_message)
| JSONDecodeError (e : text)
| NotCovered.

(** How the loop over the lines of the buffer ends: with the rest of the
    buffer, with an exception that is not a [JSONDecodeError], or in a way
    the model does not cover. *)
Inductive lines_result :=
| Continue (buffer : text) (s : TestServer)
| Raised (e : text) (s : TestServer)
| OutOfModel.

(** A session thread: waiting in [recv] with its buffer, or ended. *)
Inductive session :=
| Open (buffer : text) (s : TestServer)
| Closed (s : TestServer)
| Unknown.

(** [s.lstrip()], [s.rstrip()] and [s.strip()] *)
Fixpoint lstrip (s : text) : text :=
  match s with
  | c :: rest => if Channel.isspace c then lstrip rest else s
  | [] => []
  end.

Definition rstrip (s : text) : text := rev (lstrip (rev s)).

Definition strip (s : text) : text := rstrip (lstrip s).

(** [buffer.split('\n', 1)] when ['\n' in buffer]: the text before the
    first line break and the text after it; [None] when there is none. *)
Fixpoint split_newline (buffer : text) : option (text * text) :=
  match buffer with
  | [] => None
  | c :: rest =>
      if (c =? 10)%N then Some ([], rest)
      else match split_newline rest with
           | Some (message_str, tail) => Some (c :: message_str, tail)
           | None => None
           end
  end.

(** [bytes.decode('utf-8')] of ASCII bytes, one character per byte; [None]
    for other bytes, which the model does not cover. *)
Definition decode (data : list N) : option text :=
  if forallb Json.is_ascii data then Some data else None.

Section Loop.

(** [str.lower] on text that holds a character outside ASCII. *)
Variable unicode_lower : text -> text.

(** [json.loads] *)
Variable loads : text -> parsed.

(** [message.get('command', '').lower()] *)
Definition command_of (command : option command_value) : Outcome text :=
  match command with
  | None => Return (TestCases2.lower unicode_lower [])
  | Some (CommandStr c) => Return (TestCases2.lower unicode_lower c)
  | Some (CommandOther type_name) =>
      Raise (lit "'" ++ type_name ++ lit "' object has no attribute 'lower'")
  end.

(** [process_client_message]; the exceptions are the [AttributeError]s of
    [message.get] and of [.lower()]. *)
Definition process_client_message (sender : client_id) (message : client_message)
    (s : TestServer) : Outcome TestServer :=
  match message with
  | MsgOther type_name =>
      Raise (lit "'" ++ type_name ++ lit "' object has no attribute 'get'")
  | MsgObject command test_config =>
      match command_of command with
      | Raise e => Raise e
      | Return command =>
          if text_eqb command (lit "start") then
            Return (handle_start_command sender test_config s)
          else if text_eqb command (lit "stop") then
            Return (handle_stop_command sender s)
          else if text_eqb command (lit "status") then
            Return (handle_status_command sender s)
          else
            Return (send_to_client sender
                      {| message := lit "Unknown command: " ++ command;
                         status := lit "error" |} s)
      end
  end.

(** The loop [while '\n' in buffer] of [handle_client]; [fuel] bounds its
    turns. *)
Fixpoint lines_loop (fuel : nat) (sender : client_id) (buffer : text)
    (s : TestServer) : lines_result :=
  match fuel with
  | O => OutOfModel
  | S fuel' =>
      match split_newline buffer with
      | None => Continue buffer s
      | Some (message_str, buffer) =>
          match strip message_str with
          | [] => lines_loop fuel' sender buffer s
          | (_ :: _) as stripped =>
              match loads stripped with
              | Parsed message =>
                  match process_client_message sender message s with
                  | Return s' => lines_loop fuel' sender buffer s'
                  | Raise e => Raised e s
                  end
              | JSONDecodeError e =>
                  lines_loop fuel' sender buffer
                    (send_to_client sender
                       {| message := lit "Invalid JSON format: " ++ e;
                          status := lit "error" |} s)
              | NotCovered => OutOfModel
              end
          end
      end
  end.

(** [buffer += ...] followed by the loop over the lines; a turn of the
    loop takes a line break off the buffer, so the fuel given here is
    never used up. *)
Definition feed (sender : client_id) (chunk : text) (buffer : text)
    (s : TestServer) : lines_result :=
  lines_loop (S (length (buffer ++ chunk))) sender (buffer ++ chunk) s.

(** One turn of the loop [while self.running] of [handle_client] for what
    [recv] returned; no data, like a socket error, ends the loop, and so
    does an exception, and the [finally] clause unregisters the client. *)
Definition recv_step (sender : client_id) (data : list N) (buffer : text)
    (s : TestServer) : session :=
  match data with
  | [] => Closed (disconnect_client sender s)
  | _ :: _ =>
      match decode data with
      | None => Unknown
      | Some chunk =>
          match feed sender chunk buffer s with
          | Continue buffer' s' => Open buffer' s'
          | Raised _ s' => Closed (disconnect_client sender s')
          | OutOfModel => Unknown
          end
      end
  end.

(** The session over the successive results of [recv]. *)
Fixpoint handle_chunks (sender : client_id) (chunks : list (list N))
    (st : session) : session :=
  match chunks with
  | [] => st
  | data :: rest =>
      match st with
      | Open buffer s => handle_chunks sender rest (recv_step sender data buffer s)
      | _ => st
      end
  end.

(** [handle_client], from the registration [start_server] makes when it
    accepts the connection. *)
Definition handle_client (sender : client_id) (chunks : list (list N))
    (s : TestServer) : session :=
  handle_chunks sender chunks (Open [] (accept_client sender s)).

End Loop.

(** *** [json.loads] on the lines of the model of the library *)

Section Loads.

(** [str(e)] for the [JSONDecodeError] that [json.loads] raises on a text. *)
Variable error_text : text -> text.

(** An object of strings, or a string, as the handlers see it. *)
Definition message_of_value (v : Json.value) : option client_message :=
  match v with
  | Json.VString _ => Some (MsgOther (lit "str"))
  | Json.VObject d =>
      match Json.dict_get (lit "test_config") d with
      | Some (_ :: _) => None
      | _ =>
          Some (MsgObject
                  (match Json.dict_get (lit "command") d with
                   | Some c => Some (CommandStr c)
                   | None => None
                   end) None)
      end
  end.

(** [JSONDecoder.decode]: the value at the head of the text, after
    whitespace, with nothing but whitespace after it. *)
Definition json_loads (s : text) : parsed :=
  match Json.raw_decode (Json.skip_ws s) with
  | Json.Decoded v rest =>
      match Json.skip_ws rest with
      | [] =>
          match message_of_value v with
          | Some message => Parsed message
          | None => NotCovered
          end
      | _ :: _ => JSONDecodeError (error_text s)
      end
  | Json.DecodeError => JSONDecodeError (error_text s)
  | Json.Unsupported => NotCovered
  end.

End Loads.

(** *** The requests of the client *)

(** [SocketManager.send_message] of [Client6.py] on a connected socket:
    the bytes handed to [sendall]. *)
Definition send_message (message : Json.dict) : option (list N) :=
  match Channel.encode_utf8 (Json.dumps message) with
  | Some data => Some (data ++ [10%N])
  | None => None
  end.

(** The message [TestController.stop_test] sends. *)
Definition stop_request : Json.dict := [(lit "command", lit "stop")].

(** *** Vocabulary for the properties of the sessions *)

(** The frames of a socket log written to the socket of [c]. *)
Definition frames_to (c : client_id) (log : list (client_id * Event)) :
    list (client_id * Event) :=
  filter (fun f => text_eqb (fst f) c) log.

(** Whether an action is the acceptance of [c] or a command [c] sent. *)
Definition concerns (c : client_id) (a : Action) : bool :=
  match a with
  | Report _ _ => false
  | StartCmd c' _ | StopCmd c' | StatusCmd c' | Accept c' => text_eqb c' c
  | Disconnect _ => false
  end.

(** The letters of ASCII in lower case, the other characters as they are. *)
Definition ascii_lower (c : N) : N :=
  if (65 <=? c)%N && (c <=? 90)%N then (c + 32)%N else c.

(** The printable characters of ASCII. *)
Definition printable (c : N) : bool := (32 <=? c)%N && (c <=? 126)%N.

(** A lower-casing function for the examples, which are in ASCII. *)
Definition no_unicode (s : text) : text := s.

(** A server with two sessions registered and no test running, and one
    with a test running. *)
Definition idle_server : TestServer :=
  {| clients := [lit "10.0.0.1:4000"; lit "10.0.0.2:4000"]; current_test := None;
     test_running := false; current_model_instance := None;
     sockets := []; threads := [] |}.

Definition busy_server : TestServer :=
  {| clients := [lit "10.0.0.1:4000"; lit "10.0.0.2:4000"];
     current_test := Some demo_config;
     test_running := true; current_model_instance := None;
     sockets := []; threads := [(lit "ModelC", demo_config)] |}.

End Session.

(** ** The receive loop of the client: [receive_messages] of [Client6.py] *)

Module Receiver.
Import Json Channel.

(** The loop of [receive_messages] over the successive chunks of data
    that [recv] returns: each is decoded, appended to the buffer and
    processed; an exception of [process_buffer] ends the thread. *)
Fixpoint receive_all (chunks : list (list N)) (self : SocketManager) : processed :=
  match chunks with
  | [] => Processed self
  | data :: rest =>
      match receive data self with
      | Processed self' => receive_all rest self'
      | HandlerRaised => HandlerRaised
      | Beyond => Beyond
      end
  end.

(** Text without an opening brace. *)
Definition no_brace (s : text) : bool := forallb (fun c => negb (c =? 123)%N) s.

(** An event none of whose strings holds an opening brace. *)
Definition brace_free (e : Server3.Event) : bool :=
  no_brace (Server3.message e) && no_brace (Server3.status e).

(** An event whose frame is below the limit at which [process_buffer]
    cuts down a buffer it cannot decode. *)
Definition short_frame (e : Server3.Event) : bool :=
  length (dumps (event_dict e)) <=? 1000.

(** A chunk [recv] can return that, behind a line break left in the
    buffer, stays within the same limit. *)
Definition short_chunk (data : list N) : bool :=
  (0 <? length data) && (length data <? 1000).

(** Where the loop stands between two chunks, with [b] in the buffer, [R]
    still to come and the events [todo] not yet handled: [b] is empty or
    the start of the frame of the next event, or the line break of the
    last frame handled is still to be read or is alone in the buffer. *)
Definition between_chunks (b R : text) (todo : list Server3.Event) : Prop :=
  (b ++ R = frames todo /\
   (b = [] \/
    exists e rest l, todo = e :: rest /\ dumps (event_dict e) = b ++ l /\ l <> []))
  \/ (b ++ R = 10%N :: frames todo /\ (b = [] \/ b = [10%N])).

End Receiver.

(** ** The model class: [Server_depen/ModelC.py], [run_tests]

    The class the server loads for the model "ModelC".  Its [run_tests]
    runs the test cases of one loadlist item through the dispatcher of
    [TestCases2].  The instance and its test runner share the callback,
    the flag and [test_config_dict]; they are the [Instance] of the
    dispatcher.  The flag is read as it stands: what a stop command served
    during the call would change is not part of this model.  The values
    under ['temperature'] and ['band'] are taken to be strings, so that
    the empty text is the one that counts as false. *)

Module ModelC.
Import TestCases2.

(** An entry of [test_results]. *)
Record test_record := {
  r_stage : text;
  r_temperature : text;
  r_band : text;
  r_test_case : text;
  r_result : result
}.

(** The instance: what it shares with its test runner, the stage and the
    model of the configuration, whether [setup] has created the test
    runner, and the results stored so far. *)
Record Model := {
  shared : Instance;
  stage : text;
  model : text;
  test_runner : bool;
  test_results : list test_record
}.

Definition with_shared (sh : Instance) (self : Model) : Model :=
  {| shared := sh; stage := stage self; model := model self;
     test_runner := test_runner self; test_results := test_results self |}.

(** [self.status_callback(message, status)] *)
Definition report (message status : text) (self : Model) : Model :=
  with_shared (status_callback message status (shared self)) self.

(** [self.is_running_func()] *)
Definition is_running_func (self : Model) : bool := is_running (shared self).

(** [_set_and_stabilize_temperature] *)
Definition set_and_stabilize_temperature (temperature : text) (self : Model) :
    bool * Model :=
  let self := report (lit "[ModelC] Setting temperature to " ++ temperature)
                (lit "running") self in
  if negb (is_running_func self) then (false, self)
  else
    let self := report (lit "[ModelC] Waiting for temperature to stabilize at " ++
                        temperature ++ lit "...") (lit "running") self in
    if existsb (fun _ => negb (is_running_func self)) (seq 0 5) then (false, self)
    else (true, report (lit "[ModelC] Temperature stabilized at " ++ temperature ++ lit ".")
                  (lit "running") self).

(** Whether a value read with [.get] counts as true. *)
Definition truthy (o : option text) : bool :=
  match o with Some (_ :: _) => true | _ => false end.

Section Runner.

(** [str.lower] on text that holds a character outside ASCII, and the
    attributes of the test runner. *)
Variable unicode_lower : text -> text.
Variable getattr : text -> Attribute.

(** [f"{progress:.0f}"] for the float [((i + 1) / total) * 100], given
    [i + 1] and [total]. *)
Variable progress_text : nat -> nat -> text.

(** [f"{run_item}"], the [repr] of the dict. *)
Variable repr : Server3.item_fields -> text.

(** [_execute_single_test]; without a test runner the call
    [self.test_runner.run_test_by_name] raises [AttributeError]. *)
Definition execute_single_test (temperature band test_case : text) (self : Model) :
    Outcome bool * Model :=
  let sh := shared self in
  let self :=
    with_shared
      {| is_running := is_running sh; reports := reports sh;
         model_number := model_number sh; param_stage := Some (stage self);
         param_temperature := Some temperature; param_band := Some band;
         test_case_run_id := test_case_run_id sh; clock_ms := clock_ms sh |} self in
  if negb (test_runner self) then
    (Raise (lit "'NoneType' object has no attribute 'run_test_by_name'"), self)
  else
    match run_test_by_name unicode_lower getattr recording_callback test_case
            (shared self) with
    | (Raise e, sh') => (Raise e, with_shared sh' self)
    | (Return result, sh') =>
        let self :=
          {| shared := sh'; stage := stage self; model := model self;
             test_runner := test_runner self;
             test_results := test_results self ++
               [{| r_stage := stage self; r_temperature := temperature;
                   r_band := band; r_test_case := test_case; r_result := result |}] |} in
        if passed result then
          (Return true,
           report (lit "[ModelC] " ++ [10003%N] ++ lit " " ++ test_case ++
                   lit " PASSED - " ++ message result) (lit "running") self)
        else
          (Return false,
           report (lit "[ModelC] " ++ [10007%N] ++ lit " " ++ test_case ++
                   lit " FAILED - " ++ message result) (lit "error") self)
    end.

(** The loop over the test cases of the item, from position [i] on. *)
Fixpoint run_cases (temperature band : text) (total i : nat) (cases : list text)
    (all_passed_in_run : bool) (self : Model) : Outcome bool * Model :=
  match cases with
  | [] => (Return all_passed_in_run, self)
  | test_case :: rest =>
      if negb (is_running_func self) then
        (Return false, report (lit "[ModelC] Test stopped by user.") (lit "stopped") self)
      else
        let self :=
          report (lit "[ModelC] Running " ++ str_of_nat (i + 1) ++ lit "/" ++
                  str_of_nat total ++ lit " (" ++ progress_text (i + 1) total ++
                  lit "%): " ++ test_case) (lit "running") self in
        match execute_single_test temperature band test_case self with
        | (Raise e, self) => (Raise e, self)
        | (Return test_passed, self) =>
            run_cases temperature band total (S i) rest
              (if test_passed then all_passed_in_run else false) self
        end
  end.

(** [run_tests] *)
Definition run_tests (run_item : Server3.item_fields) (self : Model) : bool * Model :=
  let temperature := Server3.temperature run_item in
  let band := Server3.band run_item in
  let test_cases_for_run := Server3.test_cases run_item in
  if negb (truthy temperature && truthy band &&
           match test_cases_for_run with [] => false | _ :: _ => true end) then
    (false, report (lit "Skipping invalid loadlist item: " ++ repr run_item)
              (lit "error") self)
  else
    let temperature := Server3.get_or temperature [] in
    let band := Server3.get_or band [] in
    let (stable, self) := set_and_stabilize_temperature temperature self in
    if negb stable then (false, self)
    else
      let self := report (lit "[ModelC] Configuring for Band: " ++ band)
                    (lit "running") self in
      match run_cases temperature band (length test_cases_for_run) 0
              test_cases_for_run true self with
      | (Return all_passed_in_run, self) => (all_passed_in_run, self)
      | (Raise e, self) =>
          (false,
           report (lit "[ModelC] Critical error during run for Temp=" ++ temperature ++
                   lit ", Band=" ++ band ++ lit ": " ++ e) (lit "error") self)
      end.

End Runner.

(** *** Vocabulary for the properties of the model class *)

(** The verdict of a dispatched test. *)
Definition verdict (r : Outcome result * Instance) : bool :=
  match fst r with
  | Return x => passed x
  | Raise _ => false
  end.

(** The test cases the placeholders of [TestCases2] let pass, by the name
    of the method. *)
Definition passes (method : text) : bool :=
  text_eqb method (lit "test_gain_flatness") ||
  text_eqb method (lit "test_am_pm") ||
  text_eqb method (lit "test_spur").

(** The item is complete: a temperature, a band and test cases. *)
Definition complete (run_item : Server3.item_fields) : bool :=
  truthy (Server3.temperature run_item) && truthy (Server3.band run_item) &&
  match Server3.test_cases run_item with [] => false | _ :: _ => true end.

(** An instance after [setup], for the examples, with formatting
    functions that stand for those of Python. *)
Definition demo_model : Model :=
  {| shared := demo_instance; stage := lit "S1"; model := lit "ModelC";
     test_runner := true; test_results := [] |}.

Definition demo_progress (i total : nat) : text := str_of_nat (i * 100 / total).

Definition demo_repr (run_item : Server3.item_fields) : text := lit "{...}".

Definition demo_item : Server3.item_fields :=
  {| Server3.temperature := Some (lit "25C"); Server3.band := Some (lit "B1");
     Server3.test_cases := [lit "Gain Flatness"; lit "Power Sweep"; lit "AM/PM"] |}.

End ModelC.

(** * Properties *)

Lemma text_eqb_eq a b : text_eqb a b = true <-> a = b.
Proof.
  revert b; induction a as [|x a IH]; destruct b as [|y b]; simpl;
    try (split; [discriminate | congruence]); try tauto.
  rewrite andb_true_iff, N.eqb_eq, IH. split.
  - intros [-> ->]; reflexivity.
  - intros H; injection H; auto.
Qed.

(** ** The server *)

Module Server3Facts.
Import Server3.

(** A broadcast writes one frame per registered client, in registry order,
    and touches nothing else. *)
Lemma broadcast_unfold e s :
  broadcast_to_all_clients e s =
  {| clients := clients s; current_test := current_test s;
     test_running := test_running s;
     current_model_instance := current_model_instance s;
     sockets := sockets s ++ map (fun c => (c, e)) (clients s);
     threads := threads s |}.
Proof.
  unfold broadcast_to_all_clients.
  assert (G : forall cs t,
             fold_left (fun s' c => send_to_client c e s') cs t =
             {| clients := clients t; current_test := current_test t;
                test_running := test_running t;
                current_model_instance := current_model_instance t;
                sockets := sockets t ++ map (fun c => (c, e)) cs;
                threads := threads t |}).
  { induction cs as [|c cs IH]; intros t; simpl.
    - rewrite app_nil_r. destruct t; reflexivity.
    - rewrite IH. simpl. rewrite <- app_assoc. reflexivity. }
  apply G.
Qed.

Lemma status_callback_idle m st s :
  test_running s = false -> status_callback m st s = s.
Proof. unfold status_callback. intros ->. reflexivity. Qed.

Lemma status_callback_running m st s :
  test_running s = true ->
  status_callback m st s = broadcast_to_all_clients {| message := m; status := st |} s.
Proof. unfold status_callback. intros ->. reflexivity. Qed.

(** No session command and no report touches the plugin handle. *)
Lemma perform_instance a s :
  current_model_instance (perform a s) = current_model_instance s.
Proof.
  destruct a as [m st|c cfg|c|c|c|c]; simpl.
  - unfold status_callback. destruct (test_running s); [rewrite broadcast_unfold|]; reflexivity.
  - unfold handle_start_command.
    destruct (test_running s); [reflexivity|].
    destruct cfg as [t|]; [|reflexivity].
    destruct (missing_fields t); [|reflexivity].
    destruct (loadlist t) as [[[|x l]|]|]; try reflexivity.
    unfold start_test.
    destruct (serial_number t); [|reflexivity].
    rewrite broadcast_unfold.
    destruct (model t) as [[|c0 m]|]; reflexivity.
  - unfold handle_stop_command. destruct (test_running s); simpl; [|reflexivity].
    unfold stop_test. rewrite broadcast_unfold. reflexivity.
  - reflexivity.
  - reflexivity.
  - reflexivity.
Qed.

Lemma perform_all_instance l s :
  current_model_instance (perform_all l s) = current_model_instance s.
Proof.
  unfold perform_all. revert s; induction l as [|a l IH]; intros s; simpl.
  - reflexivity.
  - rewrite IH. apply perform_instance.
Qed.

Lemma perform_quiet_running a s :
  quiet a = true -> test_running s = true -> test_running (perform a s) = true.
Proof.
  destruct a as [m st|c cfg|c|c|c|c]; simpl; intros Hq Hr; try discriminate.
  - rewrite status_callback_running by assumption. rewrite broadcast_unfold. exact Hr.
  - unfold handle_start_command. rewrite Hr. exact Hr.
  - exact Hr.
  - exact Hr.
  - exact Hr.
Qed.

Lemma perform_all_quiet_running l s :
  forallb quiet l = true -> test_running s = true ->
  test_running (perform_all l s) = true.
Proof.
  unfold perform_all. revert s; induction l as [|a l IH]; intros s; simpl.
  - auto.
  - rewrite andb_true_iff. intros [Ha Hl] Hr. apply IH; [exact Hl|].
    apply perform_quiet_running; assumption.
Qed.

(** C6 (Scenario B): a start command that arrives while a test is running
    writes exactly one frame, to the sender, with status "running" and the
    message "Test already running. Please stop current test first."; no
    other socket is written, and the registry, [test_running],
    [current_test], the plugin handle and the set of worker threads are
    what they were: nothing is queued. *)
Theorem start_while_running_rejected :
  forall (sender : client_id) (cfg : option test_config) (s : TestServer),
    test_running s = true ->
    let s' := handle_start_command sender cfg s in
    sockets s' = sockets s ++
      [(sender, {| message := lit "Test already running. Please stop current test first.";
                   status := lit "running" |})]
    /\ startswith (lit "Test already running") 
         (lit "Test already running. Please stop current test first.") = true
    /\ test_running s' = true
    /\ current_test s' = current_test s
    /\ current_model_instance s' = current_model_instance s
    /\ threads s' = threads s
    /\ clients s' = clients s.
Proof.
  intros sender cfg s Hr. unfold handle_start_command. rewrite Hr. simpl.
  repeat split; try reflexivity. exact Hr.
Qed.

Lemma start_while_running_rejected_witness :
  let s := {| clients := [lit "a"; lit "b"]; current_test := None;
              test_running := true; current_model_instance := None;
              sockets := []; threads := [] |} in
  sockets (handle_start_command (lit "b") None s) =
  [(lit "b", {| message := lit "Test already running. Please stop current test first.";
                status := lit "running" |})].
Proof.
  intros s.
  exact (proj1 (start_while_running_rejected (lit "b") None s eq_refl)).
Defined.

(** C8: a stop command that arrives while no test is running writes one
    frame, to the sender, with status "idle", and leaves the run state, the
    registry and the worker threads as they were; a second stop command
    does the same again. *)
Theorem stop_while_idle_idempotent :
  forall (sender : client_id) (s : TestServer),
    test_running s = false ->
    let idle := {| message := lit "No test currently running"; status := lit "idle" |} in
    let s1 := handle_stop_command sender s in
    let s2 := handle_stop_command sender s1 in
    s1 = send_to_client sender idle s
    /\ sockets s1 = sockets s ++ [(sender, idle)]
    /\ test_running s1 = false
    /\ current_test s1 = current_test s
    /\ current_model_instance s1 = current_model_instance s
    /\ clients s1 = clients s /\ threads s1 = threads s
    /\ s2 = send_to_client sender idle s1
    /\ test_running s2 = test_running s1
    /\ current_test s2 = current_test s1
    /\ current_model_instance s2 = current_model_instance s1.
Proof.
  intros sender s Hr. unfold handle_stop_command. simpl. rewrite Hr. simpl.
  rewrite Hr. simpl. repeat split; try reflexivity; exact Hr.
Qed.

Lemma stop_while_idle_idempotent_witness :
  let s := {| clients := [lit "a"; lit "b"]; current_test := None;
              test_running := false; current_model_instance := None;
              sockets := []; threads := [] |} in
  sockets (handle_stop_command (lit "a") s) =
  [(lit "a", {| message := lit "No test currently running"; status := lit "idle" |})].
Proof.
  intros s.
  exact (proj1 (proj2 (stop_while_idle_idempotent (lit "a") s eq_refl))).
Defined.

Lemma perform_reports_idle l s :
  forallb is_report l = true -> test_running s = false -> perform_all l s = s.
Proof.
  unfold perform_all. revert s; induction l as [|a l IH]; intros s; simpl.
  - reflexivity.
  - rewrite andb_true_iff. intros [Ha Hl] Hr.
    destruct a; try discriminate. simpl.
    rewrite status_callback_idle by exact Hr. apply IH; assumption.
Qed.

Lemma handle_stop_not_running c s : test_running (handle_stop_command c s) = false.
Proof.
  unfold handle_stop_command. destruct (test_running s) eqn:Hr; simpl.
  - unfold stop_test. rewrite broadcast_unfold. reflexivity.
  - exact Hr.
Qed.

(** At a loop check that finds the flag lowered, the worker's own
    announcement goes through the gated callback: the world is returned
    as it was, nothing is written and nothing is invoked. *)
Lemma run_loadlist_stopped total i x rest acc w :
  test_running (server w) = false ->
  run_loadlist total i (x :: rest) acc w = (Return false, w).
Proof.
  intros Hr. simpl. unfold bind, read, on_server, ret. rewrite Hr. simpl.
  rewrite status_callback_idle by exact Hr. destruct w; reflexivity.
Qed.

(** C10: [status_callback] is gated on [test_running].  While the flag is
    lowered every report is dropped: the server, and with it every socket,
    is left as it was.  In particular, whatever the plugin reports after a
    stop command has been served reaches no client, and neither does the
    stop announcement the worker itself makes at its next loop check. *)
Theorem status_callback_gated :
  forall (s : TestServer) (reports : list Action),
    forallb is_report reports = true ->
    (forall m st, test_running s = false -> status_callback m st s = s)
    /\ (test_running s = false -> perform_all reports s = s)
    /\ (forall c, perform_all reports (handle_stop_command c s) = handle_stop_command c s)
    /\ (forall total i x rest acc inv c,
          run_loadlist total i (x :: rest) acc
            {| server := handle_stop_command c s; invoked := inv |} =
          (Return false, {| server := handle_stop_command c s; invoked := inv |})).
Proof.
  intros s reports Hrep. repeat split.
  - intros m st Hr. apply status_callback_idle; exact Hr.
  - intros Hr. apply perform_reports_idle; assumption.
  - intros c. apply perform_reports_idle; [exact Hrep|apply handle_stop_not_running].
  - intros. apply run_loadlist_stopped. simpl. apply handle_stop_not_running.
Qed.

(** *** The worker *)

Lemma invocations_app a b : invocations (a ++ b) = invocations a ++ invocations b.
Proof.
  induction a as [|c a IH]; simpl; [reflexivity|].
  destruct c; simpl; rewrite IH; reflexivity.
Qed.

Lemma invocations_run_calls i items : invocations (run_calls i items) = items.
Proof.
  revert i; induction items as [|x items IH]; intros i; simpl;
    [reflexivity | rewrite IH; reflexivity].
Qed.

(** One turn of the loop, statement by statement. *)
Lemma run_loadlist_cons total i x rest acc w :
  run_loadlist total i (x :: rest) acc w =
  if negb (test_running (server w)) then
    (Return false,
     {| server := status_callback (lit "Test execution was stopped.") (lit "stopped") (server w);
        invoked := invoked w |})
  else
    match x with
    | ItemOther type_name =>
        (Raise (lit "'" ++ type_name ++ lit "' object has no attribute 'get'"), w)
    | ItemDict fields =>
        let temp := get_or (temperature fields) (lit "N/A") in
        let band := get_or (band fields) (lit "N/A") in
        let s1 := status_callback
                    (lit "--- Running Loadlist item " ++ str_of_nat (i + 1) ++ lit "/" ++
                     str_of_nat total ++ lit ": Temp=" ++ temp ++ lit ", Band=" ++ band ++
                     lit " ---") (lit "running") (server w) in
        match current_model_instance s1 with
        | None =>
            (Raise (lit "'NoneType' object has no attribute '" ++ lit "run_tests" ++ lit "'"),
             {| server := s1; invoked := invoked w |})
        | Some p =>
            let w2 := {| server := perform_all (fst (p_run_tests p i x)) s1;
                         invoked := invoked w ++ [CallRunTests i x] |} in
            match snd (p_run_tests p i x) with
            | Raise e => (Raise e, w2)
            | Return true => run_loadlist total (S i) rest acc w2
            | Return false =>
                run_loadlist total (S i) rest false
                  {| server := status_callback
                                 (lit "Failed item: Temp=" ++ temp ++ lit ", Band=" ++ band)
                                 (lit "error") (server w2);
                     invoked := invoked w2 |}
            end
        end
    end.
Proof.
  simpl. unfold bind, read, on_server, ret, instance_call, call, raise. simpl.
  destruct (test_running (server w)); simpl; [|reflexivity].
  destruct x as [fields|type_name]; [|reflexivity].
  unfold bind, read. simpl.
  destruct (current_model_instance _); simpl; [|reflexivity].
  destruct (snd (p_run_tests _ i _)) as [[|]|e]; reflexivity.
Qed.

(** The loop invokes [run_tests] on an initial segment of the items, in
    order; when it ends without an exception and the segment is proper,
    it ended at a check that found the flag lowered. *)
Lemma run_loadlist_prefix items :
  forall total i acc w,
    exists k,
      k <= length items
      /\ invoked (snd (run_loadlist total i items acc w)) =
         invoked w ++ run_calls i (firstn k items)
      /\ (forall b, fst (run_loadlist total i items acc w) = Return b ->
           k = length items
           \/ (b = false /\
               test_running (server (snd (run_loadlist total i items acc w))) = false)).
Proof.
  induction items as [|x rest IH]; intros total i acc w.
  - exists 0. simpl. rewrite app_nil_r. repeat split; auto.
  - rewrite run_loadlist_cons.
    destruct (test_running (server w)) eqn:Hr; simpl.
    + destruct x as [fields|type_name];
        [|exists 0; simpl; rewrite app_nil_r; split; [lia|]; split; [reflexivity|];
          intros b Hb; discriminate].
      set (s1 := status_callback _ _ (server w)).
      destruct (current_model_instance s1) as [p|].
      * destruct (snd (p_run_tests p i _)) as [[|]|e].
        -- match goal with |- context [run_loadlist total (S i) rest acc ?w2] =>
             destruct (IH total (S i) acc w2) as (k & Hk & Hinv & Hend) end.
           exists (S k). simpl in *. split; [lia|]. split.
           ++ rewrite Hinv, <- app_assoc. reflexivity.
           ++ intros b Hb. destruct (Hend b Hb) as [->|H]; [left; reflexivity|right; exact H].
        -- match goal with |- context [run_loadlist total (S i) rest false ?w2] =>
             destruct (IH total (S i) false w2) as (k & Hk & Hinv & Hend) end.
           exists (S k). simpl in *. split; [lia|]. split.
           ++ rewrite Hinv, <- app_assoc. reflexivity.
           ++ intros b Hb. destruct (Hend b Hb) as [->|H]; [left; reflexivity|right; exact H].
        -- exists 1. simpl. split; [lia|]. split.
           ++ reflexivity.
           ++ intros b Hb. discriminate.
      * exists 0. simpl. rewrite app_nil_r. split; [lia|]. split; [reflexivity|].
        intros b Hb. discriminate.
    + exists 0. simpl. rewrite app_nil_r. split; [lia|]. split; [reflexivity|].
      intros b Hb. right. split; [congruence|].
      rewrite status_callback_idle by exact Hr. exact Hr.
Qed.

(** The rules of [tracks]. *)
Lemma tracks_ret {A : Type} (I : list Call -> Prop) (a : A) : tracks I (ret a) I.
Proof. intros w H; exact H. Qed.

Lemma tracks_raise {A : Type} (I : list Call -> Prop) e : tracks I (@raise A e) I.
Proof. intros w H; exact H. Qed.

Lemma tracks_read {A : Type} (I : list Call -> Prop) (f : TestServer -> A) :
  tracks I (read f) I.
Proof. intros w H; exact H. Qed.

Lemma tracks_on_server (I : list Call -> Prop) f : tracks I (on_server f) I.
Proof. intros w H; exact H. Qed.

Lemma tracks_bind {A B : Type} (I J K : list Call -> Prop) (m : M A) (k : A -> M B) :
  tracks I m J -> (forall l, J l -> K l) -> (forall a, tracks J (k a) K) ->
  tracks I (bind m k) K.
Proof.
  intros Hm HJK Hk w HI. unfold bind. specialize (Hm w HI).
  destruct (m w) as [[a|e] w']; simpl in *.
  - apply Hk; exact Hm.
  - apply HJK; exact Hm.
Qed.

Lemma tracks_weaken {A : Type} (I J K : list Call -> Prop) (m : M A) :
  tracks I m J -> (forall l, J l -> K l) -> tracks I m K.
Proof. intros Hm HJK w HI. apply HJK, Hm, HI. Qed.

Lemma tracks_call {A : Type} (I : list Call -> Prop) c (b : Behaviour A) :
  (forall l, I l -> I (l ++ [c])) -> tracks I (call c b) I.
Proof. intros Hc w HI. simpl. apply Hc, HI. Qed.

Lemma tracks_instance_call {A : Type} (I : list Call -> Prop) name c
    (f : Plugin -> Behaviour A) :
  (forall l, I l -> I (l ++ [c])) -> tracks I (instance_call name c f) I.
Proof.
  intros Hc. unfold instance_call.
  apply tracks_bind with (J := I); [apply tracks_read | auto |].
  intros [p|]; [apply tracks_call; exact Hc | apply tracks_raise].
Qed.

Create HintDb worker.
#[local] Hint Resolve tracks_ret tracks_raise tracks_read tracks_on_server : worker.

(** Whatever the rest of the worker does, the [run_tests] calls it adds to
    the record are those of the loop. *)
Lemma try_body_invocations load model_name cfg base :
  tracks (fun l => invocations l = base)
         (try_body load model_name cfg)
         (fun l => exists k, invocations l = base ++ firstn k (items_of cfg)).
Proof.
  set (I := fun l => invocations l = base).
  set (J := fun l => exists k, invocations l = base ++ firstn k (items_of cfg)).
  assert (HIJ : forall l, I l -> J l).
  { intros l Hl. exists 0. simpl. rewrite app_nil_r. exact Hl. }
  assert (HI : forall c, invocations [c] = [] -> forall l, I l -> I (l ++ [c])).
  { intros c Hc l Hl. unfold I in *. rewrite invocations_app, Hl, Hc. apply app_nil_r. }
  assert (HJ : forall c, invocations [c] = [] -> forall l, J l -> J (l ++ [c])).
  { intros c Hc l [k Hl]. exists k. rewrite invocations_app, Hl, Hc. apply app_nil_r. }
  assert (Htail : forall b : bool, tracks J (after_loop model_name cfg b) J).
  { intros b. unfold after_loop.
    apply tracks_bind with (J := J); auto with worker. intros _.
    apply tracks_bind with (J := J); auto.
    { apply tracks_instance_call. apply HJ. reflexivity. }
    intros _.
    apply tracks_bind with (J := J); auto with worker. intros _.
    apply tracks_bind with (J := J); auto with worker. intros running.
    apply tracks_bind with (J := J); auto with worker.
    destruct running; auto with worker.
    destruct (serial_number cfg); auto with worker. }
  unfold try_body.
  destruct (load model_name) as [m|];
    [|apply tracks_weaken with (J := I); auto with worker].
  destruct (m (model_class_name model_name)) as [p|];
    [|apply tracks_weaken with (J := I); auto with worker].
  apply tracks_bind with (J := I); auto.
  { apply tracks_call. apply HI. reflexivity. }
  intros _.
  apply tracks_bind with (J := I); auto with worker. intros _.
  apply tracks_bind with (J := I); auto with worker. intros _.
  apply tracks_bind with (J := I); auto.
  { apply tracks_instance_call. apply HI. reflexivity. }
  intros ok.
  destruct ok; simpl negb; cbv iota;
    [|apply tracks_weaken with (J := I); auto with worker].
  unfold items_of in J, HIJ, HJ, Htail |- *.
  destruct (loadlist cfg) as [[items|]|].
  - apply tracks_bind with (J := J); auto.
    intros w Hw.
    destruct (run_loadlist_prefix items (length items) 0 true w) as (k & _ & Hinv & _).
    exists k. rewrite Hinv, invocations_app, invocations_run_calls.
    unfold I in Hw. rewrite Hw. reflexivity.
  - apply tracks_weaken with (J := I); auto with worker.
  - apply tracks_bind with (J := J); auto.
    intros w Hw. apply HIJ. exact Hw.
Qed.

Lemma execute_model_test_invocations load model_name cfg w :
  exists k,
    invocations (invoked (snd (execute_model_test load model_name cfg w))) =
    invocations (invoked w) ++ firstn k (items_of cfg).
Proof.
  destruct (try_body_invocations load model_name cfg (base := invocations (invoked w))
              w eq_refl) as [k Hk].
  exists k. unfold execute_model_test.
  destruct (try_body load model_name cfg w) as [[b|e] w']; simpl in *; [exact Hk|].
  unfold except_clause. simpl.
  destruct (current_model_instance _); simpl; [|exact Hk].
  rewrite invocations_app, Hk. simpl. apply app_nil_r.
Qed.

(** C2: when the worker ends, whichever way its body ended, the run state
    is Idle: [test_running] is false, [current_test] is [None] and the
    plugin handle is cleared.  A valid configuration submitted while Idle
    either fails to start, leaving the state Idle and no thread, or raises
    the flag, records the configuration and starts exactly one worker, and
    that worker ends Idle from any world it finds. *)
Theorem worker_resets_run_state :
  forall (load : text -> option PyModule) (sender : client_id) (cfg : test_config)
         (s : TestServer),
    test_running s = false ->
    valid_config cfg = true ->
    let s1 := handle_start_command sender (Some cfg) s in
    ((test_running s1 = false /\ current_test s1 = None /\ threads s1 = threads s
      /\ current_model_instance s1 = current_model_instance s)
     \/ (exists model_name,
           model cfg = Some model_name
           /\ threads s1 = threads s ++ [(model_name, cfg)]
           /\ test_running s1 = true /\ current_test s1 = Some cfg))
    /\ (forall model_name w,
          let w' := snd (execute_model_test load model_name cfg w) in
          test_running (server w') = false
          /\ current_test (server w') = None
          /\ current_model_instance (server w') = None).
Proof.
  intros load sender cfg s Hr Hv s1. split.
  - subst s1. unfold handle_start_command. rewrite Hr.
    unfold valid_config in Hv. repeat rewrite andb_true_iff in Hv.
    destruct Hv as [[[Hsn Hm] Hst] Hl].
    unfold missing_fields. rewrite Hsn, Hm, Hst.
    destruct (loadlist cfg) as [[[|x l]|]|] eqn:Hll; try discriminate. simpl.
    unfold start_test.
    destruct (serial_number cfg) as [sn|]; [|discriminate].
    rewrite broadcast_unfold.
    destruct (model cfg) as [[|c m]|] eqn:Hmodel; [| |discriminate].
    + left. simpl. auto.
    + right. exists (c :: m). simpl. auto.
  - intros model_name w w'. subst w'. unfold execute_model_test.
    destruct (try_body load model_name cfg w) as [[b|e] w']; simpl; auto.
Qed.

Lemma status_callback_flag m st s :
  test_running (status_callback m st s) = test_running s.
Proof.
  unfold status_callback. destruct (test_running s) eqn:Hr; [|exact Hr].
  rewrite broadcast_unfold. exact Hr.
Qed.

Lemma status_callback_instance m st s :
  current_model_instance (status_callback m st s) = current_model_instance s.
Proof. exact (perform_instance (Report m st) s). Qed.

(** A run in which every [run_tests] call returns and no stop command is
    served goes through the whole loadlist, failing items included, and
    leaves the conjunction of the results in [overall_success]. *)
Lemma run_loadlist_quiet p items :
  forall total i acc w,
    test_running (server w) = true ->
    current_model_instance (server w) = Some p ->
    runs_quietly p i items ->
    let r := run_loadlist total i items acc w in
    fst r = Return (acc && forallb (fun b => b) (item_results p i items))
    /\ invoked (snd r) = invoked w ++ run_calls i items
    /\ test_running (server (snd r)) = true
    /\ current_model_instance (server (snd r)) = Some p.
Proof.
  induction items as [|x rest IH]; intros total i acc w Hr Hp Hq.
  - simpl. rewrite app_nil_r, andb_true_r. auto.
  - destruct Hq as ([fields ->] & [b [Hqa Hqr]] & Hq).
    cbv zeta. rewrite run_loadlist_cons. rewrite Hr. cbv zeta. simpl negb. cbv iota.
    rewrite status_callback_instance, Hp. simpl item_results. rewrite Hqr.
    match goal with |- context [perform_all ?a ?s1] => set (s2 := perform_all a s1) end.
    assert (Hr2 : test_running s2 = true).
    { subst s2. apply perform_all_quiet_running; [exact Hqa|].
      rewrite status_callback_flag. exact Hr. }
    assert (Hp2 : current_model_instance s2 = Some p).
    { subst s2. rewrite perform_all_instance, status_callback_instance. exact Hp. }
    clearbody s2.
    destruct b.
    + match goal with |- context [run_loadlist total (S i) rest acc ?w2] =>
        destruct (IH total (S i) acc w2 Hr2 Hp2 Hq) as (H1 & H2 & H3 & H4) end.
      rewrite H1, H2, H3, H4. simpl. rewrite <- app_assoc. auto.
    + match goal with |- context [run_loadlist total (S i) rest false ?w2] =>
        destruct (IH total (S i) false w2) as (H1 & H2 & H3 & H4) end.
      * simpl. rewrite status_callback_flag. exact Hr2.
      * simpl. rewrite status_callback_instance. exact Hp2.
      * exact Hq.
      * rewrite H1, H2, H3, H4. simpl. rewrite <- app_assoc, andb_false_r. auto.
Qed.

(** In any run, stopped or not, the loop leaves [overall_success] true
    only if [run_tests] was invoked on every item and returned true each
    time. *)
Lemma run_loadlist_true p items :
  forall total i acc w,
    current_model_instance (server w) = Some p ->
    fst (run_loadlist total i items acc w) = Return true ->
    acc = true
    /\ forallb (fun b => b) (item_results p i items) = true
    /\ invoked (snd (run_loadlist total i items acc w)) = invoked w ++ run_calls i items.
Proof.
  induction items as [|x rest IH]; intros total i acc w Hp Hret.
  - simpl in *. injection Hret as ->. rewrite app_nil_r. auto.
  - rewrite run_loadlist_cons in Hret |- *.
    destruct (test_running (server w)); simpl negb in *; cbv iota zeta in *;
      [|discriminate].
    destruct x as [fields|type_name]; [|discriminate].
    cbv iota zeta in *.
    rewrite status_callback_instance, Hp in Hret |- *. simpl item_results.
    destruct (snd (p_run_tests p i _)) as [[|]|e]; [| |discriminate].
    + match type of Hret with fst (run_loadlist _ _ _ _ ?w2) = _ =>
        destruct (IH total (S i) acc w2) as (H1 & H2 & H3); [|exact Hret|] end.
      * simpl. rewrite perform_all_instance, status_callback_instance. exact Hp.
      * rewrite H3. simpl. rewrite <- app_assoc. auto.
    + match type of Hret with fst (run_loadlist _ _ _ _ ?w2) = _ =>
        destruct (IH total (S i) false w2) as (H1 & _); [|exact Hret|discriminate] end.
      simpl. rewrite status_callback_instance, perform_all_instance,
        status_callback_instance. exact Hp.
Qed.

Lemma bind_returns {A B : Type} (m : M A) (k : A -> M B) w a w1 :
  m w = (Return a, w1) -> bind m k w = k a w1.
Proof. unfold bind. intros ->. reflexivity. Qed.

Lemma call_returns {A : Type} c (b : Behaviour A) r w :
  snd b = Return r ->
  call c b w = (Return r, {| server := perform_all (fst b) (server w);
                             invoked := invoked w ++ [c] |}).
Proof. unfold call. intros ->. reflexivity. Qed.

Lemma instance_call_returns {A : Type} name c (f : Plugin -> Behaviour A) p r w :
  current_model_instance (server w) = Some p ->
  snd (f p) = Return r ->
  instance_call name c f w =
  (Return r, {| server := perform_all (fst (f p)) (server w);
                invoked := invoked w ++ [c] |}).
Proof.
  intros Hp Hr. unfold instance_call, bind, read. rewrite Hp.
  apply call_returns. exact Hr.
Qed.

(** C1: in a run in which the plugin calls return and no stop command is
    served, one item's [run_tests] returning false does not end the loop:
    [run_tests] is invoked on every item of the loadlist, in order;
    [overall_success] is the conjunction of the results; and the last
    frames the worker writes are its final report, to every registered
    client, with status "error" when some item failed and "completed"
    only when none did.  In any run, stopped or not, the loop leaves
    [overall_success] true only if every item was run and passed. *)
Theorem partial_failure_continues :
  forall (load : text -> option PyModule) (model_name : text) (m : PyModule)
         (p : Plugin) (cfg : test_config) (items : list run_item) (sn : text)
         (w : World),
    load model_name = Some m ->
    m (model_class_name model_name) = Some p ->
    loadlist cfg = Some (LoadList items) ->
    serial_number cfg = Some sn ->
    test_running (server w) = true ->
    returns_quietly (p_init p) tt ->
    returns_quietly (p_setup p) true ->
    runs_quietly p 0 items ->
    returns_quietly (p_cleanup p false) tt ->
    let results := item_results p 0 items in
    let overall_success := fst (execute_model_test load model_name cfg w) in
    let w' := snd (execute_model_test load model_name cfg w) in
    overall_success = forallb (fun b => b) results
    /\ invocations (invoked w') = invocations (invoked w) ++ items
    /\ (exists log,
          sockets (server w') =
          log ++ map (fun c => (c, final_event overall_success sn)) (clients (server w')))
    /\ (In false results -> status (final_event overall_success sn) = lit "error")
    /\ (~ In false results -> status (final_event overall_success sn) = lit "completed")
    /\ (forall total i items' w0,
          current_model_instance (server w0) = Some p ->
          fst (run_loadlist total i items' true w0) = Return true ->
          forallb (fun b => b) (item_results p i items') = true
          /\ invoked (snd (run_loadlist total i items' true w0)) =
             invoked w0 ++ run_calls i items').
Proof.
  intros load model_name m p cfg items sn w Hload Hcls Hll Hsn Hr
         [Hia Hir] [Hsa Hsr] Hq [Hca Hcr] results.
  assert (Hrun : exists w4,
    try_body load model_name cfg w = (Return (forallb (fun b => b) results), w4)
    /\ invocations (invoked w4) = invocations (invoked w) ++ items
    /\ exists log, sockets (server w4) =
         log ++ map (fun c => (c, final_event (forallb (fun b => b) results) sn))
                    (clients (server w4))).
  { unfold try_body. rewrite Hload, Hcls, Hll.
    erewrite bind_returns by (apply call_returns; exact Hir).
    erewrite bind_returns by reflexivity.
    erewrite bind_returns by reflexivity.
    cbn [server invoked].
    match goal with |- context [bind _ _ ?w0] => set (w1 := w0) end.
    assert (Hr1 : test_running (server w1) = true).
    { subst w1. cbn [server]. rewrite status_callback_flag. cbn.
      apply perform_all_quiet_running; assumption. }
    assert (Hp1 : current_model_instance (server w1) = Some p).
    { subst w1. cbn [server]. rewrite status_callback_instance. reflexivity. }
    assert (Hi1 : invocations (invoked w1) = invocations (invoked w)).
    { subst w1. cbn [invoked]. rewrite invocations_app. cbn. apply app_nil_r. }
    clearbody w1.
    erewrite bind_returns by (eapply instance_call_returns; [exact Hp1|exact Hsr]).
    cbn [negb].
    match goal with |- context [bind _ _ ?w0] => set (w2 := w0) end.
    assert (Hr2 : test_running (server w2) = true).
    { subst w2. cbn [server]. apply perform_all_quiet_running; assumption. }
    assert (Hp2 : current_model_instance (server w2) = Some p).
    { subst w2. cbn [server]. rewrite perform_all_instance. exact Hp1. }
    assert (Hi2 : invocations (invoked w2) = invocations (invoked w)).
    { subst w2. cbn [invoked]. rewrite invocations_app, Hi1. cbn. apply app_nil_r. }
    clearbody w2.
    destruct (@run_loadlist_quiet p items (length items) 0 true w2 Hr2 Hp2 Hq)
      as (H1 & H2 & H3 & H4).
    destruct (run_loadlist (length items) 0 items true w2) as [o w3] eqn:Hloop.
    cbn [fst snd andb] in H1, H2, H3, H4. subst o.
    erewrite bind_returns by exact Hloop.
    unfold after_loop.
    erewrite bind_returns by reflexivity.
    erewrite bind_returns.
    2:{ eapply instance_call_returns; [|exact Hcr].
        cbn [server]. rewrite status_callback_instance. exact H4. }
    erewrite bind_returns by reflexivity.
    erewrite bind_returns by reflexivity.
    cbn [server invoked].
    match goal with |- context [perform_all ?a ?s0] =>
      set (s5 := perform_all a s0) end.
    assert (Hr5 : test_running s5 = true).
    { subst s5. apply perform_all_quiet_running; [exact Hca|].
      rewrite status_callback_flag. exact H3. }
    clearbody s5.
    change (test_running (set_current_model_instance None s5)) with (test_running s5).
    rewrite Hr5, Hsn.
    erewrite bind_returns by reflexivity.
    eexists. split; [reflexivity|]. cbn [server invoked]. split.
    - rewrite invocations_app, H2, invocations_app, invocations_run_calls, Hi2.
      cbn. apply app_nil_r.
    - rewrite broadcast_unfold. cbn [sockets clients]. eexists. reflexivity. }
  destruct Hrun as (w4 & Hbody & Hinv & Hlog).
  unfold execute_model_test. rewrite Hbody. cbn [fst snd].
  split; [reflexivity|]. split; [exact Hinv|]. split; [exact Hlog|].
  split; [|split].
  3:{ intros total i items' w0 Hp0 Hret.
      destruct (@run_loadlist_true p items' total i true w0 Hp0 Hret) as (_ & H1 & H2).
      auto. }
  - intros Hin. destruct (forallb (fun b => b) results) eqn:Hall; [|reflexivity].
    rewrite forallb_forall in Hall. specialize (Hall false Hin). discriminate.
  - intros Hnin. destruct (forallb (fun b => b) results) eqn:Hall; [reflexivity|].
    exfalso. apply Hnin.
    assert (G : forall l, forallb (fun b : bool => b) l = false -> In false l).
    { induction l as [|[|] l IHl]; simpl; intros; [discriminate|auto|auto]. }
    apply G. exact Hall.
Qed.
Lemma partial_failure_continues_witness :
  let p := demo_plugin [1] [] in
  let r := execute_model_test (demo_modules p) (lit "ModelC") demo_config demo_running in
  runs_quietly p 0 [item_25C; item_85C; item_cold]
  /\ item_results p 0 [item_25C; item_85C; item_cold] = [true; false; true]
  /\ fst r = false
  /\ invocations (invoked (snd r)) = [item_25C; item_85C; item_cold]
  /\ status (final_event (fst r) (lit "SN1")) = lit "error".
Proof.
  intros p r.
  assert (Hq : runs_quietly p 0 [item_25C; item_85C; item_cold]).
  { simpl. repeat split; eexists; try split; reflexivity. }
  destruct (@partial_failure_continues (demo_modules p) (lit "ModelC")
              (fun cls => if text_eqb cls (lit "ModelC") then Some p else None)
              p demo_config [item_25C; item_85C; item_cold] (lit "SN1") demo_running
              eq_refl eq_refl eq_refl eq_refl eq_refl
              (conj eq_refl eq_refl) (conj eq_refl eq_refl) Hq (conj eq_refl eq_refl))
    as (H1 & H2 & _ & H4 & _ & _).
  split; [exact Hq|]. split; [reflexivity|]. split; [exact H1|]. split; [exact H2|].
  apply H4. simpl. auto.
Defined.

Lemma worker_resets_run_state_witness :
  let p := demo_plugin [1] [] in
  let s1 := handle_start_command session_a (Some demo_config) demo_idle in
  test_running demo_idle = false
  /\ valid_config demo_config = true
  /\ threads s1 = [(lit "ModelC", demo_config)]
  /\ test_running
       (server (snd (execute_model_test (demo_modules p) (lit "ModelC") demo_config
                       {| server := s1; invoked := [] |}))) = false.
Proof.
  intros p s1.
  destruct (worker_resets_run_state (demo_modules p) session_a demo_config demo_idle
              eq_refl eq_refl) as [_ H].
  split; [reflexivity|]. split; [reflexivity|]. split; [reflexivity|].
  exact (proj1 (H (lit "ModelC") {| server := s1; invoked := [] |})).
Defined.

(** C4: the worker does not broadcast the "stopped" event it announces
    at the check.  In the example run the second session's stop command
    is served during the first item's [run_tests].  The check before the
    second item finds the flag lowered and the loop is left with only the
    first item invoked, as the claim says; but the worker makes its
    announcement "Test execution was stopped." through [status_callback],
    whose guard is false exactly then, and nothing is written: the only
    frames with status "stopped" are those [stop_test] wrote for the
    session's request.  The same is seen at the check alone, entered
    right after a stop command: the flag is lowered and the loop adds no
    frame.  No "completed" and no "error" event follows. *)
Lemma stop_announcement_dropped :
  let p := demo_plugin [] [0] in
  let w' := snd (execute_model_test (demo_modules p) (lit "ModelC")
                   demo_config demo_running) in
  let by_request := {| message := lit "Test stopped by user request";
                       status := lit "stopped" |} in
  let at_check := {| server := handle_stop_command session_b (server (demo_in_loop p));
                     invoked := [CallInit; CallSetup; CallRunTests 0 item_25C] |} in
  (invocations (invoked w') = [item_25C]
   /\ with_status (lit "stopped") (sockets (server w')) =
      [(session_a, by_request); (session_b, by_request)]
   /\ carries (lit "Test execution was stopped.") (sockets (server w')) = false
   /\ with_status (lit "completed") (sockets (server w')) = []
   /\ with_status (lit "error") (sockets (server w')) = [])
  /\ (test_running (server at_check) = false
      /\ sockets (server (snd (run_loadlist 3 1 [item_85C; item_cold] true at_check))) =
         [(session_a, by_request); (session_b, by_request)]
      /\ ~ (exists c m,
              In (c, {| message := m; status := lit "stopped" |})
                 (sockets (server (snd (run_loadlist 3 1 [item_85C; item_cold] true
                                          at_check)))) /\
              m <> lit "Test stopped by user request")).
Proof.
  split; [vm_compute; repeat split|].
  split; [reflexivity|]. split; [reflexivity|].
  intros (c & m & Hin & Hm). vm_compute in Hin.
  destruct Hin as [H|[H|[]]]; injection H as _ <-; apply Hm; reflexivity.
Qed.

Lemma handle_stop_running c s :
  test_running s = true ->
  handle_stop_command c s =
  set_current_test None
    (broadcast_to_all_clients
       {| message := lit "Test stopped by user request"; status := lit "stopped" |}
       (set_test_running false s)).
Proof. unfold handle_stop_command. intros ->. reflexivity. Qed.

(** A stop command served during a run lowers the flag and broadcasts a
    "stopped" event.  At a check that finds the flag lowered the worker
    leaves the loop with [overall_success] false, without invoking
    [run_tests] on the item at hand or on any later one and without
    writing to any socket.  With the flag still lowered, once a [cleanup]
    that only reports has returned, the worker ends without a final
    report. *)
Lemma stop_check_breaks_loop :
  forall (model_name : text) (cfg : test_config) (p : Plugin)
         (total i : nat) (x : run_item) (rest : list run_item)
         (overall_success : bool) (w : World),
    test_running (server w) = false ->
    current_model_instance (server w) = Some p ->
    forallb is_report (fst (p_cleanup p false)) = true ->
    snd (p_cleanup p false) = Return tt ->
    run_loadlist total i (x :: rest) overall_success w = (Return false, w)
    /\ (let r := after_loop model_name cfg false w in
        fst r = Return false
        /\ sockets (server (snd r)) = sockets (server w)
        /\ invoked (snd r) = invoked w ++ [CallCleanup])
    /\ (forall c s,
          test_running s = true ->
          test_running (handle_stop_command c s) = false
          /\ sockets (handle_stop_command c s) =
             sockets s ++
             map (fun c' => (c', {| message := lit "Test stopped by user request";
                                    status := lit "stopped" |})) (clients s)).
Proof.
  intros model_name cfg p total i x rest overall_success w Hr Hp Hrep Hret.
  split; [apply run_loadlist_stopped; exact Hr|]. split.
  - unfold after_loop.
    erewrite bind_returns by reflexivity.
    erewrite bind_returns.
    2:{ eapply instance_call_returns; [|exact Hret].
        cbn [server]. rewrite status_callback_instance. exact Hp. }
    erewrite bind_returns by reflexivity.
    erewrite bind_returns by reflexivity.
    cbn [server invoked].
    rewrite status_callback_idle by exact Hr.
    rewrite perform_reports_idle by assumption.
    change (test_running (set_current_model_instance None (server w)))
      with (test_running (server w)).
    rewrite Hr. simpl. auto.
  - intros c s Hs. rewrite handle_stop_running by exact Hs. rewrite broadcast_unfold.
    simpl. auto.
Qed.

Example stop_check_breaks_loop_at_the_second_item :
  let p := demo_plugin [] [0] in
  let w := {| server := perform_all (fst (p_run_tests p 0 item_25C))
                          (server (demo_in_loop p));
              invoked := [CallInit; CallSetup; CallRunTests 0 item_25C] |} in
  test_running (server w) = false
  /\ run_loadlist 3 1 [item_85C; item_cold] false w = (Return false, w)
  /\ sockets (server (snd (after_loop (lit "ModelC") demo_config false w))) =
     sockets (server w).
Proof.
  intros p w.
  destruct (@stop_check_breaks_loop (lit "ModelC") demo_config p 3 1 item_85C
              [item_cold] false w eq_refl eq_refl eq_refl eq_refl)
    as (H1 & (_ & H2 & _) & _).
  split; [reflexivity|]. split; [exact H1|exact H2].
Defined.

Lemma status_callback_gated_witness :
  let s := {| clients := [lit "a"]; current_test := None;
              test_running := true; current_model_instance := None;
              sockets := []; threads := [] |} in
  let reports := [Report (lit "[ModelC] Test stopped by user.") (lit "stopped")] in
  perform_all reports (handle_stop_command (lit "a") s) = handle_stop_command (lit "a") s.
Proof.
  intros s reports.
  exact (proj1 (proj2 (proj2 (status_callback_gated s reports eq_refl))) (lit "a")).
Defined.

End Server3Facts.

(** ** The dispatcher *)

Module TestCases2Facts.
Import TestCases2.

Lemma lower_ascii unicode_lower s :
  Forall (fun c => (c < 128)%N) s ->
  lower unicode_lower s =
  map (fun c => if (65 <=? c)%N && (c <=? 90)%N then (c + 32)%N else c) s.
Proof.
  intros H. unfold lower.
  assert (A : forallb (fun c => (c <? 128)%N) s = true).
  { apply forallb_forall. rewrite Forall_forall in H.
    intros c Hc. apply N.ltb_lt, H, Hc. }
  rewrite A. reflexivity.
Qed.

Lemma method_name_ascii unicode_lower s :
  Forall (fun c => (c < 128)%N) s ->
  method_name unicode_lower s = lit "test_" ++ map normalize_ascii s.
Proof.
  intros Hs. unfold method_name. rewrite (lower_ascii unicode_lower Hs).
  f_equal. unfold replace. rewrite !map_map. apply map_ext_in.
  intros c _. unfold normalize_ascii.
  destruct ((65 <=? c)%N && (c <=? 90)%N) eqn:Hup.
  - apply andb_true_iff in Hup. destruct Hup as [H1 H2].
    apply N.leb_le in H1. apply N.leb_le in H2.
    assert (E1 : (c + 32 =? 32)%N = false) by (apply N.eqb_neq; lia).
    assert (E2 : (c + 32 =? 47)%N = false) by (apply N.eqb_neq; lia).
    rewrite E1, E2. reflexivity.
  - destruct (c =? 32)%N eqn:E1; simpl.
    + reflexivity.
    + destruct (c =? 47)%N; reflexivity.
Qed.



End TestCases2Facts.

(** ** The catalog query *)

Module CatalogFacts.
Import Catalog.

Lemma unique_In x l : In x (unique l) <-> In x l.
Proof.
  induction l as [|y l IH]; simpl; [tauto|].
  rewrite filter_In, IH, negb_true_iff, Z.eqb_neq.
  destruct (Z.eq_dec y x) as [->|Hne]; [tauto|].
  split; [tauto|]. intros [H|H]; [tauto|]. right. split; [exact H|congruence].
Qed.

Lemma column_min_le first rest :
  (column_min first rest <= first)%Z
  /\ forall x, In x rest -> (column_min first rest <= x)%Z.
Proof.
  unfold column_min. revert first; induction rest as [|y rest IH]; intros first; simpl.
  - split; [lia|tauto].
  - destruct (IH (Z.min first y)) as [H1 H2]. split; [lia|].
    intros x [<-|Hx]; [lia|auto].
Qed.

Lemma column_min_In first rest :
  column_min first rest = first \/ In (column_min first rest) rest.
Proof.
  unfold column_min. revert first; induction rest as [|y rest IH]; intros first; simpl.
  - left; reflexivity.
  - destruct (IH (Z.min first y)) as [H|H]; [|right; right; exact H].
    rewrite H. destruct (Z.min_spec first y) as [[_ ->]|[_ ->]]; [left|right; left]; reflexivity.
Qed.

Lemma existsb_Zeqb x l : existsb (Z.eqb x) l = true <-> In x l.
Proof.
  rewrite existsb_exists. split.
  - intros (y & Hy & E). apply Z.eqb_eq in E. subst. exact Hy.
  - intros H. exists x. split; [exact H|apply Z.eqb_refl].
Qed.

Lemma NoDup_map_filter {A B : Type} (f : A -> B) (g : A -> bool) l :
  NoDup (map f l) -> NoDup (map f (filter g l)).
Proof.
  induction l as [|x l IH]; simpl; intros H; [constructor|].
  inversion H as [|? ? Hnin Hnd]; subst.
  destruct (g x); simpl; [|auto].
  constructor; [|auto].
  intros Hin. apply Hnin. apply in_map_iff in Hin. destruct Hin as (y & E & Hy).
  apply filter_In in Hy. apply in_map_iff. exists y. tauto.
Qed.

(** C7: a rule applies when each of its three fields equals the queried
    id or is 0; a definition is returned exactly when some applicable
    rule of the lowest priority among the applicable ones refers to it;
    nothing is returned when no rule applies; and a definition is not
    returned twice, however many winning rules refer to it. *)
Theorem get_testcase_lowest_priority_wins :
  forall (rules : list rule) (defs : list definition) (m b t : Z),
    let applies := rule_matches m b t in
    (forall r, applies r = true <->
               (ModelID r = m \/ ModelID r = 0%Z) /\
               (BandID r = b \/ BandID r = 0%Z) /\
               (TemperatureID r = t \/ TemperatureID r = 0%Z))
    /\ (forall d, In d (get_testcase rules defs m b t) <->
                  In d defs /\
                  exists r, In r rules /\ applies r = true /\
                            (forall r', In r' rules -> applies r' = true ->
                                        (Priority r <= Priority r')%Z) /\
                            TestCaseID r = ID d)
    /\ ((forall r, In r rules -> applies r = false) -> get_testcase rules defs m b t = [])
    /\ (NoDup (map ID defs) -> NoDup (map ID (get_testcase rules defs m b t)))
    /\ (exists keep, get_testcase rules defs m b t = filter keep defs).
Proof.
  intros rules defs m b t applies. split; [|split; [|split; [|split]]].
  - intros r. subst applies. unfold rule_matches.
    rewrite !andb_true_iff, !orb_true_iff, !Z.eqb_eq. tauto.
  - intros d. unfold get_testcase. fold applies.
    destruct (filter applies rules) as [|r0 rest] eqn:Hf.
    + simpl. split; [tauto|]. intros (_ & r & Hr & Ha & _).
      assert (Hin : In r (filter applies rules)) by (apply filter_In; tauto).
      rewrite Hf in Hin. destruct Hin.
    + cbv zeta. set (lowest := column_min (Priority r0) (map Priority rest)).
      assert (Hlow : forall r', In r' rules -> applies r' = true ->
                                (lowest <= Priority r')%Z).
      { intros r' Hr' Ha'.
        assert (Hin : In r' (r0 :: rest)) by (rewrite <- Hf; apply filter_In; tauto).
        destruct (column_min_le (Priority r0) (map Priority rest)) as [H1 H2].
        destruct Hin as [<-|Hin]; [exact H1|]. apply H2. apply in_map. exact Hin. }
      assert (Hex : exists r1, In r1 rules /\ applies r1 = true /\ Priority r1 = lowest).
      { destruct (column_min_In (Priority r0) (map Priority rest)) as [H|H].
        - exists r0. assert (Hin : In r0 (filter applies rules)) by (rewrite Hf; left; reflexivity).
          apply filter_In in Hin. subst lowest. intuition congruence.
        - apply in_map_iff in H. destruct H as (r1 & E & Hin).
          assert (Hin' : In r1 (filter applies rules)) by (rewrite Hf; right; exact Hin).
          apply filter_In in Hin'. exists r1. subst lowest. intuition congruence. }
      rewrite filter_In, existsb_Zeqb, unique_In, in_map_iff.
      split.
      * intros (Hd & r & E & Hr). apply filter_In in Hr. destruct Hr as [Hr Hp].
        apply Z.eqb_eq in Hp.
        assert (Hr' : In r (filter applies rules)) by (rewrite Hf; exact Hr).
        apply filter_In in Hr'. split; [exact Hd|]. exists r.
        repeat split; try tauto.
        intros r' Hr'' Ha''. rewrite Hp. apply Hlow; assumption.
      * intros (Hd & r & Hr & Ha & Hmin & E). split; [exact Hd|]. exists r.
        split; [exact E|]. apply filter_In. split.
        -- rewrite <- Hf. apply filter_In. tauto.
        -- apply Z.eqb_eq. destruct Hex as (r1 & Hr1 & Ha1 & Hp1).
           specialize (Hmin r1 Hr1 Ha1). specialize (Hlow r Hr Ha). lia.
  - intros Hnone. unfold get_testcase. fold applies.
    destruct (filter applies rules) as [|r0 rest] eqn:Hf; [reflexivity|].
    assert (Hin : In r0 (filter applies rules)) by (rewrite Hf; left; reflexivity).
    apply filter_In in Hin. destruct Hin as [Hin Ha]. rewrite (Hnone r0 Hin) in Ha.
    discriminate.
  - intros Hnd. unfold get_testcase.
    destruct (filter _ rules); [constructor|]. apply NoDup_map_filter. exact Hnd.
  - unfold get_testcase. destruct (filter _ rules).
    + exists (fun _ => false). induction defs as [|d l IH]; simpl; auto.
    + eexists. reflexivity.
Qed.

Lemma get_testcase_lowest_priority_wins_witness :
  NoDup (map ID demo_defs)
  /\ map ID (get_testcase demo_rules demo_defs 3 7 5) = [2%Z; 4%Z]
  /\ NoDup (map ID (get_testcase demo_rules demo_defs 3 7 5)).
Proof.
  assert (Hnd : NoDup (map ID demo_defs)).
  { simpl. repeat constructor; simpl; intuition discriminate. }
  split; [exact Hnd|]. split; [reflexivity|].
  exact (proj1 (proj2 (proj2 (proj2
           (get_testcase_lowest_priority_wins demo_rules demo_defs 3 7 5)))) Hnd).
Defined.

End CatalogFacts.

(** ** The JSON codec *)

Module JsonFacts.
Import Json Channel.
Local Open Scope N_scope.

Lemma all_from_spec f fuel : forall i,
  all_from fuel i f = true ->
  forall j, i <= j -> j < i + N.of_nat fuel -> f j = true.
Proof.
  induction fuel as [|k IH]; intros i H j Hij Hj.
  - simpl in Hj. lia.
  - simpl in H. apply andb_true_iff in H. destruct H as [Hi Hrest].
    destruct (N.eq_dec i j) as [->|Hne]; [exact Hi|].
    apply (IH (N.succ i)); [exact Hrest|lia|lia].
Qed.

Lemma hex4_checked : all_from (N.to_nat 65536) 0 hex4_reads_back = true.
Proof. vm_compute. reflexivity. Qed.

Lemma lor_low_bits a lo : lo < 1024 -> N.lor (N.shiftl a 10) lo = a * 1024 + lo.
Proof.
  intros Hlo.
  assert (Hd : N.land (N.shiftl a 10) lo = 0).
  { apply N.bits_inj. intros i. rewrite N.land_spec, N.bits_0.
    destruct (N.lt_ge_cases i 10) as [Hi|Hi].
    - rewrite N.shiftl_spec_low by exact Hi. reflexivity.
    - replace lo with (lo mod 2 ^ 10) by (apply N.mod_small; exact Hlo).
      rewrite N.mod_pow2_bits_high by exact Hi. apply andb_false_r. }
  rewrite <- N.lxor_lor by exact Hd.
  rewrite <- N.add_nocarry_lxor by exact Hd.
  rewrite N.shiftl_mul_pow2. reflexivity.
Qed.

Lemma lor_surrogate_base base k :
  (base = 55296 \/ base = 56320) -> k < 1024 -> N.lor base k = base + k.
Proof.
  intros Hb Hk.
  assert (E : base = N.shiftl (base / 1024) 10).
  { destruct Hb as [-> | ->]; reflexivity. }
  rewrite E at 1. rewrite lor_low_bits by exact Hk.
  destruct Hb as [-> | ->]; reflexivity.
Qed.

Lemma surrogates_join c :
  65536 <= c -> c < 1114112 -> surrogates_join_back c = true.
Proof.
  intros H1 H2. unfold surrogates_join_back, join_surrogates.
  set (n := c - 65536).
  assert (Hn : n < 1048576) by (subst n; lia).
  change 1023 with (N.ones 10). rewrite !N.land_ones, N.shiftr_div_pow2.
  change (2 ^ 10) with 1024.
  assert (Hlo : n mod 1024 < 1024) by (apply N.mod_lt; lia).
  assert (Hhi : n / 1024 < 1024) by (apply N.Div0.div_lt_upper_bound; lia).
  rewrite (N.mod_small (n / 1024)) by exact Hhi.
  rewrite !lor_surrogate_base by (auto; lia).
  rewrite (N.add_comm 55296), (N.add_comm 56320), !N.add_sub.
  rewrite lor_low_bits by exact Hlo.
  unfold is_high_surrogate, is_low_surrogate.
  rewrite !andb_true_iff, !N.leb_le, N.eqb_eq.
  assert (Hdm : n = 1024 * (n / 1024) + n mod 1024) by (apply N.div_mod; lia).
  assert (Hc : c = n + 65536) by (subst n; lia).
  clearbody n. generalize dependent (n / 1024). generalize dependent (n mod 1024).
  intros lo Hlo hi Hhi Hdm. lia.
Qed.

Lemma hex4_decode n :
  n < 65536 ->
  exists a b c d, hex4 n = [a; b; c; d] /\ decode_uXXXX a b c d = Some n.
Proof.
  intros Hn.
  assert (H : hex4_reads_back n = true).
  { apply (@all_from_spec _ _ _ hex4_checked); lia. }
  unfold hex4_reads_back in H. unfold hex4 in *.
  do 4 eexists. split; [reflexivity|].
  destruct (decode_uXXXX _ _ _ _) as [k|]; [|discriminate].
  apply N.eqb_eq in H. subst. reflexivity.
Qed.

(** The equations of [scanstring], one per kind of character. *)
Lemma scanstring_plain c rest :
  c <> 34 -> c <> 92 -> 32 <= c ->
  scanstring (c :: rest) = push c (scanstring rest).
Proof.
  intros H1 H2 H3. simpl scanstring at 1.
  apply N.eqb_neq in H1. apply N.eqb_neq in H2. rewrite H1, H2.
  assert (E : (c <? 32) = false) by (apply N.ltb_ge; exact H3).
  rewrite E. reflexivity.
Qed.

Lemma scanstring_short esc char rest :
  esc <> 117 -> backslash esc = Some char ->
  scanstring (92 :: esc :: rest) = push char (scanstring rest).
Proof.
  intros H1 H2. simpl scanstring at 1.
  apply N.eqb_neq in H1. rewrite H1, H2. reflexivity.
Qed.

Lemma scanstring_unicode a b c d uni rest :
  decode_uXXXX a b c d = Some uni -> is_high_surrogate uni = false ->
  scanstring (92 :: 117 :: a :: b :: c :: d :: rest) = push uni (scanstring rest).
Proof.
  intros H1 H2. simpl scanstring at 1. rewrite H1, H2. reflexivity.
Qed.

Lemma scanstring_pair a b c d a' b' c' d' uni uni2 rest :
  decode_uXXXX a b c d = Some uni -> is_high_surrogate uni = true ->
  decode_uXXXX a' b' c' d' = Some uni2 -> is_low_surrogate uni2 = true ->
  scanstring (92 :: 117 :: a :: b :: c :: d :: 92 :: 117 :: a' :: b' :: c' :: d' :: rest) =
  push (join_surrogates uni uni2) (scanstring rest).
Proof.
  intros H1 H2 H3 H4. simpl scanstring at 1. rewrite H1, H2, H3, H4. reflexivity.
Qed.

(** The string scanner reads back what the string encoder writes for one
    character of Unicode text. *)
Lemma scanstring_escape c rest :
  is_scalar c = true ->
  scanstring (escape c ++ rest) = push c (scanstring rest).
Proof.
  intros Hc. unfold escape.
  destruct (c =? 34) eqn:E1;
    [apply N.eqb_eq in E1; subst; apply scanstring_short; [discriminate|reflexivity]|].
  destruct (c =? 92) eqn:E2;
    [apply N.eqb_eq in E2; subst; apply scanstring_short; [discriminate|reflexivity]|].
  destruct (c =? 10) eqn:E3;
    [apply N.eqb_eq in E3; subst; apply scanstring_short; [discriminate|reflexivity]|].
  destruct (c =? 13) eqn:E4;
    [apply N.eqb_eq in E4; subst; apply scanstring_short; [discriminate|reflexivity]|].
  destruct (c =? 9) eqn:E5;
    [apply N.eqb_eq in E5; subst; apply scanstring_short; [discriminate|reflexivity]|].
  destruct (c =? 12) eqn:E6;
    [apply N.eqb_eq in E6; subst; apply scanstring_short; [discriminate|reflexivity]|].
  destruct (c =? 8) eqn:E7;
    [apply N.eqb_eq in E7; subst; apply scanstring_short; [discriminate|reflexivity]|].
  apply N.eqb_neq in E1. apply N.eqb_neq in E2.
  destruct ((32 <=? c) && (c <=? 126)) eqn:E8.
  - apply andb_true_iff in E8. destruct E8 as [E8 _]. apply N.leb_le in E8.
    apply scanstring_plain; assumption.
  - unfold is_scalar in Hc.
    destruct (c <? 65536) eqn:E9.
    + apply N.ltb_lt in E9.
      destruct (@hex4_decode _ E9) as (h1 & h2 & h3 & h4 & Hh & Hd).
      rewrite Hh. simpl app. apply scanstring_unicode; [exact Hd|].
      unfold is_high_surrogate.
      apply orb_true_iff in Hc. destruct Hc as [Hc|Hc].
      * apply N.ltb_lt in Hc. apply andb_false_iff. left. apply N.leb_gt. exact Hc.
      * apply andb_true_iff in Hc. destruct Hc as [Hc _]. apply N.ltb_lt in Hc.
        apply andb_false_iff. right. apply N.leb_gt. lia.
    + apply N.ltb_ge in E9.
      assert (Hlt : c < 1114112).
      { apply orb_true_iff in Hc. destruct Hc as [Hc|Hc].
        - apply N.ltb_lt in Hc. lia.
        - apply andb_true_iff in Hc. destruct Hc as [_ Hc]. apply N.ltb_lt in Hc. exact Hc. }
      pose proof (@surrogates_join _ E9 Hlt) as Hj. unfold surrogates_join_back in Hj.
      cbv zeta in Hj |- *.
      set (s1 := N.lor 55296 (N.land (N.shiftr (c - 65536) 10) 1023)) in *.
      set (s2 := N.lor 56320 (N.land (c - 65536) 1023)) in *.
      apply andb_true_iff in Hj. destruct Hj as [Hj Hjoin].
      apply andb_true_iff in Hj. destruct Hj as [Hhigh Hlow].
      apply N.eqb_eq in Hjoin.
      assert (B1 : s1 < 65536).
      { unfold is_high_surrogate in Hhigh. apply andb_true_iff in Hhigh.
        destruct Hhigh as [_ Hh]. apply N.leb_le in Hh. lia. }
      assert (B2 : s2 < 65536).
      { unfold is_low_surrogate in Hlow. apply andb_true_iff in Hlow.
        destruct Hlow as [_ Hl]. apply N.leb_le in Hl. lia. }
      destruct (@hex4_decode _ B1) as (h1 & h2 & h3 & h4 & Hh & Hd).
      destruct (@hex4_decode _ B2) as (k1 & k2 & k3 & k4 & Hk & Hdk).
      rewrite Hh, Hk. simpl app.
      rewrite (@scanstring_pair _ _ _ _ _ _ _ _ _ _ rest Hd Hhigh Hdk Hlow).
      rewrite Hjoin. reflexivity.
Qed.

Lemma scanstring_encoded s rest :
  well_formed s = true ->
  scanstring (flat_map escape s ++ 34 :: rest) = Some (s, rest).
Proof.
  unfold well_formed. induction s as [|c s IH]; simpl; intros H.
  - reflexivity.
  - apply andb_true_iff in H. destruct H as [Hc Hs].
    rewrite <- app_assoc, scanstring_escape by exact Hc.
    rewrite IH by exact Hs. reflexivity.
Qed.

Lemma member_tail_eq k v more : member (k, v) ++ more = 34 :: member_tail k v more.
Proof.
  unfold member, member_tail, encode_basestring_ascii. simpl.
  repeat (rewrite <- app_assoc; simpl). reflexivity.
Qed.

Lemma join_members d close :
  join (lit ", ") (map member d) ++ close =
  match d with
  | [] => close
  | (k, v) :: d' => 34 :: member_tail k v (members_after d' close)
  end.
Proof.
  induction d as [|[k v] d IH]; [reflexivity|].
  destruct d as [|[k' v'] d'].
  - simpl. rewrite app_nil_r || idtac. apply member_tail_eq.
  - change (map member ((k, v) :: (k', v') :: d'))
      with (member (k, v) :: map member ((k', v') :: d')).
    change (join (lit ", ") (member (k, v) :: map member ((k', v') :: d')))
      with (member (k, v) ++ lit ", " ++ join (lit ", ") (map member ((k', v') :: d'))).
    rewrite <- !app_assoc, IH, member_tail_eq. reflexivity.
Qed.

Lemma dumps_shape d rest :
  dumps d ++ rest =
  match d with
  | [] => 123 :: 125 :: rest
  | (k, v) :: d' => 123 :: 34 :: member_tail k v (members_after d' (125 :: rest))
  end.
Proof.
  unfold dumps. fold member. rewrite <- !app_assoc. simpl app at 1.
  rewrite join_members. destruct d as [|[k v] d']; reflexivity.
Qed.

(** The member loop reads back the members the encoder writes. *)
Lemma object_members_step fuel k v more pairs :
  well_formed k = true -> well_formed v = true ->
  object_members (S fuel) (member_tail k v more) pairs =
  match skip_ws more with
  | [] => DecodeError
  | nextchar :: s4 =>
      if nextchar =? 125 then
        Decoded (VObject (dict_of_pairs (pairs ++ [(k, v)]))) s4
      else if nextchar =? 44 then
        match skip_ws s4 with
        | quote :: s5 =>
            if quote =? 34
            then object_members fuel s5 (pairs ++ [(k, v)])
            else DecodeError
        | [] => DecodeError
        end
      else DecodeError
  end.
Proof.
  intros Hk Hv. unfold member_tail.
  change (object_members (S fuel) ?s pairs) with
    (match scanstring s with
     | None => DecodeError
     | Some (key, s1) =>
         match skip_ws s1 with
         | [] => DecodeError
         | colon :: s2 =>
             if colon =? 58 then
               match scan_member_value (skip_ws s2) with
               | Decoded (VString v0) s3 =>
                   match skip_ws s3 with
                   | [] => DecodeError
                   | nextchar :: s4 =>
                       if nextchar =? 125 then
                         Decoded (VObject (dict_of_pairs (pairs ++ [(key, v0)]))) s4
                       else if nextchar =? 44 then
                         match skip_ws s4 with
                         | quote :: s5 =>
                             if quote =? 34
                             then object_members fuel s5 (pairs ++ [(key, v0)])
                             else DecodeError
                         | [] => DecodeError
                         end
                       else DecodeError
                   end
               | Decoded (VObject _) _ => Unsupported
               | DecodeError => DecodeError
               | Unsupported => Unsupported
               end
             else DecodeError
         end
     end).
  rewrite (@scanstring_encoded k _ Hk).
  change (skip_ws (58 :: ?s)) with (58 :: s).
  change (58 =? 58) with true. cbv iota.
  change (skip_ws (32 :: 34 :: ?s)) with (34 :: s).
  change (scan_member_value (34 :: ?s)) with
    (match scanstring s with
     | Some (str, tl) => Decoded (VString str) tl
     | None => DecodeError
     end).
  rewrite (@scanstring_encoded v _ Hv). reflexivity.
Qed.

(** The member loop reads back the members the encoder writes. *)
Lemma object_members_encoded d :
  forall k v pairs fuel rest,
    (length d < fuel)%nat ->
    well_formed k = true -> well_formed v = true -> well_formed_dict d = true ->
    object_members fuel (member_tail k v (members_after d (125 :: rest))) pairs =
    Decoded (VObject (dict_of_pairs (pairs ++ (k, v) :: d))) rest.
Proof.
  induction d as [|[k' v'] d IH]; intros k v pairs fuel rest Hf Hk Hv Hd;
    (destruct fuel as [|fuel]; [simpl in Hf; lia|]);
    rewrite object_members_step by assumption.
  - reflexivity.
  - simpl in Hd. apply andb_true_iff in Hd. destruct Hd as [Hkv Hd].
    apply andb_true_iff in Hkv. destruct Hkv as [Hk' Hv'].
    change (members_after ((k', v') :: d) (125 :: rest))
      with (44 :: 32 :: 34 :: member_tail k' v' (members_after d (125 :: rest))).
    change (skip_ws (44 :: ?s)) with (44 :: s).
    change (44 =? 125) with false. change (44 =? 44) with true. cbv iota.
    change (skip_ws (32 :: 34 :: ?s)) with (34 :: s).
    change (34 =? 34) with true. cbv iota.
    rewrite IH; try assumption; [|simpl in Hf; lia].
    rewrite <- app_assoc. reflexivity.
Qed.

Lemma dict_set_fresh k v d :
  existsb (fun kv => text_eqb (fst kv) k) d = false -> dict_set k v d = d ++ [(k, v)].
Proof.
  induction d as [|[k' v'] d IH]; simpl; intros H; [reflexivity|].
  apply orb_false_iff in H. destruct H as [H1 H2]. rewrite H1, IH by exact H2. reflexivity.
Qed.

Lemma dict_of_pairs_distinct d :
  NoDup (map fst d) -> dict_of_pairs d = d.
Proof.
  unfold dict_of_pairs.
  assert (G : forall d acc, NoDup (map fst (acc ++ d)) ->
            fold_left (fun d0 kv => dict_set (fst kv) (snd kv) d0) d acc = acc ++ d).
  { clear d. induction d as [|[k v] d IH]; intros acc H; simpl.
    - symmetry. apply app_nil_r.
    - rewrite dict_set_fresh.
      + rewrite IH; rewrite <- app_assoc; [reflexivity|exact H].
      + rewrite map_app in H. simpl in H. apply NoDup_remove_2 in H.
        destruct (existsb _ acc) eqn:E; [|reflexivity].
        exfalso. apply H. apply in_or_app. left.
        apply existsb_exists in E. destruct E as ([k0 v0] & Hin & Heq).
        apply text_eqb_eq in Heq. simpl in Heq. subst.
        apply in_map_iff. exists (k, v0). split; [reflexivity|exact Hin]. }
  intros H. apply (G d []). exact H.
Qed.

Lemma members_after_length d close :
  (length d <= length (members_after d close))%nat.
Proof.
  induction d as [|[k v] d IH]; simpl; [lia|].
  unfold member_tail. rewrite length_app. simpl. rewrite length_app. simpl. lia.
Qed.

(** [raw_decode] reads back, from the head of any text, the object
    [dumps] writes for a dict of Unicode strings. *)
Lemma raw_decode_dumps d rest :
  NoDup (map fst d) -> well_formed_dict d = true ->
  raw_decode (dumps d ++ rest) = Decoded (VObject d) rest.
Proof.
  intros Hnd Hwf. rewrite dumps_shape. destruct d as [|[k v] d]; [reflexivity|].
  simpl in Hwf. apply andb_true_iff in Hwf. destruct Hwf as [Hkv Hd].
  apply andb_true_iff in Hkv. destruct Hkv as [Hk Hv].
  change (raw_decode (123 :: ?s)) with (JSONObject s).
  unfold JSONObject.
  change (skip_ws (34 :: ?s)) with (34 :: s).
  change (34 =? 125) with false. change (34 =? 34) with true. cbv iota.
  rewrite object_members_encoded; try assumption.
  - simpl app. rewrite dict_of_pairs_distinct by exact Hnd. reflexivity.
  - simpl length. unfold member_tail. rewrite length_app. simpl. rewrite length_app. simpl.
    pose proof (members_after_length d (125 :: rest)). lia.
Qed.
End JsonFacts.

(** ** The framed channel *)

Module ChannelFacts.
Import Json Channel JsonFacts.

Lemma hexdigit_ascii n : (n < 16)%N -> is_ascii (hexdigit n) = true.
Proof.
  intros H. unfold is_ascii, hexdigit. apply N.ltb_lt.
  destruct (n <? 10)%N; lia.
Qed.

Lemma hex4_ascii n : forallb is_ascii (hex4 n) = true.
Proof.
  unfold hex4. simpl.
  rewrite !hexdigit_ascii by (apply N.mod_lt; discriminate). reflexivity.
Qed.

Lemma escape_ascii c : forallb is_ascii (escape c) = true.
Proof.
  unfold escape.
  repeat match goal with
         | |- context [if (c =? ?k)%N then _ else _] => destruct (c =? k)%N; [reflexivity|]
         end.
  destruct ((32 <=? c)%N && (c <=? 126)%N) eqn:E.
  - apply andb_true_iff in E. destruct E as [_ E]. apply N.leb_le in E.
    simpl. unfold is_ascii. rewrite andb_true_r. apply N.ltb_lt. lia.
  - assert (U : forall n, forallb is_ascii (92 :: 117 :: hex4 n)%N = true).
    { intros n. change (forallb is_ascii (92 :: 117 :: hex4 n)%N)
        with (forallb is_ascii (hex4 n)). apply hex4_ascii. }
    destruct (c <? 65536)%N; [apply U|].
    cbv zeta. rewrite forallb_app, !U. reflexivity.
Qed.

Lemma encode_basestring_ascii_ascii s : forallb is_ascii (encode_basestring_ascii s) = true.
Proof.
  unfold encode_basestring_ascii. simpl. rewrite forallb_app. simpl.
  rewrite andb_true_r. induction s as [|c s IH]; simpl; [reflexivity|].
  rewrite forallb_app, escape_ascii, IH. reflexivity.
Qed.

Lemma join_ascii sep l :
  forallb is_ascii sep = true -> forallb (forallb is_ascii) l = true ->
  forallb is_ascii (join sep l) = true.
Proof.
  intros Hsep. induction l as [|x l IH]; simpl; intros H; [reflexivity|].
  apply andb_true_iff in H. destruct H as [Hx Hl].
  destruct l as [|y l']; [exact Hx|].
  rewrite !forallb_app, Hx, Hsep, IH by exact Hl. reflexivity.
Qed.

(** What [json.dumps] writes is ASCII, whatever the strings. *)
Lemma dumps_ascii d : forallb is_ascii (dumps d) = true.
Proof.
  unfold dumps. fold member. rewrite !forallb_app.
  rewrite join_ascii; [reflexivity|reflexivity|].
  apply forallb_forall. intros x Hx. apply in_map_iff in Hx.
  destruct Hx as (kv & <- & _). unfold member.
  rewrite !forallb_app, !encode_basestring_ascii_ascii. reflexivity.
Qed.

Lemma send_to_client_frame d : send_to_client d = Some (dumps d ++ [10%N]).
Proof.
  unfold send_to_client, encode_utf8.
  rewrite forallb_app, dumps_ascii. reflexivity.
Qed.

Lemma send_all_frames events : send_all events = Some (frames events).
Proof.
  induction events as [|e rest IH]; [reflexivity|].
  change (send_all (e :: rest)) with
    (match send_to_client (event_dict e), send_all rest with
     | Some frame, Some more => Some (frame ++ more)
     | _, _ => None
     end).
  rewrite send_to_client_frame, IH, <- app_assoc. reflexivity.
Qed.

Lemma frames_ascii events : forallb is_ascii (frames events) = true.
Proof.
  induction events as [|e rest IH]; [reflexivity|].
  change (frames (e :: rest)) with (dumps (event_dict e) ++ 10%N :: frames rest).
  rewrite forallb_app, dumps_ascii. exact IH.
Qed.

Lemma frames_no_leading_space events : leading_spaces (frames events) = 0.
Proof. destruct events as [|e rest]; reflexivity. Qed.

Lemma skipn_past {A : Type} (pre rest : list A) : skipn (length pre) (pre ++ rest) = rest.
Proof. induction pre as [|x pre IH]; simpl; [reflexivity|exact IH]. Qed.

Lemma handle_message_buffer d self : buffer (handle_message d self) = buffer self.
Proof. reflexivity. Qed.

Lemma handle_all_handled events : forall self,
  handled (handle_all events self) = handled self ++ map event_dict events.
Proof.
  unfold handle_all. induction events as [|e rest IH]; intros self; simpl.
  - symmetry. apply app_nil_r.
  - rewrite IH. simpl. rewrite <- app_assoc. reflexivity.
Qed.

Lemma event_dict_distinct e : NoDup (map fst (event_dict e)).
Proof.
  simpl. constructor; [|constructor; [intros []|constructor]].
  simpl. intros [H|[]]. discriminate.
Qed.

Lemma event_dict_well_formed e :
  well_formed_event e = true -> well_formed_dict (event_dict e) = true.
Proof.
  unfold well_formed_event, well_formed_dict. simpl. intros H.
  apply andb_true_iff in H. destruct H as [Hm Hs]. rewrite Hm, Hs. reflexivity.
Qed.

Lemma process_loop_turn fuel start_pos self :
  process_loop (S fuel) start_pos self =
  if start_pos <? length (buffer self) then
    match raw_decode (skipn start_pos (buffer self)) with
    | Decoded (VObject obj) rest =>
        process_loop fuel
          (start_pos + (length (skipn start_pos (buffer self)) - length rest) +
           leading_spaces
             (skipn (start_pos + (length (skipn start_pos (buffer self)) - length rest))
                (buffer self)))
          (handle_message obj self)
    | Decoded (VString _) _ => HandlerRaised
    | Unsupported => Beyond
    | DecodeError =>
        if 1000 <? length (buffer self) - start_pos then
          process_loop fuel 0
            (set_buffer (skipn (length (buffer self) - 500) (buffer self)) self)
        else
          match find_brace (buffer self) (start_pos + 1) with
          | Some next_open_brace => process_loop fuel next_open_brace self
          | None => Processed (drop_consumed start_pos self)
          end
    end
  else Processed (drop_consumed start_pos self).
Proof. reflexivity. Qed.

(** With the buffer holding whole frames from [start_pos] on, the loop
    handles the events of the frames in order and empties the buffer. *)
Lemma process_loop_frames events :
  forall fuel pre self,
    buffer self = pre ++ frames events ->
    length events < fuel ->
    forallb well_formed_event events = true ->
    process_loop fuel (length pre) self =
    Processed (set_buffer [] (handle_all events self)).
Proof.
  induction events as [|e rest IH]; intros fuel pre self Hbuf Hfuel Hwf;
    (destruct fuel as [|fuel]; [simpl in Hfuel; lia|]);
    rewrite process_loop_turn.
  - change (frames []) with (@nil N) in Hbuf. rewrite app_nil_r in Hbuf.
    rewrite Hbuf, Nat.ltb_irrefl. unfold drop_consumed. rewrite Hbuf.
    destruct pre as [|c pre].
    + destruct self as [b o s h]. simpl in Hbuf. subst. reflexivity.
    + change (0 <? length (c :: pre)) with true. cbv iota. rewrite skipn_all. reflexivity.
  - change (forallb well_formed_event (e :: rest))
      with (well_formed_event e && forallb well_formed_event rest) in Hwf.
    apply andb_true_iff in Hwf. destruct Hwf as [He Hrest].
    change (frames (e :: rest)) with (dumps (event_dict e) ++ 10%N :: frames rest) in Hbuf.
    rewrite Hbuf.
    assert (Hlt : (length pre <? length (pre ++ dumps (event_dict e) ++ 10%N :: frames rest)) = true).
    { apply Nat.ltb_lt. rewrite !length_app. simpl. lia. }
    rewrite Hlt, skipn_past.
    rewrite raw_decode_dumps
      by (first [apply event_dict_distinct | apply event_dict_well_formed; exact He]).
    replace (length (dumps (event_dict e) ++ 10%N :: frames rest) -
             length (10%N :: frames rest)) with (length (dumps (event_dict e)))
      by (rewrite length_app; lia).
    replace (length pre + length (dumps (event_dict e)))
      with (length (pre ++ dumps (event_dict e))) by (apply length_app).
    rewrite app_assoc, skipn_past.
    change (leading_spaces (10%N :: frames rest)) with (S (leading_spaces (frames rest))).
    rewrite frames_no_leading_space.
    replace (length (pre ++ dumps (event_dict e)) + 1)
      with (length ((pre ++ dumps (event_dict e)) ++ [10%N]))
      by (rewrite (length_app _ [10%N]); reflexivity).
    rewrite (IH fuel ((pre ++ dumps (event_dict e)) ++ [10%N]) (handle_message (event_dict e) self)).
    + reflexivity.
    + rewrite handle_message_buffer, Hbuf, <- !app_assoc. reflexivity.
    + simpl in Hfuel. lia.
    + exact Hrest.
Qed.

(** *** The decoder moves forward *)

Lemma push_some c r str rest :
  push c r = Some (str, rest) -> exists str', r = Some (str', rest).
Proof.
  destruct r as [[s' r']|]; simpl; [|discriminate].
  intros H. injection H as _ <-. eexists. reflexivity.
Qed.

(** A string that is scanned ends before the end of the text. *)
Lemma scanstring_shorter n :
  forall s str rest,
    length s <= n -> scanstring s = Some (str, rest) -> length rest < length s.
Proof.
  induction n as [|n IH]; intros s str rest Hn H.
  - destruct s; [discriminate|simpl in Hn; lia].
  - destruct s as [|c s1]; [discriminate|]. simpl in Hn.
    assert (Hpush : forall ch tail,
              length tail <= n ->
              push ch (scanstring tail) = Some (str, rest) -> length rest < length tail).
    { intros ch tail Ht Hp. apply push_some in Hp. destruct Hp as [str' Hp].
      apply (IH _ _ _ Ht Hp). }
    simpl scanstring in H.
    destruct (c =? 34)%N; [injection H as _ <-; simpl; lia|].
    destruct (c =? 92)%N.
    + destruct s1 as [|esc s2]; [discriminate|].
      destruct (esc =? 117)%N.
      * destruct s2 as [|h1 [|h2 [|h3 [|h4 rest2]]]]; try discriminate.
        destruct (decode_uXXXX h1 h2 h3 h4) as [uni|]; [|discriminate].
        assert (Hplain : push uni (scanstring rest2) = Some (str, rest) ->
                         length rest < length (c :: esc :: h1 :: h2 :: h3 :: h4 :: rest2)).
        { intros Hp. apply Hpush in Hp; simpl in *; lia. }
        destruct (is_high_surrogate uni); [|exact (Hplain H)].
        destruct rest2 as [|b [|u rest3]]; try exact (Hplain H).
        destruct ((b =? 92)%N && (u =? 117)%N); [|exact (Hplain H)].
        destruct rest3 as [|k1 [|k2 [|k3 [|k4 rest4]]]]; try discriminate.
        destruct (decode_uXXXX k1 k2 k3 k4) as [uni2|]; [|discriminate].
        destruct (is_low_surrogate uni2); [|exact (Hplain H)].
        apply Hpush in H; simpl in *; lia.
      * destruct (backslash esc) as [ch|]; [|discriminate].
        apply Hpush in H; simpl in *; lia.
    + destruct (c <? 32)%N; [discriminate|].
      apply Hpush in H; simpl in *; lia.
Qed.

Lemma skip_ws_length s : length (skip_ws s) <= length s.
Proof.
  induction s as [|c s IH]; simpl; [lia|].
  destruct (is_ws c); simpl; lia.
Qed.

Lemma scan_member_value_shorter s v rest :
  scan_member_value s = Decoded v rest -> length rest < length s.
Proof.
  destruct s as [|c s1]; simpl; [discriminate|].
  destruct (c =? 34)%N.
  - destruct (scanstring s1) as [[str tl]|] eqn:E; [|discriminate].
    intros H. injection H as _ <-.
    pose proof (@scanstring_shorter (length s1) s1 str tl (le_n _) E). lia.
  - destruct (starts_other_value c); discriminate.
Qed.

(** More fuel than the text is long is as good as any larger amount. *)
Lemma object_members_fuel fuel1 :
  forall fuel2 s pairs,
    length s < fuel1 -> length s < fuel2 ->
    object_members fuel1 s pairs = object_members fuel2 s pairs.
Proof.
  induction fuel1 as [|f1 IH]; intros fuel2 s pairs H1 H2; [lia|].
  destruct fuel2 as [|f2]; [lia|]. simpl.
  destruct (scanstring s) as [[key s1]|] eqn:Ekey; [|reflexivity].
  pose proof (@scanstring_shorter (length s) s key s1 (le_n _) Ekey) as L1.
  pose proof (skip_ws_length s1) as L2.
  destruct (skip_ws s1) as [|colon s2]; [reflexivity|]. simpl in L2.
  destruct (colon =? 58)%N; [|reflexivity].
  pose proof (skip_ws_length s2) as L3.
  destruct (scan_member_value (skip_ws s2)) as [[v|d] s3| |] eqn:Eval; try reflexivity.
  apply scan_member_value_shorter in Eval.
  pose proof (skip_ws_length s3) as L4.
  destruct (skip_ws s3) as [|nextchar s4]; [reflexivity|]. simpl in L4.
  destruct (nextchar =? 125)%N; [reflexivity|].
  destruct (nextchar =? 44)%N; [|reflexivity].
  pose proof (skip_ws_length s4) as L5.
  destruct (skip_ws s4) as [|quote s5]; [reflexivity|]. simpl in L5.
  destruct (quote =? 34)%N; [|reflexivity].
  apply IH; lia.
Qed.

Lemma object_members_shorter fuel :
  forall s pairs v rest,
    object_members fuel s pairs = Decoded v rest -> length rest < length s.
Proof.
  induction fuel as [|f IH]; intros s pairs v rest; simpl; [discriminate|].
  destruct (scanstring s) as [[key s1]|] eqn:Ekey; [|discriminate].
  pose proof (@scanstring_shorter (length s) s key s1 (le_n _) Ekey) as L1.
  pose proof (skip_ws_length s1) as L2.
  destruct (skip_ws s1) as [|colon s2]; [discriminate|]. simpl in L2.
  destruct (colon =? 58)%N; [|discriminate].
  pose proof (skip_ws_length s2) as L3.
  destruct (scan_member_value (skip_ws s2)) as [[v0|d] s3| |] eqn:Eval; try discriminate.
  apply scan_member_value_shorter in Eval.
  pose proof (skip_ws_length s3) as L4.
  destruct (skip_ws s3) as [|nextchar s4]; [discriminate|]. simpl in L4.
  destruct (nextchar =? 125)%N; [intros H; injection H as _ <-; lia|].
  destruct (nextchar =? 44)%N; [|discriminate].
  pose proof (skip_ws_length s4) as L5.
  destruct (skip_ws s4) as [|quote s5]; [discriminate|]. simpl in L5.
  destruct (quote =? 34)%N; [|discriminate].
  intros H. apply IH in H. lia.
Qed.

(** A decoded value takes up at least one character. *)
Lemma raw_decode_shorter s v rest :
  raw_decode s = Decoded v rest -> length rest < length s.
Proof.
  destruct s as [|c s1]; simpl; [discriminate|].
  destruct (c =? 34)%N.
  - destruct (scanstring s1) as [[str tl]|] eqn:E; [|discriminate].
    intros H. injection H as _ <-.
    pose proof (@scanstring_shorter (length s1) s1 str tl (le_n _) E). lia.
  - destruct (c =? 123)%N.
    + unfold JSONObject. pose proof (skip_ws_length s1) as L.
      destruct (skip_ws s1) as [|c2 s2]; [discriminate|]. simpl in L.
      destruct (c2 =? 125)%N; [intros H; injection H as _ <-; lia|].
      destruct (c2 =? 34)%N; [|discriminate].
      intros H. apply object_members_shorter in H. lia.
    + destruct (starts_other_value c); discriminate.
Qed.

(** *** The loop has fuel enough *)

Lemma find_brace_from buffer start k : find_brace buffer start = Some k -> start <= k.
Proof.
  unfold find_brace. destruct (index_of_brace _) as [j|]; [|discriminate].
  intros H. injection H as <-. lia.
Qed.

(** More fuel than there are turns left is as good as any larger amount:
    the loop never stops for lack of fuel. *)
Lemma process_loop_fuel fuel1 :
  forall fuel2 start_pos self,
    turns_left start_pos self < fuel1 -> turns_left start_pos self < fuel2 ->
    process_loop fuel1 start_pos self = process_loop fuel2 start_pos self.
Proof.
  induction fuel1 as [|f1 IH]; intros fuel2 start_pos self H1 H2; [lia|].
  destruct fuel2 as [|f2]; [lia|]. rewrite !process_loop_turn.
  destruct (start_pos <? length (buffer self)) eqn:Hlt; [|reflexivity].
  apply Nat.ltb_lt in Hlt. unfold turns_left in H1, H2.
  destruct (raw_decode (skipn start_pos (buffer self))) as [[str|obj] rest| |] eqn:Hdec;
    try reflexivity.
  - apply raw_decode_shorter in Hdec. rewrite length_skipn in Hdec |- *.
    apply IH; unfold turns_left; rewrite handle_message_buffer; lia.
  - destruct (1000 <? length (buffer self) - start_pos) eqn:Hbig.
    + apply Nat.ltb_lt in Hbig.
      assert (Hlen : (1000 <? length (buffer self)) = true) by (apply Nat.ltb_lt; lia).
      rewrite Hlen in H1, H2.
      apply IH; unfold turns_left; simpl buffer; rewrite length_skipn;
        replace (length (buffer self) - (length (buffer self) - 500)) with 500 by lia;
        simpl; lia.
    + destruct (find_brace (buffer self) (start_pos + 1)) as [k|] eqn:Hfind; [|reflexivity].
      apply find_brace_from in Hfind.
      apply IH; unfold turns_left; lia.
Qed.

(** [process_buffer] gives its loop enough fuel. *)
Lemma process_buffer_fuel self fuel :
  2 * length (buffer self) + 2 <= fuel ->
  process_loop fuel 0 self = process_buffer self.
Proof.
  intros H. unfold process_buffer.
  assert (T : turns_left 0 self < 2 * length (buffer self) + 2).
  { unfold turns_left. destruct (1000 <? length (buffer self)) eqn:E; [|lia].
    apply Nat.ltb_lt in E. lia. }
  apply process_loop_fuel; lia.
Qed.

(** *** Whole frames *)

(** C5: the events the server sends one after the other, each as the JSON
    text of its dict followed by a line break, are handed to
    [handle_message] by the client, once their bytes are in its buffer, as
    the same dicts in the same order, and the buffer is left empty.  The
    list may hold one event, two events written back to back, or more; the
    strings of the events are Unicode text. *)
Theorem events_round_trip :
  forall (events : list Server3.Event) (self : SocketManager),
    buffer self = [] ->
    forallb well_formed_event events = true ->
    exists data self',
      send_all events = Some data
      /\ receive data self = Processed self'
      /\ buffer self' = []
      /\ handled self' = handled self ++ map event_dict events
      /\ self' = set_buffer [] (handle_all events self).
Proof.
  intros events self Hbuf Hwf.
  exists (frames events), (set_buffer [] (handle_all events self)).
  split; [apply send_all_frames|]. split; [|split; [reflexivity|split; [|reflexivity]]].
  - unfold receive, decode_utf8. rewrite frames_ascii.
    unfold process_buffer. rewrite Hbuf. simpl app.
    change (buffer (set_buffer (frames events) self)) with (frames events).
    rewrite (@process_loop_frames events _ [] (set_buffer (frames events) self)).
    + f_equal. unfold handle_all.
      assert (G : forall es s b, set_buffer [] (fold_left (fun s0 e => handle_message (event_dict e) s0) es (set_buffer b s)) =
                                 set_buffer [] (fold_left (fun s0 e => handle_message (event_dict e) s0) es s)).
      { induction es as [|e es IHes]; intros s b; simpl; [reflexivity|].
        change (handle_message (event_dict e) (set_buffer b s))
          with (set_buffer b (handle_message (event_dict e) s)).
        apply IHes. }
      apply G.
    + reflexivity.
    + assert (L : length events <= length (frames events)).
      { clear. induction events as [|e es IH]; simpl; [lia|].
        rewrite length_app. simpl. lia. }
      lia.
    + exact Hwf.
  - simpl. apply handle_all_handled.
Qed.

Lemma events_round_trip_witness :
  forallb well_formed_event [demo_event_1; demo_event_2] = true
  /\ exists data self',
       send_all [demo_event_1; demo_event_2] = Some data
       /\ receive data fresh = Processed self'
       /\ buffer self' = []
       /\ handled self' = [event_dict demo_event_1; event_dict demo_event_2].
Proof.
  split; [reflexivity|].
  destruct (@events_round_trip [demo_event_1; demo_event_2] fresh eq_refl eq_refl)
    as (data & self' & H1 & H2 & H3 & H4 & _).
  exists data, self'. auto.
Defined.

(** Why the strings must be Unicode text: a high surrogate followed by a
    low one is written as two escapes and read back as one character. *)
Example surrogates_are_joined :
  raw_decode (dumps [(lit "message", [55357; 56832]%N)]) =
  Decoded (VObject [(lit "message", [128512%N])]) [].
Proof. reflexivity. Qed.

(** The limit of the round trip: it is about whole frames in the buffer.
    When a read ends inside a frame, after a brace of the message, the
    loop moves [start_pos] to that brace and the start of the frame is
    dropped; the event is never handled. *)
Example frame_cut_after_a_brace :
  let frame := dumps (event_dict demo_event_3) ++ [10%N] in
  exists s1 s2,
    receive (firstn 40 frame) fresh = Processed s1
    /\ buffer s1 = lit "{'center_f"
    /\ receive (skipn 40 frame) s1 = Processed s2
    /\ handled s2 = [].
Proof. do 2 eexists. repeat split; vm_compute; reflexivity. Qed.

End ChannelFacts.

(** ** The sessions *)

Module SessionFacts.
Import Server3 Session Server3Facts.

Lemma text_eqb_refl a : text_eqb a a = true.
Proof. apply text_eqb_eq. reflexivity. Qed.

Lemma text_eqb_neq a b : a <> b -> text_eqb a b = false.
Proof.
  intros H. destruct (text_eqb a b) eqn:E; [|reflexivity].
  apply text_eqb_eq in E. contradiction.
Qed.

(** What [handle_start_command] does on each of its paths. *)
Lemma handle_start_command_cases sender cfg s :
  let s' := handle_start_command sender cfg s in
  (exists e, s' = send_to_client sender e s)
  \/ (exists e1 e2,
        s' = send_to_client sender e2
               (set_current_test None (set_test_running false
                  (broadcast_to_all_clients e1
                     (set_current_test cfg (set_test_running true s))))))
  \/ (exists e1 m c,
        cfg = Some c
        /\ s' = start_thread m c
                  (broadcast_to_all_clients e1
                     (set_current_test cfg (set_test_running true s)))).
Proof.
  unfold handle_start_command.
  destruct (test_running s); [left; eexists; reflexivity|].
  destruct cfg as [t|]; [|left; eexists; reflexivity].
  unfold missing_fields.
  destruct (serial_number t) as [sn|] eqn:Hsn; [|left; eexists; reflexivity].
  destruct (missing_fields t) eqn:Hm; unfold missing_fields in Hm; rewrite Hsn in Hm;
    rewrite Hm; [|left; eexists; reflexivity].
  destruct (loadlist t) as [[[|x l]|]|]; try (left; eexists; reflexivity).
  unfold start_test. rewrite Hsn.
  destruct (model t) as [[|c0 m]|].
  - right; left. do 2 eexists. reflexivity.
  - right; right. do 3 eexists. split; reflexivity.
  - right; left. do 2 eexists. reflexivity.
Qed.

(** A required key is named as missing exactly when it is absent. *)
Lemma missing_fields_spec c :
  (In (lit "serial_number") (missing_fields c) <-> serial_number c = None)
  /\ (In (lit "model") (missing_fields c) <-> model c = None)
  /\ (In (lit "stage") (missing_fields c) <-> stage c = None)
  /\ (In (lit "loadlist") (missing_fields c) <-> loadlist c = None).
Proof.
  unfold missing_fields.
  destruct (serial_number c), (model c), (stage c), (loadlist c); simpl;
    repeat split; intros H; try reflexivity; try discriminate;
    repeat (destruct H as [H|H]; try discriminate); auto; contradiction.
Qed.

(** X1: while no test is running, a start command without a
    configuration, with a required key absent or with a loadlist that is
    not a non-empty list is answered by exactly one frame, to the sender,
    with status "error"; the run state, the registry and the worker
    threads are what they were.  The message says which of the three
    checks failed; for absent keys it is "Missing required fields: "
    followed by their names, separated by ", ", and a required key counts
    as missing exactly when it is absent. *)
Theorem invalid_start_rejected :
  forall (sender : client_id) (cfg : option test_config) (s : TestServer),
    test_running s = false ->
    match cfg with Some c => valid_config c = false | None => True end ->
    let s' := handle_start_command sender cfg s in
    exists m,
      s' = send_to_client sender {| message := m; status := lit "error" |} s
      /\ sockets s' = sockets s ++ [(sender, {| message := m; status := lit "error" |})]
      /\ test_running s' = false /\ current_test s' = current_test s
      /\ threads s' = threads s /\ clients s' = clients s
      /\ match cfg with
         | None => m = lit "No test configuration provided"
         | Some c =>
             match missing_fields c with
             | [] => m = lit "The 'loadlist' must be a non-empty list."
             | f :: fs =>
                 m = lit "Missing required fields: " ++ join (lit ", ") (f :: fs)
             end
         end
      /\ (forall c, cfg = Some c ->
            (In (lit "serial_number") (missing_fields c) <-> serial_number c = None)
            /\ (In (lit "model") (missing_fields c) <-> model c = None)
            /\ (In (lit "stage") (missing_fields c) <-> stage c = None)
            /\ (In (lit "loadlist") (missing_fields c) <-> loadlist c = None)).
Proof.
  intros sender cfg s Hr Hv s'. subst s'.
  assert (Hspec : forall c, cfg = Some c ->
            (In (lit "serial_number") (missing_fields c) <-> serial_number c = None)
            /\ (In (lit "model") (missing_fields c) <-> model c = None)
            /\ (In (lit "stage") (missing_fields c) <-> stage c = None)
            /\ (In (lit "loadlist") (missing_fields c) <-> loadlist c = None)).
  { intros c _. apply missing_fields_spec. }
  unfold handle_start_command. rewrite Hr.
  destruct cfg as [c|].
  - destruct (missing_fields c) as [|f fs] eqn:Hm.
    + assert (Hl : match loadlist c with Some (LoadList (_ :: _)) => False | _ => True end).
      { unfold valid_config in Hv. unfold missing_fields in Hm.
        destruct (serial_number c); [|discriminate].
        destruct (model c); [|discriminate].
        destruct (stage c); [|discriminate].
        destruct (loadlist c) as [[[|x l]|]|]; simpl in *; auto; discriminate. }
      destruct (loadlist c) as [[[|x l]|]|]; try contradiction;
        (eexists; split; [reflexivity|]; split; [reflexivity|]; split; [exact Hr|];
         split; [reflexivity|]; split; [reflexivity|]; split; [reflexivity|];
         split; [reflexivity|exact Hspec]).
    + eexists; split; [reflexivity|]; split; [reflexivity|]; split; [exact Hr|];
        split; [reflexivity|]; split; [reflexivity|]; split; [reflexivity|];
        split; [reflexivity|exact Hspec].
  - eexists; split; [reflexivity|]; split; [reflexivity|]; split; [exact Hr|];
      split; [reflexivity|]; split; [reflexivity|]; split; [reflexivity|];
      split; [reflexivity|exact Hspec].
Qed.

Lemma invalid_start_rejected_witness :
  let cfg := {| serial_number := Some (lit "SN1"); model := None; stage := None;
                loadlist := Some (LoadList []) |} in
  test_running idle_server = false
  /\ valid_config cfg = false
  /\ exists m,
       sockets (handle_start_command (lit "10.0.0.2:4000") (Some cfg) idle_server) =
       sockets idle_server ++
       [(lit "10.0.0.2:4000", {| message := m; status := lit "error" |})].
Proof.
  intros cfg. split; [reflexivity|]. split; [reflexivity|].
  destruct (invalid_start_rejected (lit "10.0.0.2:4000") (Some cfg) idle_server
              eq_refl eq_refl) as (m & _ & H & _).
  exists m. exact H.
Defined.

(** X2: a valid start command that arrives while no test is running
    announces the test to every registered client, in registry order, with
    one frame "Starting test for SN: <serial number>" of status "running"
    each, and to nobody else; it raises the flag, records the
    configuration and starts one worker for the model named. *)
Theorem start_announced_to_every_client :
  forall (sender : client_id) (cfg : test_config) (s : TestServer)
         (sn model_name : text),
    test_running s = false ->
    valid_config cfg = true ->
    serial_number cfg = Some sn ->
    model cfg = Some model_name ->
    model_name <> [] ->
    let s' := handle_start_command sender (Some cfg) s in
    sockets s' =
      sockets s ++
      map (fun c => (c, {| message := lit "Starting test for SN: " ++ sn;
                           status := lit "running" |})) (clients s)
    /\ threads s' = threads s ++ [(model_name, cfg)]
    /\ test_running s' = true
    /\ current_test s' = Some cfg
    /\ clients s' = clients s.
Proof.
  intros sender cfg s sn model_name Hr Hv Hsn Hmodel Hne s'. subst s'.
  unfold handle_start_command. rewrite Hr.
  unfold valid_config in Hv. rewrite Hsn, Hmodel in Hv. simpl in Hv.
  unfold missing_fields. rewrite Hsn, Hmodel.
  destruct (stage cfg); [|discriminate].
  destruct (loadlist cfg) as [[[|x l]|]|]; try discriminate. simpl.
  unfold start_test. rewrite Hsn, Hmodel, broadcast_unfold.
  destruct model_name as [|c m]; [contradiction|]. simpl. auto.
Qed.

Lemma start_announced_to_every_client_witness :
  sockets (handle_start_command (lit "10.0.0.2:4000") (Some demo_config) idle_server) =
  [(lit "10.0.0.1:4000", {| message := lit "Starting test for SN: SN1";
                            status := lit "running" |});
   (lit "10.0.0.2:4000", {| message := lit "Starting test for SN: SN1";
                            status := lit "running" |})].
Proof.
  assert (Hne : lit "ModelC" <> []) by discriminate.
  exact (proj1 (@start_announced_to_every_client (lit "10.0.0.2:4000") demo_config
                  idle_server (lit "SN1") (lit "ModelC")
                  eq_refl eq_refl eq_refl eq_refl Hne)).
Defined.

(** X3: a start command whose configuration passes the checks but names
    the empty model is announced like any other: every registered client
    gets the frame "Starting test for SN: ..." with status "running".
    Then the start fails: the sender alone gets "Failed to start test: No
    model specified in test configuration" with status "error", no worker
    is started and the run state is Idle again. *)
Theorem start_with_empty_model_name :
  forall (sender : client_id) (cfg : test_config) (s : TestServer) (sn : text),
    test_running s = false ->
    valid_config cfg = true ->
    serial_number cfg = Some sn ->
    model cfg = Some [] ->
    let s' := handle_start_command sender (Some cfg) s in
    sockets s' =
      sockets s ++
      map (fun c => (c, {| message := lit "Starting test for SN: " ++ sn;
                           status := lit "running" |})) (clients s) ++
      [(sender, {| message := lit "Failed to start test: No model specified in test configuration";
                   status := lit "error" |})]
    /\ threads s' = threads s
    /\ test_running s' = false
    /\ current_test s' = None
    /\ clients s' = clients s.
Proof.
  intros sender cfg s sn Hr Hv Hsn Hmodel s'. subst s'.
  unfold handle_start_command. rewrite Hr.
  unfold valid_config in Hv. rewrite Hsn, Hmodel in Hv. simpl in Hv.
  unfold missing_fields. rewrite Hsn, Hmodel.
  destruct (stage cfg); [|discriminate].
  destruct (loadlist cfg) as [[[|x l]|]|]; try discriminate. simpl.
  unfold start_test. rewrite Hsn, Hmodel, broadcast_unfold. simpl.
  rewrite <- app_assoc. auto.
Qed.

Lemma start_with_empty_model_name_witness :
  let cfg := {| serial_number := Some (lit "SN1"); model := Some [];
                stage := Some (lit "S1"); loadlist := Some (LoadList [item_25C]) |} in
  let s' := handle_start_command (lit "10.0.0.2:4000") (Some cfg) idle_server in
  test_running s' = false /\ threads s' = [] /\ length (sockets s') = 3.
Proof.
  intros cfg s'.
  destruct (@start_with_empty_model_name (lit "10.0.0.2:4000") cfg idle_server (lit "SN1")
              eq_refl eq_refl eq_refl eq_refl) as (H1 & H2 & H3 & _).
  split; [exact H3|]. split; [exact H2|].
  fold s' in H1. rewrite H1. reflexivity.
Defined.

(** The frames an action adds to the socket log go to clients that are
    registered, to the sender of the command or to the client accepted. *)
Lemma perform_writes a s :
  exists added,
    sockets (perform a s) = sockets s ++ added
    /\ forall f, In f added -> In (fst f) (clients s) \/ concerns (fst f) a = true.
Proof.
  assert (Hb : forall (e : Event) t f,
             In f (map (fun c => (c, e)) (clients t)) -> In (fst f) (clients t)).
  { intros e t f Hf. apply in_map_iff in Hf. destruct Hf as (c & <- & Hc). exact Hc. }
  assert (Hone : forall (c : client_id) (e : Event) f,
             In f [(c, e)] -> text_eqb c (fst f) = true).
  { intros c e f [<-|[]]. apply text_eqb_refl. }
  destruct a as [m st|c cfg|c|c|c|c]; simpl.
  - unfold status_callback. destruct (test_running s).
    + rewrite broadcast_unfold. simpl. eexists. split; [reflexivity|].
      intros f Hf. left. eapply Hb, Hf.
    + exists []. rewrite app_nil_r. split; [reflexivity|]. intros f [].
  - destruct (handle_start_command_cases c cfg s) as [[e ->]|[(e1 & e2 & ->)|(e1 & m & t & -> & ->)]].
    + simpl. eexists. split; [reflexivity|]. intros f Hf. right. eapply Hone, Hf.
    + rewrite broadcast_unfold. simpl. rewrite <- app_assoc. eexists. split; [reflexivity|].
      intros f Hf. apply in_app_or in Hf. destruct Hf as [Hf|Hf].
      * left. apply (Hb e1 s f Hf).
      * right. eapply Hone, Hf.
    + rewrite broadcast_unfold. simpl. eexists. split; [reflexivity|].
      intros f Hf. left. apply (Hb e1 s f Hf).
  - unfold handle_stop_command. destruct (test_running s); simpl.
    + unfold stop_test. rewrite broadcast_unfold. simpl. eexists. split; [reflexivity|].
      intros f Hf. left. eapply (Hb _ s f), Hf.
    + eexists. split; [reflexivity|]. intros f Hf. right. eapply Hone, Hf.
  - eexists. split; [reflexivity|]. intros f Hf. right. eapply Hone, Hf.
  - eexists. split; [reflexivity|]. intros f Hf. right. eapply Hone, Hf.
  - exists []. rewrite app_nil_r. split; [reflexivity|]. intros f [].
Qed.

(** Only the acceptance of a client adds it to the registry. *)
Lemma perform_clients a s c :
  In c (clients (perform a s)) -> In c (clients s) \/ a = Accept c.
Proof.
  destruct a as [m st|c' cfg|c'|c'|c'|c']; simpl.
  - unfold status_callback. destruct (test_running s); [rewrite broadcast_unfold|]; auto.
  - destruct (handle_start_command_cases c' cfg s) as [[e ->]|[(e1 & e2 & ->)|(e1 & m & t & -> & ->)]];
      try rewrite broadcast_unfold; simpl; auto.
  - unfold handle_stop_command. destruct (test_running s); simpl; auto.
    unfold stop_test. rewrite broadcast_unfold. simpl. auto.
  - auto.
  - destruct (existsb (text_eqb c') (clients s)); [auto|].
    intros H. apply in_app_or in H. destruct H as [H|[<-|[]]]; auto.
  - intros H. apply filter_In in H. left. apply H.
Qed.

Lemma frames_to_app c l1 l2 : frames_to c (l1 ++ l2) = frames_to c l1 ++ frames_to c l2.
Proof. apply filter_app. Qed.

Lemma frames_to_none c l :
  (forall f, In f l -> fst f <> c) -> frames_to c l = [].
Proof.
  induction l as [|f l IH]; intros H; simpl; [reflexivity|].
  rewrite text_eqb_neq by (apply H; left; reflexivity).
  apply IH. intros g Hg. apply H. right. exact Hg.
Qed.

(** X5: no frame is ever written to a socket that is neither registered
    nor the requester's: the frames a session command or a plugin report
    adds to the log go to clients registered at that moment, to the sender
    of the command, or to the client just accepted; and what was written
    before stays in the log. *)
Theorem frames_go_to_clients_or_sender :
  forall (a : Action) (s : TestServer),
    exists added,
      sockets (perform a s) = sockets s ++ added
      /\ (forall c e, In (c, e) added -> In c (clients s) \/ concerns c a = true)
      /\ (forall c, In c (clients (perform a s)) -> In c (clients s) \/ a = Accept c).
Proof.
  intros a s. destruct (perform_writes a s) as (added & H1 & H2).
  exists added. split; [exact H1|]. split.
  - intros c e Hin. exact (H2 (c, e) Hin).
  - intros c. apply perform_clients.
Qed.

(** X6: once a client is disconnected it gets nothing more: as long as it
    is not accepted again and sends no command, whatever the other
    sessions and the plugin do, no frame is written to its socket and it
    stays out of the registry. *)
Theorem disconnected_client_gets_nothing :
  forall (c : client_id) (l : list Action) (s : TestServer),
    forallb (fun a => negb (concerns c a)) l = true ->
    let s' := perform_all l (disconnect_client c s) in
    frames_to c (sockets s') = frames_to c (sockets s)
    /\ ~ In c (clients s').
Proof.
  intros c l s Hl s'. subst s'.
  assert (G : forall t, ~ In c (clients t) ->
            frames_to c (sockets (perform_all l t)) = frames_to c (sockets t)
            /\ ~ In c (clients (perform_all l t))).
  { unfold perform_all. induction l as [|a l IH]; intros t Ht; simpl; [auto|].
    simpl in Hl. apply andb_true_iff in Hl. destruct Hl as [Ha Hl].
    apply negb_true_iff in Ha.
    destruct (perform_writes a t) as (added & H1 & H2).
    assert (Ht' : ~ In c (clients (perform a t))).
    { intros Hin. apply perform_clients in Hin. destruct Hin as [Hin| ->]; [auto|].
      simpl in Ha. rewrite text_eqb_refl in Ha. discriminate. }
    destruct (IH Hl (perform a t) Ht') as [E1 E2]. split; [|exact E2].
    rewrite E1, H1, frames_to_app, (@frames_to_none c added), app_nil_r; [reflexivity|].
    intros f Hf E. destruct (H2 f Hf) as [Hin|Hc].
    - rewrite E in Hin. auto.
    - rewrite E, Ha in Hc. discriminate. }
  destruct (G (disconnect_client c s)) as [E1 E2].
  { unfold disconnect_client. simpl. intros Hin. apply filter_In in Hin.
    destruct Hin as [_ Hin]. rewrite text_eqb_refl in Hin. discriminate. }
  split; [exact E1|exact E2].
Qed.

Lemma disconnected_client_gets_nothing_witness :
  let c := lit "10.0.0.2:4000" in
  let l := [StartCmd (lit "10.0.0.1:4000") (Some demo_config);
            Report (lit "[ModelC] Test runner initialized.") (lit "running");
            StopCmd (lit "10.0.0.1:4000")] in
  frames_to c (sockets (perform_all l (disconnect_client c idle_server))) = []
  /\ length (sockets (perform_all l (disconnect_client c idle_server))) = 3.
Proof.
  intros c l. split; [|reflexivity].
  exact (proj1 (@disconnected_client_gets_nothing c l idle_server eq_refl)).
Defined.

End SessionFacts.

(** ** The session loop *)

Module LoopFacts.
Import Server3 Session.

Lemma split_newline_length b : forall line rest,
  split_newline b = Some (line, rest) -> length b = S (length line + length rest).
Proof.
  induction b as [|c b IH]; intros line rest; simpl; [discriminate|].
  destruct (c =? 10)%N.
  - intros H. injection H as <- <-. reflexivity.
  - destruct (split_newline b) as [[l r]|]; [|discriminate].
    intros H. injection H as <- <-. simpl. rewrite (IH l r eq_refl). reflexivity.
Qed.

Lemma split_newline_app b y : forall line rest,
  split_newline b = Some (line, rest) -> split_newline (b ++ y) = Some (line, rest ++ y).
Proof.
  induction b as [|c b IH]; intros line rest; simpl; [discriminate|].
  destruct (c =? 10)%N.
  - intros H. injection H as <- <-. reflexivity.
  - destruct (split_newline b) as [[l r]|]; [|discriminate].
    intros H. injection H as <- <-. rewrite (IH l r eq_refl). reflexivity.
Qed.

(** A line without a line break, followed by one, is the first line. *)
Lemma split_newline_line line rest :
  ~ In 10%N line -> split_newline (line ++ 10%N :: rest) = Some (line, rest).
Proof.
  induction line as [|c line IH]; intros H; simpl; [reflexivity|].
  destruct (c =? 10)%N eqn:E.
  - apply N.eqb_eq in E. exfalso. apply H. left. exact E.
  - rewrite IH; [reflexivity|]. intros Hin. apply H. right. exact Hin.
Qed.

Lemma lines_loop_turn ul loads fuel sender b s :
  lines_loop ul loads (S fuel) sender b s =
  match split_newline b with
  | None => Continue b s
  | Some (message_str, rest) =>
      match strip message_str with
      | [] => lines_loop ul loads fuel sender rest s
      | (_ :: _) as stripped =>
          match loads stripped with
          | Parsed message =>
              match process_client_message ul sender message s with
              | Return s' => lines_loop ul loads fuel sender rest s'
              | Raise e => Raised e s
              end
          | JSONDecodeError e =>
              lines_loop ul loads fuel sender rest
                (send_to_client sender
                   {| message := lit "Invalid JSON format: " ++ e;
                      status := lit "error" |} s)
          | NotCovered => OutOfModel
          end
      end
  end.
Proof. reflexivity. Qed.

(** More fuel than the buffer is long is as good as any larger amount:
    the loop never stops for lack of fuel. *)
Lemma lines_loop_fuel ul loads sender fuel1 :
  forall fuel2 b s,
    length b < fuel1 -> length b < fuel2 ->
    lines_loop ul loads fuel1 sender b s = lines_loop ul loads fuel2 sender b s.
Proof.
  induction fuel1 as [|f1 IH]; intros fuel2 b s H1 H2; [lia|].
  destruct fuel2 as [|f2]; [lia|]. rewrite !lines_loop_turn.
  destruct (split_newline b) as [[line rest]|] eqn:E; [|reflexivity].
  apply split_newline_length in E.
  destruct (strip line) as [|c t]; [apply IH; lia|].
  destruct (loads (c :: t)) as [m|e|]; [|apply IH; lia|reflexivity].
  destruct (process_client_message ul sender m s); [apply IH; lia|reflexivity].
Qed.

(** What is appended to the buffer is seen by the loop after the lines the
    buffer held. *)
Lemma lines_loop_app ul loads sender y fuel2 :
  forall fuel1 b s,
    length (b ++ y) < fuel1 -> length b < fuel2 ->
    lines_loop ul loads fuel1 sender (b ++ y) s =
    match lines_loop ul loads fuel2 sender b s with
    | Continue b' s' => feed ul loads sender y b' s'
    | Raised e s' => Raised e s'
    | OutOfModel => OutOfModel
    end.
Proof.
  induction fuel2 as [|f2 IH]; intros fuel1 b s H1 H2; [lia|].
  rewrite (lines_loop_turn ul loads f2).
  destruct (split_newline b) as [[line rest]|] eqn:E.
  - destruct fuel1 as [|f1]; [lia|]. rewrite lines_loop_turn.
    rewrite (split_newline_app b y E).
    apply split_newline_length in E. rewrite length_app in H1.
    assert (L : length (rest ++ y) < f1) by (rewrite length_app; lia).
    destruct (strip line) as [|c t]; [apply IH; [exact L|lia]|].
    destruct (loads (c :: t)) as [m|e|]; [|apply IH; [exact L|lia]|reflexivity].
    destruct (process_client_message ul sender m s); [apply IH; [exact L|lia]|reflexivity].
  - unfold feed. apply lines_loop_fuel; [exact H1|lia].
Qed.

Lemma feed_app ul loads sender x y b s :
  feed ul loads sender (x ++ y) b s =
  match feed ul loads sender x b s with
  | Continue b' s' => feed ul loads sender y b' s'
  | Raised e s' => Raised e s'
  | OutOfModel => OutOfModel
  end.
Proof.
  unfold feed at 1 2. rewrite app_assoc.
  apply lines_loop_app; [|lia].
  rewrite <- app_assoc. lia.
Qed.

Lemma recv_step_data ul loads sender d b s :
  d <> [] -> forallb Json.is_ascii d = true ->
  recv_step ul loads sender d b s =
  match feed ul loads sender d b s with
  | Continue b' s' => Open b' s'
  | Raised _ s' => Closed (disconnect_client sender s')
  | OutOfModel => Unknown
  end.
Proof.
  intros Hne Ha. unfold recv_step, decode. rewrite Ha.
  destruct d; [contradiction|reflexivity].
Qed.

Lemma handle_chunks_ended ul loads sender chunks st :
  (forall b s, st <> Open b s) -> handle_chunks ul loads sender chunks st = st.
Proof.
  intros H. destruct chunks as [|d rest]; [reflexivity|].
  destruct st as [b s| |]; [exfalso; apply (H b s); reflexivity| |]; reflexivity.
Qed.

(** X7: how [recv] cuts the stream into chunks does not matter to a
    session: for ASCII data, serving the chunks one after the other does
    what serving their concatenation in one piece does, to the server and
    to the session's buffer, whether the session goes on or ends. *)
Theorem framing_ignores_chunk_boundaries :
  forall (unicode_lower : text -> text) (loads : text -> parsed) (sender : client_id)
         (ds : list (list N)) (d : list N) (buffer : text) (s : TestServer),
    Forall (fun x => x <> [] /\ forallb Json.is_ascii x = true) (d :: ds) ->
    handle_chunks unicode_lower loads sender (d :: ds) (Open buffer s) =
    handle_chunks unicode_lower loads sender [List.concat (d :: ds)] (Open buffer s).
Proof.
  intros ul loads sender ds.
  induction ds as [|d' ds IH]; intros d buffer s H.
  - simpl. rewrite app_nil_r. reflexivity.
  - inversion H as [|? ? [Hne Ha] Hrest]; subst.
    assert (Hc : List.concat (d' :: ds) <> [] /\ forallb Json.is_ascii (List.concat (d' :: ds)) = true).
    { clear IH H. split.
      - inversion Hrest as [|? ? [Hne' _] _]; subst. simpl.
        destruct d'; [contradiction|discriminate].
      - induction Hrest as [|x l [_ Hx] _ IHl]; [reflexivity|].
        simpl. rewrite forallb_app, Hx. exact IHl. }
    destruct Hc as [Hcne Hca].
    change (handle_chunks ul loads sender (d :: d' :: ds) (Open buffer s))
      with (handle_chunks ul loads sender (d' :: ds) (recv_step ul loads sender d buffer s)).
    change (handle_chunks ul loads sender [List.concat (d :: d' :: ds)] (Open buffer s))
      with (recv_step ul loads sender (d ++ List.concat (d' :: ds)) buffer s).
    rewrite (@recv_step_data ul loads sender (d ++ List.concat (d' :: ds)));
      [|destruct d; [contradiction|discriminate]|rewrite forallb_app, Ha; exact Hca].
    rewrite feed_app, (@recv_step_data ul loads sender d) by assumption.
    destruct (feed ul loads sender d buffer s) as [b' s'|e s'|].
    + rewrite (IH d' b' s' Hrest).
      change (handle_chunks ul loads sender [List.concat (d' :: ds)] (Open b' s'))
        with (recv_step ul loads sender (List.concat (d' :: ds)) b' s').
      apply recv_step_data; assumption.
    + apply handle_chunks_ended. discriminate.
    + apply handle_chunks_ended. discriminate.
Qed.

Lemma framing_ignores_chunk_boundaries_witness :
  let frame := Json.dumps [(lit "command", lit "status")] ++ [10%N] in
  let loads := json_loads (fun _ => lit "Expecting value") in
  let sender := lit "10.0.0.2:4000" in
  handle_chunks no_unicode loads sender [firstn 15 frame; skipn 15 frame]
    (Open [] idle_server) =
  handle_chunks no_unicode loads sender [List.concat [firstn 15 frame; skipn 15 frame]]
    (Open [] idle_server)
  /\ handle_chunks no_unicode loads sender [firstn 15 frame; skipn 15 frame]
       (Open [] idle_server) =
     Open [] (handle_status_command sender idle_server).
Proof.
  intros frame loads sender. split; [|vm_compute; reflexivity].
  apply framing_ignores_chunk_boundaries.
  repeat constructor; try (vm_compute; discriminate); vm_compute; reflexivity.
Defined.

(** X8: a line that is blank is skipped, and a line on which [json.loads]
    raises [JSONDecodeError] is answered by one frame "Invalid JSON
    format: <error>" with status "error", to the sender; in both cases the
    session goes on, and the rest of the data is served as it would be
    without that line. *)
Theorem invalid_json_line_is_answered :
  forall (unicode_lower : text -> text) (loads : text -> parsed) (sender : client_id)
         (line rest : text) (s : TestServer),
    ~ In 10%N line ->
    (strip line = [] ->
     feed unicode_lower loads sender (line ++ 10%N :: rest) [] s =
     feed unicode_lower loads sender rest [] s)
    /\ (forall e,
          strip line <> [] ->
          loads (strip line) = JSONDecodeError e ->
          feed unicode_lower loads sender (line ++ 10%N :: rest) [] s =
          feed unicode_lower loads sender rest []
            (send_to_client sender
               {| message := lit "Invalid JSON format: " ++ e; status := lit "error" |} s)).
Proof.
  intros ul loads sender line rest s Hline.
  assert (L : length rest < length (line ++ 10%N :: rest)).
  { rewrite length_app. simpl. lia. }
  split.
  - intros Hblank. unfold feed. simpl app. rewrite lines_loop_turn.
    rewrite (@split_newline_line line rest Hline), Hblank.
    apply lines_loop_fuel; lia.
  - intros e Hne Hbad. unfold feed. simpl app. rewrite lines_loop_turn.
    rewrite (@split_newline_line line rest Hline).
    destruct (strip line) as [|c t] eqn:E; [contradiction|].
    rewrite Hbad. apply lines_loop_fuel; lia.
Qed.

Lemma invalid_json_line_is_answered_witness :
  let loads := json_loads (fun _ => lit "Expecting value") in
  let sender := lit "10.0.0.2:4000" in
  let rest := Json.dumps [(lit "command", lit "status")] ++ [10%N] in
  feed no_unicode loads sender (lit "status?" ++ 10%N :: rest) [] idle_server =
  feed no_unicode loads sender rest []
    (send_to_client sender
       {| message := lit "Invalid JSON format: Expecting value"; status := lit "error" |}
       idle_server).
Proof.
  intros loads sender rest.
  assert (Hline : ~ In 10%N (lit "status?")).
  { simpl. intuition discriminate. }
  apply (proj2 (@invalid_json_line_is_answered no_unicode loads sender (lit "status?")
                  rest idle_server Hline) (lit "Expecting value")).
  - vm_compute. discriminate.
  - vm_compute. reflexivity.
Defined.

(** X9: a line that holds JSON other than an object, or an object whose
    command is not a string, ends the session: nothing is answered, the
    rest of the data is not served, and the client is taken out of the
    registry, so that it gets no broadcast from then on. *)
Theorem line_without_command_ends_session :
  forall (unicode_lower : text -> text) (loads : text -> parsed) (sender : client_id)
         (line rest : text) (message : client_message) (type_name : text)
         (s : TestServer),
    ~ In 10%N line ->
    forallb Json.is_ascii (line ++ 10%N :: rest) = true ->
    strip line <> [] ->
    loads (strip line) = Parsed message ->
    (message = MsgOther type_name
     \/ exists cfg, message = MsgObject (Some (CommandOther type_name)) cfg) ->
    let ended := Closed (disconnect_client sender s) in
    recv_step unicode_lower loads sender (line ++ 10%N :: rest) [] s = ended
    /\ (forall more, handle_chunks unicode_lower loads sender more ended = ended)
    /\ sockets (disconnect_client sender s) = sockets s
    /\ ~ In sender (clients (disconnect_client sender s)).
Proof.
  intros ul loads sender line rest message type_name s Hline Ha Hne Hp Hm ended.
  split; [|split; [|split]].
  - rewrite recv_step_data; [|destruct line; discriminate|exact Ha].
    unfold feed. simpl app. rewrite lines_loop_turn.
    rewrite (@split_newline_line line rest Hline).
    destruct (strip line) as [|c t] eqn:E; [contradiction|].
    rewrite Hp. destruct Hm as [->|[cfg ->]]; reflexivity.
  - intros more. apply handle_chunks_ended. discriminate.
  - reflexivity.
  - unfold disconnect_client. simpl. intros Hin. apply filter_In in Hin.
    destruct Hin as [_ Hin]. rewrite SessionFacts.text_eqb_refl in Hin. discriminate.
Qed.

Lemma line_without_command_ends_session_witness :
  let loads := json_loads (fun _ => lit "Expecting value") in
  let sender := lit "10.0.0.2:4000" in
  let line := Json.encode_basestring_ascii (lit "stop") in
  recv_step no_unicode loads sender (line ++ 10%N :: lit "more") [] idle_server =
  Closed (disconnect_client sender idle_server)
  /\ clients (disconnect_client sender idle_server) = [lit "10.0.0.1:4000"].
Proof.
  intros loads sender line. split; [|reflexivity].
  assert (Hline : ~ In 10%N line).
  { vm_compute. intuition discriminate. }
  assert (Hne : strip line <> []).
  { vm_compute. discriminate. }
  exact (proj1 (@line_without_command_ends_session no_unicode loads sender line
                  (lit "more") (MsgOther (lit "str")) (lit "str") idle_server
                  Hline eq_refl Hne eq_refl (or_introl eq_refl))).
Defined.

Lemma ascii_lower_lower ul c :
  Forall (fun ch => (ch < 128)%N) c -> TestCases2.lower ul c = map ascii_lower c.
Proof. intros H. rewrite (TestCases2Facts.lower_ascii ul H). reflexivity. Qed.

(** X10: the names of the commands are matched without regard to the case
    of ASCII letters: two command names that differ only in case are
    served alike, so that "STOP" and "Stop" stop the test as "stop" does,
    and likewise for "start" and "status". *)
Theorem command_names_ignore_case :
  forall (unicode_lower : text -> text) (sender : client_id) (c1 c2 : text)
         (cfg : option test_config) (s : TestServer),
    Forall (fun ch => (ch < 128)%N) c1 ->
    Forall (fun ch => (ch < 128)%N) c2 ->
    map ascii_lower c1 = map ascii_lower c2 ->
    let serve c := process_client_message unicode_lower sender
                     (MsgObject (Some (CommandStr c)) cfg) s in
    serve c1 = serve c2
    /\ (c2 = lit "start" -> serve c1 = Return (handle_start_command sender cfg s))
    /\ (c2 = lit "stop" -> serve c1 = Return (handle_stop_command sender s))
    /\ (c2 = lit "status" -> serve c1 = Return (handle_status_command sender s)).
Proof.
  intros ul sender c1 c2 cfg s H1 H2 E serve.
  assert (Hs : serve c1 = serve c2).
  { subst serve. unfold process_client_message, command_of.
    rewrite (ascii_lower_lower ul H1), (ascii_lower_lower ul H2), E. reflexivity. }
  split; [exact Hs|].
  repeat split; intros ->; rewrite Hs; reflexivity.
Qed.

Lemma command_names_ignore_case_witness :
  process_client_message no_unicode (lit "10.0.0.2:4000")
    (MsgObject (Some (CommandStr (lit "STOP"))) None) busy_server =
  Return (handle_stop_command (lit "10.0.0.2:4000") busy_server).
Proof.
  assert (H1 : Forall (fun ch => (ch < 128)%N) (lit "STOP")) by (repeat constructor).
  assert (H2 : Forall (fun ch => (ch < 128)%N) (lit "stop")) by (repeat constructor).
  exact (proj1 (proj2 (proj2 (@command_names_ignore_case no_unicode (lit "10.0.0.2:4000")
                  (lit "STOP") (lit "stop") None busy_server H1 H2 eq_refl))) eq_refl).
Defined.

(** X11: a command that is none of "start", "stop" and "status", an
    absent command included, is answered by one frame "Unknown command:
    <name in lower case>" with status "error", to the sender; the run
    state, the registry, the other sockets and the worker threads are what
    they were. *)
Theorem unknown_command_is_rejected :
  forall (unicode_lower : text -> text) (sender : client_id) (command : option text)
         (cfg : option test_config) (s : TestServer),
    let c := match command with Some c => c | None => [] end in
    let name := map ascii_lower c in
    Forall (fun ch => (ch < 128)%N) c ->
    ~ In name [lit "start"; lit "stop"; lit "status"] ->
    let message := MsgObject (match command with
                              | Some c => Some (CommandStr c)
                              | None => None
                              end) cfg in
    exists s',
      process_client_message unicode_lower sender message s = Return s'
      /\ s' = send_to_client sender
                {| message := lit "Unknown command: " ++ name; status := lit "error" |} s
      /\ sockets s' = sockets s ++
           [(sender, {| message := lit "Unknown command: " ++ name;
                        status := lit "error" |})]
      /\ test_running s' = test_running s /\ current_test s' = current_test s
      /\ clients s' = clients s /\ threads s' = threads s.
Proof.
  intros ul sender command cfg s c name Hc Hn message.
  eexists. split; [|repeat split; reflexivity].
  subst message. unfold process_client_message.
  assert (E : command_of ul (match command with
                             | Some c0 => Some (CommandStr c0)
                             | None => None
                             end) = Return name).
  { subst name c. destruct command as [c0|]; simpl.
    - rewrite (ascii_lower_lower ul Hc). reflexivity.
    - reflexivity. }
  rewrite E.
  destruct (text_eqb name (lit "start")) eqn:E1;
    [apply text_eqb_eq in E1; exfalso; apply Hn; rewrite E1; simpl; auto|].
  destruct (text_eqb name (lit "stop")) eqn:E2;
    [apply text_eqb_eq in E2; exfalso; apply Hn; rewrite E2; simpl; auto|].
  destruct (text_eqb name (lit "status")) eqn:E3;
    [apply text_eqb_eq in E3; exfalso; apply Hn; rewrite E3; simpl; auto|].
  reflexivity.
Qed.

Lemma unknown_command_is_rejected_witness :
  sockets (match process_client_message no_unicode (lit "10.0.0.2:4000")
                   (MsgObject (Some (CommandStr (lit "Pause"))) None) busy_server with
           | Return s' => s'
           | Raise _ => busy_server
           end) =
  [(lit "10.0.0.2:4000",
    {| message := lit "Unknown command: pause"; status := lit "error" |})].
Proof.
  assert (Hc : Forall (fun ch => (ch < 128)%N) (lit "Pause")) by (repeat constructor).
  assert (Hn : ~ In (map ascii_lower (lit "Pause")) [lit "start"; lit "stop"; lit "status"]).
  { simpl. intuition discriminate. }
  destruct (@unknown_command_is_rejected no_unicode (lit "10.0.0.2:4000")
              (Some (lit "Pause")) None busy_server Hc Hn) as (s' & H1 & H2 & _).
  rewrite H1, H2. reflexivity.
Defined.

(** *** From the client to the handler *)

Lemma hexdigit_printable n : (n < 16)%N -> printable (Json.hexdigit n) = true.
Proof.
  intros H. unfold printable, Json.hexdigit.
  destruct (n <? 10)%N eqn:E; apply andb_true_iff; split; apply N.leb_le.
  - lia.
  - apply N.ltb_lt in E. lia.
  - lia.
  - lia.
Qed.

Lemma hex4_printable n : forallb printable (Json.hex4 n) = true.
Proof.
  unfold Json.hex4. simpl.
  rewrite !hexdigit_printable by (apply N.mod_lt; discriminate). reflexivity.
Qed.

Lemma escape_printable c : forallb printable (Json.escape c) = true.
Proof.
  unfold Json.escape.
  repeat match goal with
         | |- context [if (c =? ?k)%N then _ else _] => destruct (c =? k)%N; [reflexivity|]
         end.
  destruct ((32 <=? c)%N && (c <=? 126)%N) eqn:E.
  - simpl. unfold printable. rewrite E. reflexivity.
  - assert (U : forall n, forallb printable (92 :: 117 :: Json.hex4 n)%N = true).
    { intros n. change (forallb printable (92 :: 117 :: Json.hex4 n)%N)
        with (forallb printable (Json.hex4 n)). apply hex4_printable. }
    destruct (c <? 65536)%N; [apply U|].
    cbv zeta. rewrite forallb_app, !U. reflexivity.
Qed.

Lemma encode_basestring_ascii_printable t :
  forallb printable (Json.encode_basestring_ascii t) = true.
Proof.
  unfold Json.encode_basestring_ascii. simpl. rewrite forallb_app. simpl.
  rewrite andb_true_r. induction t as [|c t IH]; simpl; [reflexivity|].
  rewrite forallb_app, escape_printable, IH. reflexivity.
Qed.

Lemma join_printable sep l :
  forallb printable sep = true -> forallb (forallb printable) l = true ->
  forallb printable (join sep l) = true.
Proof.
  intros Hsep. induction l as [|x l IH]; simpl; intros H; [reflexivity|].
  apply andb_true_iff in H. destruct H as [Hx Hl].
  destruct l as [|y l']; [exact Hx|].
  rewrite !forallb_app, Hx, Hsep, IH by exact Hl. reflexivity.
Qed.

(** The text [json.dumps] writes is one line of printable characters. *)
Lemma dumps_printable d : forallb printable (Json.dumps d) = true.
Proof.
  unfold Json.dumps. rewrite !forallb_app.
  rewrite join_printable; [reflexivity|reflexivity|].
  apply forallb_forall. intros x Hx. apply in_map_iff in Hx.
  destruct Hx as (kv & <- & _).
  rewrite !forallb_app, !encode_basestring_ascii_printable. reflexivity.
Qed.

Lemma printable_no_newline t : forallb printable t = true -> ~ In 10%N t.
Proof.
  intros H Hin. rewrite forallb_forall in H. specialize (H _ Hin). discriminate.
Qed.

(** Text in braces is what [strip] returns for it. *)
Lemma strip_braces body : strip (123%N :: body ++ [125%N]) = 123%N :: body ++ [125%N].
Proof.
  unfold strip, rstrip.
  change (lstrip (123%N :: body ++ [125%N])) with (123%N :: body ++ [125%N]).
  assert (E : rev (123%N :: body ++ [125%N]) = 125%N :: rev (123%N :: body)).
  { simpl. rewrite rev_app_distr. reflexivity. }
  rewrite E.
  change (lstrip (125%N :: rev (123%N :: body))) with (125%N :: rev (123%N :: body)).
  rewrite <- E. apply rev_involutive.
Qed.

Lemma dumps_braces d : exists body, Json.dumps d = 123%N :: body ++ [125%N].
Proof. unfold Json.dumps. eexists. reflexivity. Qed.

(** X12: the request the client sends for a command, the JSON text of
    [{"command": c}] followed by a line break, is one line that the
    session loop of the server decodes to the same command and serves:
    what [process_client_message] does for [c] is done, and the session's
    buffer is empty again.  For the request of [stop_test] the stop
    handler runs. *)
Theorem client_request_is_served :
  forall (unicode_lower : text -> text) (error_text : text -> text) (sender : client_id)
         (c : text) (s : TestServer),
    Json.well_formed c = true ->
    exists data s',
      send_message [(lit "command", c)] = Some data
      /\ process_client_message unicode_lower sender
           (MsgObject (Some (CommandStr c)) None) s = Return s'
      /\ recv_step unicode_lower (json_loads error_text) sender data [] s = Open [] s'
      /\ (c = lit "stop" ->
          send_message stop_request = Some data /\ s' = handle_stop_command sender s).
Proof.
  intros ul error_text sender c s Hc.
  set (d := [(lit "command", c)]).
  assert (Hsend : send_message d = Some (Json.dumps d ++ [10%N])).
  { unfold send_message, Channel.encode_utf8.
    rewrite ChannelFacts.dumps_ascii. reflexivity. }
  assert (Hret : exists s', process_client_message ul sender
                              (MsgObject (Some (CommandStr c)) None) s = Return s').
  { unfold process_client_message, command_of.
    destruct (text_eqb _ (lit "start")); [eexists; reflexivity|].
    destruct (text_eqb _ (lit "stop")); [eexists; reflexivity|].
    destruct (text_eqb _ (lit "status")); eexists; reflexivity. }
  destruct Hret as [s' Hret].
  exists (Json.dumps d ++ [10%N]), s'.
  split; [exact Hsend|]. split; [exact Hret|]. split.
  - assert (Hne : Json.dumps d ++ [10%N] <> []).
    { destruct (dumps_braces d) as [body ->]. discriminate. }
    assert (Ha : forallb Json.is_ascii (Json.dumps d ++ [10%N]) = true).
    { rewrite forallb_app, ChannelFacts.dumps_ascii. reflexivity. }
    assert (Hline : ~ In 10%N (Json.dumps d)).
    { apply printable_no_newline, dumps_printable. }
    assert (Hstrip : strip (Json.dumps d) = Json.dumps d).
    { destruct (dumps_braces d) as [body ->]. apply strip_braces. }
    assert (Hloads : json_loads error_text (Json.dumps d) =
                     Parsed (MsgObject (Some (CommandStr c)) None)).
    { unfold json_loads.
      assert (Hws : Json.skip_ws (Json.dumps d) = Json.dumps d).
      { destruct (dumps_braces d) as [body ->]. reflexivity. }
      rewrite Hws. rewrite <- (app_nil_r (Json.dumps d)).
      rewrite JsonFacts.raw_decode_dumps.
      - reflexivity.
      - simpl. constructor; [intros []|constructor].
      - unfold Json.well_formed_dict. simpl. rewrite Hc. reflexivity. }
    assert (Hsome : exists ch t, Json.dumps d = ch :: t).
    { destruct (dumps_braces d) as [body ->]. do 2 eexists. reflexivity. }
    set (t := Json.dumps d) in *. clearbody t.
    rewrite recv_step_data by assumption.
    unfold feed. change ([] ++ t ++ [10%N]) with (t ++ [10%N]).
    rewrite lines_loop_turn, (@split_newline_line t [] Hline), Hstrip.
    destruct Hsome as (ch & t' & Ht).
    rewrite Ht at 1. rewrite <- Ht. rewrite Hloads, Hret.
    rewrite length_app. simpl length. rewrite Nat.add_1_r, lines_loop_turn.
    reflexivity.
  - intros ->. split; [exact Hsend|].
    unfold process_client_message in Hret. simpl in Hret. injection Hret as <-.
    reflexivity.
Qed.

Lemma client_request_is_served_witness :
  exists data,
    send_message stop_request = Some data
    /\ recv_step no_unicode (json_loads (fun _ => [])) (lit "10.0.0.2:4000") data []
         busy_server =
       Open [] (handle_stop_command (lit "10.0.0.2:4000") busy_server).
Proof.
  destruct (@client_request_is_served no_unicode (fun _ => []) (lit "10.0.0.2:4000")
              (lit "stop") busy_server eq_refl) as (data & s' & _ & _ & H3 & H4).
  destruct (H4 eq_refl) as [H5 H6].
  exists data. split; [exact H5|]. rewrite H3, H6. reflexivity.
Defined.

End LoopFacts.

(** ** The life of a worker *)

Module WorkerFacts.
Import Server3 Server3Facts.



Lemma broadcast_instance e s :
  current_model_instance (broadcast_to_all_clients e s) = current_model_instance s.
Proof. rewrite broadcast_unfold. reflexivity. Qed.

(** What the exception handler and the [finally] clause add to the record
    of calls: one [cleanup] when an instance is stored, nothing
    otherwise. *)
Lemma handler_calls e w :
  invoked (finally_clause (except_clause e w)) =
  invoked w ++ match current_model_instance (server w) with
               | Some _ => [CallCleanup]
               | None => []
               end.
Proof.
  unfold except_clause, finally_clause. cbn [server invoked].
  rewrite broadcast_instance.
  destruct (current_model_instance (server w)); simpl; [reflexivity|].
  symmetry. apply app_nil_r.
Qed.



(** A turn of the loop that goes through: the flag is raised, the item is
    a dict and [run_tests] returns. *)
Lemma run_loadlist_turn p total i fields w b :
  test_running (server w) = true ->
  current_model_instance (server w) = Some p ->
  snd (p_run_tests p i (ItemDict fields)) = Return b ->
  exists w',
    (forall l acc0, run_loadlist total i (ItemDict fields :: l) acc0 w =
                    run_loadlist total (S i) l (if b then acc0 else false) w')
    /\ invoked w' = invoked w ++ [CallRunTests i (ItemDict fields)]
    /\ current_model_instance (server w') = Some p.
Proof.
  intros Hr Hp Hb.
  destruct b.
  - eexists. split; [|split].
    + intros l acc0. rewrite run_loadlist_cons, Hr. simpl negb. cbv iota zeta.
      rewrite status_callback_instance, Hp, Hb. reflexivity.
    + reflexivity.
    + cbn [server]. rewrite perform_all_instance, status_callback_instance. exact Hp.
  - eexists. split; [|split].
    + intros l acc0. rewrite run_loadlist_cons, Hr. simpl negb. cbv iota zeta.
      rewrite status_callback_instance, Hp, Hb. reflexivity.
    + reflexivity.
    + cbn [server]. rewrite status_callback_instance, perform_all_instance,
        status_callback_instance. exact Hp.
Qed.

(** Where the loop is left.  [run_tests] is invoked on the first [k]
    items, in order; each of them was reached with the flag raised; and
    when some item is left out, either the check before the item at
    position [k] found the flag lowered, or an exception left the loop:
    the call on the last item invoked raised, or the item at position [k]
    is not a dict. *)
Lemma run_loadlist_position p items :
  forall total i acc w,
    current_model_instance (server w) = Some p ->
    let r := run_loadlist total i items acc w in
    let at_check := fun j => snd (run_loadlist total i (firstn j items) acc w) in
    exists k,
      k <= length items
      /\ invoked (snd r) = invoked w ++ run_calls i (firstn k items)
      /\ (forall j, j < k -> test_running (server (at_check j)) = true)
      /\ (k = length items
          \/ (k < length items /\ fst r = Return false
              /\ test_running (server (at_check k)) = false)
          \/ (exists e,
                fst r = Raise e
                /\ ((exists x, 0 < k /\ nth_error items (k - 1) = Some x
                               /\ snd (p_run_tests p (i + (k - 1)) x) = Raise e)
                    \/ (exists type_name, nth_error items k = Some (ItemOther type_name))))).
Proof.
  induction items as [|x rest IH]; intros total i acc w Hp r at_check.
  - exists 0. split; [simpl; lia|]. split; [simpl; symmetry; apply app_nil_r|].
    split; [intros j Hj; lia|left; reflexivity].
  - destruct (test_running (server w)) eqn:Hr.
    2:{ (* the check finds the flag lowered *)
        exists 0. split; [simpl; lia|].
        subst r at_check. cbn [firstn].
        rewrite run_loadlist_cons, Hr. simpl negb. cbv iota. cbn [fst snd invoked].
        split; [simpl; symmetry; apply app_nil_r|].
        split; [intros j Hj; lia|].
        right; left. split; [simpl; lia|]. split; [reflexivity|exact Hr]. }
    destruct x as [fields|type_name].
    2:{ (* not a dict *)
        exists 0. split; [simpl; lia|].
        subst r at_check. cbn [firstn].
        rewrite run_loadlist_cons, Hr. simpl negb. cbv iota. cbn [fst snd invoked].
        split; [simpl; symmetry; apply app_nil_r|].
        split; [intros j Hj; lia|].
        right; right. eexists. split; [reflexivity|].
        right. exists type_name. reflexivity. }
    destruct (snd (p_run_tests p i (ItemDict fields))) as [b|e] eqn:Hcall.
    2:{ (* the call raises *)
        exists 1. split; [simpl; lia|].
        subst r at_check.
        rewrite run_loadlist_cons, Hr. simpl negb. cbv iota zeta.
        rewrite status_callback_instance, Hp, Hcall. cbn [fst snd invoked].
        split; [reflexivity|].
        split.
        { intros j Hj. assert (j = 0) by lia. subst j. exact Hr. }
        right; right. exists e. split; [reflexivity|].
        left. exists (ItemDict fields). split; [lia|]. split; [reflexivity|].
        replace (i + (1 - 1)) with i by lia. exact Hcall. }
    (* the call returns *)
    destruct (@run_loadlist_turn p total i fields w b Hr Hp Hcall)
      as (w' & Hturn & Hinv & Hp').
    destruct (IH total (S i) (if b then acc else false) w' Hp')
      as (k & Hk & Hcalls & Hchecks & Hend).
    exists (S k). split; [simpl; lia|].
    subst r at_check. cbv beta. rewrite Hturn.
    split.
    { rewrite Hcalls, Hinv, <- app_assoc. reflexivity. }
    split.
    { intros [|j] Hj; [exact Hr|].
      cbn [firstn]. rewrite Hturn. apply Hchecks. lia. }
    destruct Hend as [->|[(Hlt & Hret & Hflag)|(e & Hraise & Hwhy)]].
    + left. reflexivity.
    + right; left. split; [simpl; lia|]. split; [exact Hret|].
      cbn [firstn]. rewrite Hturn. exact Hflag.
    + right; right. exists e. split; [exact Hraise|].
      destruct Hwhy as [(x & Hpos & Hnth & Hx)|(type_name & Hnth)].
      * left. exists x. split; [lia|]. split.
        -- replace (S k - 1) with (S (k - 1)) by lia. exact Hnth.
        -- replace (i + (S k - 1)) with (S i + (k - 1)) by lia. exact Hx.
      * right. exists type_name. exact Hnth.
Qed.

(** With the module and the class found and the constructor and [setup]
    returning, the body of the [try] is the loop and what follows it,
    entered in [loop_entry]. *)
Lemma try_body_enters load model_name m p cfg items w :
  load model_name = Some m ->
  m (model_class_name model_name) = Some p ->
  snd (p_init p) = Return tt ->
  snd (p_setup p) = Return true ->
  loadlist cfg = Some (LoadList items) ->
  try_body load model_name cfg w =
  bind (run_loadlist (length items) 0 items true) (after_loop model_name cfg)
    (loop_entry model_name p w).
Proof.
  intros Hload Hcls Hinit Hsetup Hll.
  unfold try_body. rewrite Hload, Hcls, Hll.
  erewrite bind_returns by (apply call_returns; exact Hinit).
  erewrite bind_returns by reflexivity.
  erewrite bind_returns by reflexivity.
  erewrite bind_returns.
  2:{ eapply instance_call_returns; [|exact Hsetup].
      cbn [server]. rewrite status_callback_instance. reflexivity. }
  reflexivity.
Qed.

(** What follows the loop invokes [run_tests] on nothing. *)
Lemma after_loop_invocations model_name cfg b w :
  invocations (invoked (snd (after_loop model_name cfg b w))) = invocations (invoked w).
Proof.
  set (I := fun l => invocations l = invocations (invoked w)).
  assert (HI : forall c, invocations [c] = [] -> forall l, I l -> I (l ++ [c])).
  { intros c Hc l Hl. unfold I in *. rewrite invocations_app, Hl, Hc. apply app_nil_r. }
  assert (H : tracks I (after_loop model_name cfg b) I).
  { unfold after_loop.
    apply tracks_bind with (J := I); auto using tracks_on_server. intros _.
    apply tracks_bind with (J := I); auto.
    { apply tracks_instance_call. apply HI. reflexivity. }
    intros _.
    apply tracks_bind with (J := I); auto using tracks_on_server. intros _.
    apply tracks_bind with (J := I); auto using tracks_read. intros running.
    apply tracks_bind with (J := I); auto using tracks_ret.
    destruct running; auto using tracks_ret.
    destruct (serial_number cfg); auto using tracks_on_server, tracks_raise. }
  apply (H w). reflexivity.
Qed.

(** The handlers invoke [run_tests] on nothing. *)
Lemma handlers_invocations e w :
  invocations (invoked (finally_clause (except_clause e w))) = invocations (invoked w).
Proof.
  rewrite handler_calls, invocations_app.
  destruct (current_model_instance (server w)); simpl; apply app_nil_r.
Qed.

(** C3, as stated, fails: an exception that leaves the loop skips the
    items after it although the flag is still raised.  In the first run
    [run_tests] raises on the second of three items: the third is never
    invoked, no stop command was served and the flag is raised when the
    exception reaches the handler.  In the second run the model class
    raises nothing, but the second element of the loadlist, which
    [handle_start_command] accepts, is a string: [run_tests] is invoked
    on the first item only, and the third is skipped in the same way. *)
Lemma raising_item_ends_the_run :
  let p := raising_plugin 1 in
  let body := try_body (demo_modules p) (lit "ModelC") demo_config demo_running in
  let w' := snd (execute_model_test (demo_modules p) (lit "ModelC") demo_config
                   demo_running) in
  let q := demo_plugin [] [] in
  let cfg := {| serial_number := Some (lit "SN1"); model := Some (lit "ModelC");
                stage := Some (lit "S1");
                loadlist := Some (LoadList [item_25C; ItemOther (lit "str"); item_cold]) |} in
  let started := handle_start_command session_a (Some cfg) demo_idle in
  let body2 := try_body (demo_modules q) (lit "ModelC") cfg
                 {| server := started; invoked := [] |} in
  let w2 := snd (execute_model_test (demo_modules q) (lit "ModelC") cfg
                   {| server := started; invoked := [] |}) in
  (items_of demo_config = [item_25C; item_85C; item_cold]
   /\ invocations (invoked w') = [item_25C; item_85C]
   /\ fst body = Raise (lit "instrument not responding")
   /\ test_running (server (snd body)) = true
   /\ with_status (lit "stopped") (sockets (server w')) = [])
  /\ invocations (invoked w') <> items_of demo_config
  /\ (threads started = [(lit "ModelC", cfg)]
      /\ invocations (invoked w2) = [item_25C]
      /\ fst body2 = Raise (lit "'str' object has no attribute 'get'")
      /\ test_running (server (snd body2)) = true
      /\ with_status (lit "stopped") (sockets (server w2)) = []).
Proof.
  split; [vm_compute; repeat split|].
  split; [vm_compute; discriminate|].
  vm_compute; repeat split.
Qed.

(** C3, amended: in a run that reaches the loop, [run_tests] is invoked
    on the first [k] items of the loadlist, in the listed order, and on
    nothing else; each of them was reached at a check that found the flag
    raised.  No item is left out unless the loop was left early, in one
    of two ways: the check before the item at position [k] found the flag
    lowered, and that item and all later ones are skipped; or an
    exception left the loop, raised by [run_tests] on the last item
    invoked or by the item at position [k] not being a dict, and the run
    ends in the exception handler. *)
Theorem run_tests_in_loadlist_order :
  forall (load : text -> option PyModule) (model_name : text) (m : PyModule)
         (p : Plugin) (cfg : test_config) (items : list run_item) (w : World),
    load model_name = Some m ->
    m (model_class_name model_name) = Some p ->
    snd (p_init p) = Return tt ->
    snd (p_setup p) = Return true ->
    loadlist cfg = Some (LoadList items) ->
    let entry := loop_entry model_name p w in
    let loop := run_loadlist (length items) 0 items true entry in
    let at_check := fun j =>
      snd (run_loadlist (length items) 0 (firstn j items) true entry) in
    let calls :=
      invocations (invoked (snd (execute_model_test load model_name cfg w))) in
    exists k,
      k <= length items
      /\ calls = invocations (invoked w) ++ firstn k items
      /\ (forall j, j < k -> test_running (server (at_check j)) = true)
      /\ (k = length items
          \/ (k < length items /\ fst loop = Return false
              /\ test_running (server (at_check k)) = false)
          \/ (exists e,
                fst loop = Raise e
                /\ ((exists x, 0 < k /\ nth_error items (k - 1) = Some x
                               /\ snd (p_run_tests p (k - 1) x) = Raise e)
                    \/ (exists type_name, nth_error items k = Some (ItemOther type_name))))).
Proof.
  intros load model_name m p cfg items w Hload Hcls Hinit Hsetup Hll
         entry loop at_check calls.
  assert (Hp : current_model_instance (server entry) = Some p).
  { subst entry. unfold loop_entry. cbn [server].
    rewrite perform_all_instance, status_callback_instance. reflexivity. }
  assert (Hbase : invocations (invoked entry) = invocations (invoked w)).
  { subst entry. unfold loop_entry. cbn [invoked].
    rewrite !invocations_app. simpl. rewrite !app_nil_r. reflexivity. }
  destruct (@run_loadlist_position p items (length items) 0 true entry Hp)
    as (k & Hk & Hcalls & Hchecks & Hend).
  exists k. split; [exact Hk|]. split; [|split; [exact Hchecks|exact Hend]].
  subst calls. unfold execute_model_test.
  rewrite (@try_body_enters load model_name m p cfg items w Hload Hcls Hinit Hsetup Hll).
  fold entry. unfold bind. fold loop.
  assert (Hloop : invocations (invoked (snd loop)) = invocations (invoked w) ++ firstn k items).
  { subst loop. rewrite Hcalls, invocations_app, invocations_run_calls, Hbase. reflexivity. }
  destruct loop as [[b|e] w5]; cbn [snd] in Hloop.
  - pose proof (after_loop_invocations model_name cfg b w5) as Hafter.
    destruct (after_loop model_name cfg b w5) as [[b'|e] w6]; cbn [snd] in Hafter |- *.
    + unfold finally_clause. cbn [invoked]. rewrite Hafter. exact Hloop.
    + rewrite handlers_invocations, Hafter. exact Hloop.
  - cbn [snd]. rewrite handlers_invocations. exact Hloop.
Qed.

Lemma run_tests_in_loadlist_order_witness :
  let p := demo_plugin [] [1] in
  let entry := loop_entry (lit "ModelC") p demo_running in
  let calls :=
    invocations (invoked (snd (execute_model_test (demo_modules p) (lit "ModelC")
                                 demo_config demo_running))) in
  exists k,
    k <= 3
    /\ calls = firstn k [item_25C; item_85C; item_cold]
    /\ (k = 3
        \/ (k < 3
            /\ test_running
                 (server (snd (run_loadlist 3 0 (firstn k [item_25C; item_85C; item_cold])
                                 true entry))) = false)
        \/ exists e,
             fst (run_loadlist 3 0 [item_25C; item_85C; item_cold] true entry) = Raise e).
Proof.
  intros p entry calls.
  destruct (@run_tests_in_loadlist_order (demo_modules p) (lit "ModelC")
              (fun cls => if text_eqb cls (lit "ModelC") then Some p else None)
              p demo_config [item_25C; item_85C; item_cold] demo_running
              eq_refl eq_refl eq_refl eq_refl eq_refl)
    as (k & Hk & Hcalls & _ & Hend).
  exists k. split; [exact Hk|]. split; [exact Hcalls|].
  destruct Hend as [H|[(H1 & _ & H2)|(e & H & _)]].
  - left. exact H.
  - right; left. split; [exact H1|exact H2].
  - right; right. exists e. exact H.
Defined.

Lemma perform_all_writes l : forall s,
  exists added, sockets (perform_all l s) = sockets s ++ added.
Proof.
  unfold perform_all. induction l as [|a l IH]; intros s; simpl.
  - exists []. symmetry. apply app_nil_r.
  - destruct (IH (perform a s)) as [more Hmore].
    destruct (SessionFacts.perform_writes a s) as (added & Ha & _).
    exists (added ++ more). rewrite Hmore, Ha, app_assoc. reflexivity.
Qed.


(** X14: a run for a model whose module is not found, or whose module
    lacks the class, calls nothing of that model.  Every client
    registered when the worker starts gets one frame "Test execution
    error: Model module '<name>.py' not found" (or "... missing required
    class '<class>'") with status "error", whether or not the flag is
    still raised, and the worker ends with the run state Idle.  The one
    call it can make is the exception handler's [cleanup] of an instance
    it finds stored, left there by another run: with none stored it makes
    no call, writes no other frame and leaves the registry as it was. *)
Theorem unknown_model_fails_cleanly :
  forall (load : text -> option PyModule) (model_name : text) (cfg : test_config)
         (w : World),
    match load model_name with
    | None => True
    | Some m => m (model_class_name model_name) = None
    end ->
    let r := execute_model_test load model_name cfg w in
    let reason :=
      match load model_name with
      | None => lit "Model module '" ++ model_name ++ lit ".py' not found"
      | Some _ => lit "Model module '" ++ model_name ++
                  lit ".py' missing required class '" ++
                  model_class_name model_name ++ lit "'"
      end in
    let error := {| message := lit "Test execution error: " ++ reason;
                    status := lit "error" |} in
    fst r = false
    /\ invoked (snd r) =
       invoked w ++ match current_model_instance (server w) with
                    | Some _ => [CallCleanup]
                    | None => []
                    end
    /\ (exists after,
          sockets (server (snd r)) =
          sockets (server w) ++ map (fun c => (c, error)) (clients (server w)) ++ after
          /\ (current_model_instance (server w) = None -> after = []))
    /\ test_running (server (snd r)) = false
    /\ current_test (server (snd r)) = None
    /\ current_model_instance (server (snd r)) = None
    /\ (current_model_instance (server w) = None ->
        clients (server (snd r)) = clients (server w)).
Proof.
  intros load model_name cfg w Hm r reason error.
  assert (Hr : r = (false, finally_clause (except_clause reason w))).
  { subst r reason. unfold execute_model_test, try_body.
    destruct (load model_name) as [m|]; [rewrite Hm|]; reflexivity. }
  rewrite Hr. clear Hr r. cbn [fst snd]. split; [reflexivity|].
  split; [apply handler_calls|].
  unfold finally_clause, except_clause. cbn [server invoked].
  rewrite broadcast_instance. fold error.
  destruct (current_model_instance (server w)) as [p|].
  - cbn [snd call server invoked fst].
    destruct (perform_all_writes (fst (p_cleanup p true))
                (broadcast_to_all_clients error (server w))) as [after Hafter].
    split; [|repeat split; discriminate].
    exists after. cbn [sockets set_current_model_instance set_current_test
                       set_test_running].
    rewrite Hafter, broadcast_unfold. cbn [sockets]. rewrite <- app_assoc.
    split; [reflexivity|discriminate].
  - cbn [server invoked]. rewrite broadcast_unfold.
    cbn [sockets clients test_running current_test current_model_instance
         set_current_model_instance set_current_test set_test_running].
    split; [|repeat split].
    exists []. rewrite app_nil_r. split; reflexivity.
Qed.

Lemma unknown_model_fails_cleanly_witness :
  let r := execute_model_test (demo_modules (demo_plugin [] [])) (lit "ModelZ")
             demo_config demo_running in
  let r' := execute_model_test (demo_modules (demo_plugin [] [])) (lit "ModelZ")
              demo_config (demo_in_loop (demo_plugin [] [])) in
  invoked (snd r) = []
  /\ sockets (server (snd r)) =
     [(session_a, {| message := lit "Test execution error: Model module 'ModelZ.py' not found";
                     status := lit "error" |});
      (session_b, {| message := lit "Test execution error: Model module 'ModelZ.py' not found";
                     status := lit "error" |})]
  /\ test_running (server (snd r)) = false
  /\ invoked (snd r') = [CallInit; CallSetup; CallCleanup].
Proof.
  intros r r'.
  destruct (@unknown_model_fails_cleanly (demo_modules (demo_plugin [] [])) (lit "ModelZ")
              demo_config demo_running I) as (_ & H2 & _ & H4 & _).
  destruct (@unknown_model_fails_cleanly (demo_modules (demo_plugin [] [])) (lit "ModelZ")
              demo_config (demo_in_loop (demo_plugin [] [])) I) as (_ & H2' & _).
  split; [exact H2|]. split; [reflexivity|]. split; [exact H4|exact H2'].
Defined.



End WorkerFacts.

(** ** The catalog query and the rule table *)

Module RuleTableFacts.
Import Catalog CatalogFacts.

(** The query keeps the definitions some winning rule refers to. *)
Lemma get_testcase_as_filter rules defs m b t :
  get_testcase rules defs m b t =
  filter (fun d =>
            match filter (rule_matches m b t) rules with
            | [] => false
            | r :: rest =>
                existsb (Z.eqb (ID d))
                  (unique (map TestCaseID
                     (filter (fun r' => (Priority r' =? column_min (Priority r)
                                                          (map Priority rest))%Z)
                        (r :: rest))))
            end) defs.
Proof.
  unfold get_testcase. destruct (filter (rule_matches m b t) rules) as [|r rest].
  - induction defs as [|d defs IH]; simpl; auto.
  - reflexivity.
Qed.

(** A definition is kept exactly when its id is that of an applicable rule
    of the lowest priority among the applicable ones. *)
Lemma keep_spec rules m b t id :
  match filter (rule_matches m b t) rules with
  | [] => false
  | r :: rest =>
      existsb (Z.eqb id)
        (unique (map TestCaseID
           (filter (fun r' => (Priority r' =? column_min (Priority r)
                                                (map Priority rest))%Z)
              (r :: rest))))
  end = true <->
  exists r, In r rules /\ rule_matches m b t r = true
            /\ (forall r', In r' rules -> rule_matches m b t r' = true ->
                           (Priority r <= Priority r')%Z)
            /\ TestCaseID r = id.
Proof.
  set (applies := rule_matches m b t).
  destruct (filter applies rules) as [|r0 rest] eqn:Hf.
  - split; [discriminate|]. intros (r & Hr & Ha & _).
    assert (Hin : In r (filter applies rules)) by (apply filter_In; tauto).
    rewrite Hf in Hin. destruct Hin.
  - set (lowest := column_min (Priority r0) (map Priority rest)).
    assert (Hlow : forall r', In r' rules -> applies r' = true ->
                              (lowest <= Priority r')%Z).
    { intros r' Hr' Ha'.
      assert (Hin : In r' (r0 :: rest)) by (rewrite <- Hf; apply filter_In; tauto).
      destruct (column_min_le (Priority r0) (map Priority rest)) as [H1 H2].
      destruct Hin as [<-|Hin]; [exact H1|]. apply H2. apply in_map. exact Hin. }
    assert (Hex : exists r1, In r1 rules /\ applies r1 = true /\ Priority r1 = lowest).
    { destruct (column_min_In (Priority r0) (map Priority rest)) as [H|H].
      - exists r0.
        assert (Hin : In r0 (filter applies rules)) by (rewrite Hf; left; reflexivity).
        apply filter_In in Hin. subst lowest. intuition congruence.
      - apply in_map_iff in H. destruct H as (r1 & E & Hin).
        assert (Hin' : In r1 (filter applies rules)) by (rewrite Hf; right; exact Hin).
        apply filter_In in Hin'. exists r1. subst lowest. intuition congruence. }
    rewrite existsb_Zeqb, unique_In, in_map_iff. split.
    + intros (r & E & Hr). apply filter_In in Hr. destruct Hr as [Hr Hp].
      apply Z.eqb_eq in Hp.
      assert (Hr' : In r (filter applies rules)) by (rewrite Hf; exact Hr).
      apply filter_In in Hr'. exists r. repeat split; try tauto.
      intros r' Hr'' Ha''. rewrite Hp. apply Hlow; assumption.
    + intros (r & Hr & Ha & Hmin & E). exists r. split; [exact E|].
      apply filter_In. split.
      * rewrite <- Hf. apply filter_In. tauto.
      * apply Z.eqb_eq. destruct Hex as (r1 & Hr1 & Ha1 & Hp1).
        specialize (Hmin r1 Hr1 Ha1). specialize (Hlow r Hr Ha). lia.
Qed.

(** Two rule tables with the same winners give the same answer. *)
Lemma get_testcase_same_winners rules rules' defs m b t :
  (forall id,
     (exists r, In r rules /\ rule_matches m b t r = true
                /\ (forall r', In r' rules -> rule_matches m b t r' = true ->
                               (Priority r <= Priority r')%Z)
                /\ TestCaseID r = id) <->
     (exists r, In r rules' /\ rule_matches m b t r = true
                /\ (forall r', In r' rules' -> rule_matches m b t r' = true ->
                               (Priority r <= Priority r')%Z)
                /\ TestCaseID r = id)) ->
  get_testcase rules defs m b t = get_testcase rules' defs m b t.
Proof.
  intros H. rewrite !get_testcase_as_filter. apply filter_ext. intros d.
  pose proof (keep_spec rules m b t (ID d)) as K1.
  pose proof (keep_spec rules' m b t (ID d)) as K2.
  rewrite (H (ID d)) in K1. rewrite <- K2 in K1.
  match goal with |- ?x = ?y => destruct x, y; intuition congruence end.
Qed.

(** X16: the answer of the catalog query does not depend on the order of
    the rows of the rule table: the same rules in another order select
    the same test cases, listed in the same order, that of the table of
    definitions. *)
Theorem get_testcase_ignores_rule_order :
  forall (rules rules' : list rule) (defs : list definition) (m b t : Z),
    Permutation rules rules' ->
    get_testcase rules defs m b t = get_testcase rules' defs m b t.
Proof.
  intros rules rules' defs m b t HP. apply get_testcase_same_winners.
  assert (G : forall l l', Permutation l l' ->
            forall id,
              (exists r, In r l /\ rule_matches m b t r = true
                         /\ (forall r', In r' l -> rule_matches m b t r' = true ->
                                        (Priority r <= Priority r')%Z)
                         /\ TestCaseID r = id) ->
              (exists r, In r l' /\ rule_matches m b t r = true
                         /\ (forall r', In r' l' -> rule_matches m b t r' = true ->
                                        (Priority r <= Priority r')%Z)
                         /\ TestCaseID r = id)).
  { intros l l' Hp id (r & Hr & Ha & Hmin & E). exists r.
    split; [apply (Permutation_in _ Hp Hr)|]. split; [exact Ha|]. split; [|exact E].
    intros r' Hr' Ha'. apply Hmin; [|exact Ha'].
    apply (Permutation_in _ (Permutation_sym Hp) Hr'). }
  intros id. split; [apply G; exact HP|apply G; apply Permutation_sym; exact HP].
Qed.

Lemma get_testcase_ignores_rule_order_witness :
  map ID (get_testcase (rev demo_rules) demo_defs 3 7 5) = [2%Z; 4%Z].
Proof.
  rewrite <- (@get_testcase_ignores_rule_order demo_rules (rev demo_rules) demo_defs 3 7 5
                (Permutation_rev demo_rules)).
  reflexivity.
Defined.

(** X17: a rule that does not apply to the query, or that is outranked by
    an applicable rule with a lower priority number, has no effect on the
    answer: the query answers the same with the rule in the table, at any
    row, as without it. *)
Theorem outranked_rule_changes_nothing :
  forall (rules1 rules2 : list rule) (r : rule) (defs : list definition) (m b t : Z),
    (rule_matches m b t r = false
     \/ exists r0, In r0 (rules1 ++ rules2) /\ rule_matches m b t r0 = true
                   /\ (Priority r0 < Priority r)%Z) ->
    get_testcase (rules1 ++ r :: rules2) defs m b t =
    get_testcase (rules1 ++ rules2) defs m b t.
Proof.
  intros rules1 rules2 r defs m b t Hr. apply get_testcase_same_winners.
  assert (Hin : forall x, In x (rules1 ++ r :: rules2) <-> x = r \/ In x (rules1 ++ rules2)).
  { intros x. rewrite !in_app_iff. simpl. intuition congruence. }
  intros id. split.
  - intros (r1 & Hr1 & Ha1 & Hmin & E).
    assert (Hne : In r1 (rules1 ++ rules2)).
    { apply Hin in Hr1. destruct Hr1 as [->|Hr1]; [|exact Hr1]. exfalso.
      destruct Hr as [Hr|(r0 & Hr0 & Ha0 & Hlt)]; [congruence|].
      assert (Hle : (Priority r <= Priority r0)%Z).
      { apply Hmin; [apply Hin; right; exact Hr0|exact Ha0]. }
      lia. }
    exists r1. split; [exact Hne|]. split; [exact Ha1|]. split; [|exact E].
    intros r' Hr' Ha'. apply Hmin; [apply Hin; right; exact Hr'|exact Ha'].
  - intros (r1 & Hr1 & Ha1 & Hmin & E).
    exists r1. split; [apply Hin; right; exact Hr1|]. split; [exact Ha1|].
    split; [|exact E].
    intros r' Hr' Ha'. apply Hin in Hr'. destruct Hr' as [->|Hr']; [|apply Hmin; assumption].
    destruct Hr as [Hr|(r0 & Hr0 & Ha0 & Hlt)]; [congruence|].
    specialize (Hmin r0 Hr0 Ha0). lia.
Qed.

Lemma outranked_rule_changes_nothing_witness :
  let exact_match := {| ModelID := 3; BandID := 7; TemperatureID := 5;
                        Priority := 50; TestCaseID := 1 |}%Z in
  map ID (get_testcase (exact_match :: demo_rules) demo_defs 3 7 5) = [2%Z; 4%Z].
Proof.
  intros exact_match.
  change (exact_match :: demo_rules) with ([] ++ exact_match :: demo_rules).
  rewrite (@outranked_rule_changes_nothing [] demo_rules exact_match demo_defs 3 7 5).
  - reflexivity.
  - right. exists {| ModelID := 3; BandID := 0; TemperatureID := 0;
                     Priority := 10; TestCaseID := 2 |}%Z.
    split; [simpl; auto|]. split; [reflexivity|]. simpl. lia.
Defined.

End RuleTableFacts.

(** ** The receive buffer of the client *)

Module BufferFacts.
Import Json Channel JsonFacts ChannelFacts.




Lemma index_of_brace_skip j rest :
  ~ In 123%N j -> index_of_brace (j ++ 123%N :: rest) = Some (length j).
Proof.
  induction j as [|c j IH]; intros H; [reflexivity|].
  simpl. destruct (c =? 123)%N eqn:E.
  - apply N.eqb_eq in E. exfalso. apply H. left. exact E.
  - rewrite IH; [reflexivity|]. intros Hin. apply H. right. exact Hin.
Qed.

Lemma frames_start e events : exists rest, frames (e :: events) = 123%N :: rest.
Proof.
  change (frames (e :: events)) with (dumps (event_dict e) ++ 10%N :: frames events).
  rewrite dumps_shape. simpl. eexists. reflexivity.
Qed.

Lemma frames_length events : length events <= length (frames events).
Proof.
  induction events as [|e es IH]; simpl; [lia|].
  rewrite length_app. simpl. lia.
Qed.

(** X19: text that cannot be decoded does not block the frames behind it.
    When the buffer holds, in front of whole frames, characters that do
    not start a JSON value and hold no brace, and no more than 1000
    characters in all, [process_buffer] skips to the first frame, hands
    the events of the frames to [handle_message] in order, and leaves the
    buffer empty. *)
Theorem junk_before_frames_is_skipped :
  forall (c : N) (junk : text) (e : Server3.Event) (events : list Server3.Event)
         (self : SocketManager),
    buffer self = (c :: junk) ++ frames (e :: events) ->
    c <> 34%N -> c <> 123%N -> starts_other_value c = false ->
    ~ In 123%N junk ->
    length (buffer self) <= 1000 ->
    forallb well_formed_event (e :: events) = true ->
    process_buffer self = Processed (set_buffer [] (handle_all (e :: events) self)).
Proof.
  intros c junk e events self Hbuf Hq Hb Hv Hj Hlen Hwf.
  unfold process_buffer.
  assert (Hpos : 0 < length (buffer self)) by (rewrite Hbuf; simpl; lia).
  replace (2 * length (buffer self) + 2) with (S (2 * length (buffer self) + 1)) by lia.
  rewrite process_loop_turn.
  assert (Hlt : (0 <? length (buffer self)) = true) by (apply Nat.ltb_lt; exact Hpos).
  rewrite Hlt. change (skipn 0 (buffer self)) with (buffer self).
  assert (Hdec : raw_decode (buffer self) = DecodeError).
  { rewrite Hbuf. simpl.
    apply N.eqb_neq in Hq. apply N.eqb_neq in Hb. rewrite Hq, Hb, Hv. reflexivity. }
  rewrite Hdec.
  assert (Hbig : (1000 <? length (buffer self) - 0) = false) by (apply Nat.ltb_ge; lia).
  rewrite Hbig.
  assert (Hfind : find_brace (buffer self) (0 + 1) = Some (length (c :: junk))).
  { unfold find_brace. rewrite Hbuf.
    destruct (frames_start e events) as [rest ->].
    change (skipn (0 + 1) ((c :: junk) ++ 123%N :: rest)) with (junk ++ 123%N :: rest).
    rewrite (@index_of_brace_skip junk rest Hj). reflexivity. }
  rewrite Hfind.
  apply process_loop_frames; [exact Hbuf| |exact Hwf].
  pose proof (frames_length (e :: events)) as L.
  rewrite Hbuf, length_app. lia.
Qed.

Lemma junk_before_frames_is_skipped_witness :
  let self := set_buffer (lit "ror~}" ++ [10%N] ++ frames [demo_event_2; demo_event_3])
                fresh in
  exists self',
    process_buffer self = Processed self'
    /\ buffer self' = []
    /\ handled self' = [event_dict demo_event_2; event_dict demo_event_3].
Proof.
  intros self. eexists. split; [|split].
  - apply (@junk_before_frames_is_skipped 114%N (lit "or~}" ++ [10%N]) demo_event_2
             [demo_event_3] self); try reflexivity; try discriminate.
    + simpl. intuition discriminate.
    + vm_compute. repeat constructor.
  - reflexivity.
  - reflexivity.
Defined.



End BufferFacts.

(** ** The model class and its test runner *)

Module ModelCFacts.
Import TestCases2 ModelC.

(** X21: the dispatcher finds a test by its name up to the case of ASCII
    letters and up to the separator: two ASCII names that become equal
    once letters are lowered and spaces and slashes are replaced by
    underscores resolve to the same method, get the same verdict, and,
    when the test passes, leave the instance in the same state. *)
Theorem test_names_are_normalised :
  forall (unicode_lower : text -> text) (getattr : text -> Attribute)
         (callback : text -> text -> Instance -> Outcome unit * Instance)
         (a b : text) (self : Instance),
    Forall (fun c => (c < 128)%N) a ->
    Forall (fun c => (c < 128)%N) b ->
    map normalize_ascii a = map normalize_ascii b ->
    let ra := run_test_by_name unicode_lower getattr callback a self in
    let rb := run_test_by_name unicode_lower getattr callback b self in
    method_name unicode_lower a = method_name unicode_lower b
    /\ verdict ra = verdict rb
    /\ (verdict ra = true -> snd ra = snd rb).
Proof.
  intros ul getattr callback a b self Ha Hb E ra rb.
  assert (Hm : method_name ul a = method_name ul b).
  { rewrite (TestCases2Facts.method_name_ascii ul Ha),
            (TestCases2Facts.method_name_ascii ul Hb), E. reflexivity. }
  split; [exact Hm|]. subst ra rb. unfold verdict, run_test_by_name. rewrite Hm.
  destruct (getattr (method_name ul b)) as [body| |]; cbv zeta.
  - destruct (body self) as [[p|e] self']; simpl; [split; reflexivity|].
    destruct (callback _ _ self') as [[[]|e1] s1], (callback _ _ self') as [[[]|e2] s2];
      simpl; split; first [reflexivity | discriminate].
  - destruct (callback _ _ self) as [[[]|e1] s1], (callback _ _ self) as [[[]|e2] s2];
      simpl; split; first [reflexivity | discriminate].
  - destruct (callback _ _ self) as [[[]|e1] s1], (callback _ _ self) as [[[]|e2] s2];
      simpl; split; first [reflexivity | discriminate].
Qed.

Lemma test_names_are_normalised_witness :
  verdict (run_test_by_name Session.no_unicode attributes recording_callback
             (lit "AM/PM") demo_instance) =
  verdict (run_test_by_name Session.no_unicode attributes recording_callback
             (lit "am pm") demo_instance)
  /\ verdict (run_test_by_name Session.no_unicode attributes recording_callback
             (lit "AM/PM") demo_instance) = true.
Proof.
  assert (Ha : Forall (fun c => (c < 128)%N) (lit "AM/PM")) by (repeat constructor).
  assert (Hb : Forall (fun c => (c < 128)%N) (lit "am pm")) by (repeat constructor).
  split; [|reflexivity].
  exact (proj1 (proj2 (@test_names_are_normalised Session.no_unicode attributes
                         recording_callback
                         (lit "AM/PM") (lit "am pm") demo_instance Ha Hb eq_refl))).
Defined.

(** The dispatcher returns, and keeps the flag when the test methods
    do. *)
Lemma dispatcher_returns ul getattr test_name inst :
  exists x, fst (run_test_by_name ul getattr recording_callback test_name inst) = Return x.
Proof.
  unfold run_test_by_name.
  destruct (getattr _) as [body| |]; try (eexists; reflexivity).
  destruct (body inst) as [[p|e] inst']; eexists; reflexivity.
Qed.

Lemma dispatcher_keeps_flag ul getattr test_name inst :
  (forall name body i, getattr name = Method body ->
                       is_running (snd (body i)) = is_running i) ->
  is_running (snd (run_test_by_name ul getattr recording_callback test_name inst)) = is_running inst.
Proof.
  intros Hkeep. unfold run_test_by_name.
  destruct (getattr _) as [body| |] eqn:Hg; try reflexivity.
  specialize (Hkeep _ body inst Hg).
  destruct (body inst) as [[p|e] inst']; simpl in *; exact Hkeep.
Qed.

(** One test case, with a test runner: the dispatcher is called with the
    parameters of the item, its result is stored, and its verdict is
    returned. *)
Lemma execute_single_test_stores ul getattr t b test_case self :
  test_runner self = true ->
  exists inst x,
    is_running inst = is_running (shared self)
    /\ (param_stage inst = Some (stage self)
        /\ param_temperature inst = Some t /\ param_band inst = Some b)
    /\ fst (run_test_by_name ul getattr recording_callback test_case inst) = Return x
    /\ fst (execute_single_test ul getattr t b test_case self) = Return (passed x)
    /\ test_results (snd (execute_single_test ul getattr t b test_case self)) =
       test_results self ++
       [{| r_stage := stage self; r_temperature := t; r_band := b;
           r_test_case := test_case; r_result := x |}]
    /\ is_running (shared (snd (execute_single_test ul getattr t b test_case self))) =
       is_running (snd (run_test_by_name ul getattr recording_callback test_case inst))
    /\ test_runner (snd (execute_single_test ul getattr t b test_case self)) = true
    /\ stage (snd (execute_single_test ul getattr t b test_case self)) = stage self.
Proof.
  intros Hrunner. unfold execute_single_test. cbv zeta.
  set (inst := {| is_running := is_running (shared self); reports := reports (shared self);
                  model_number := model_number (shared self);
                  param_stage := Some (stage self); param_temperature := Some t;
                  param_band := Some b;
                  test_case_run_id := test_case_run_id (shared self);
                  clock_ms := clock_ms (shared self) |}).
  change (test_runner (with_shared inst self)) with (test_runner self).
  rewrite Hrunner. simpl negb. cbv iota.
  change (shared (with_shared inst self)) with inst.
  destruct (dispatcher_returns ul getattr test_case inst) as [x Hx].
  exists inst, x. split; [reflexivity|]. split; [repeat split|]. split; [exact Hx|].
  destruct (run_test_by_name ul getattr recording_callback test_case inst) as [[y|e] sh'];
    simpl in Hx; [|discriminate].
  injection Hx as ->.
  destruct (passed x); simpl; repeat split; auto.
Qed.

Lemma run_cases_cons ul getattr progress t b total i test_case rest acc self :
  run_cases ul getattr progress t b total i (test_case :: rest) acc self =
  if negb (is_running_func self) then
    (Return false, report (lit "[ModelC] Test stopped by user.") (lit "stopped") self)
  else
    match execute_single_test ul getattr t b test_case
            (report (lit "[ModelC] Running " ++ str_of_nat (i + 1) ++ lit "/" ++
                     str_of_nat total ++ lit " (" ++ progress (i + 1) total ++
                     lit "%): " ++ test_case) (lit "running") self) with
    | (Raise e, self') => (Raise e, self')
    | (Return test_passed, self') =>
        run_cases ul getattr progress t b total (S i) rest
          (if test_passed then acc else false) self'
    end.
Proof. reflexivity. Qed.

(** With the flag raised and a test runner, the loop dispatches every
    test case, in order, stores a result for each, and returns the
    conjunction of the verdicts. *)
Lemma run_cases_all ul getattr progress t b total :
  (forall name body i, getattr name = Method body ->
                       is_running (snd (body i)) = is_running i) ->
  forall cases i acc self,
    is_running_func self = true ->
    test_runner self = true ->
    exists records,
      fst (run_cases ul getattr progress t b total i cases acc self) =
        Return (acc && forallb (fun r => passed (r_result r)) records)
      /\ test_results (snd (run_cases ul getattr progress t b total i cases acc self)) =
         test_results self ++ records
      /\ map r_test_case records = cases
      /\ Forall (fun r => exists inst,
                   is_running inst = true
                   /\ (param_stage inst = Some (r_stage r)
                       /\ param_temperature inst = Some (r_temperature r)
                       /\ param_band inst = Some (r_band r))
                   /\ fst (run_test_by_name ul getattr recording_callback
                             (r_test_case r) inst) =
                      Return (r_result r)) records
      /\ Forall (fun r => r_stage r = stage self /\ r_temperature r = t /\ r_band r = b)
           records.
Proof.
  intros Hkeep. induction cases as [|test_case rest IH]; intros i acc self Hflag Hrunner.
  - exists []. simpl. rewrite andb_true_r, app_nil_r. auto.
  - rewrite run_cases_cons. rewrite Hflag. simpl negb. cbv iota.
    set (self1 := report _ (lit "running") self).
    assert (Hflag1 : is_running (shared self1) = true) by exact Hflag.
    assert (Hstage1 : stage self1 = stage self) by reflexivity.
    assert (Hres1 : test_results self1 = test_results self) by reflexivity.
    assert (Hrunner1 : test_runner self1 = true) by exact Hrunner.
    clearbody self1.
    destruct (@execute_single_test_stores ul getattr t b test_case self1 Hrunner1)
      as (inst & x & Hi & Hpar & Hx & H1 & H2 & H3 & H4 & H5).
    destruct (execute_single_test ul getattr t b test_case self1) as [[passed_|e] self2];
      simpl in H1, H2, H3, H4, H5; [|discriminate].
    injection H1 as ->.
    assert (Hflag2 : is_running_func self2 = true).
    { unfold is_running_func. rewrite H3, (@dispatcher_keeps_flag ul getattr test_case inst Hkeep), Hi.
      exact Hflag1. }
    destruct (IH (S i) (if passed x then acc else false) self2 Hflag2 H4)
      as (records & R1 & R2 & R3 & R4 & R5).
    exists ({| r_stage := stage self1; r_temperature := t; r_band := b;
               r_test_case := test_case; r_result := x |} :: records).
    split; [|split; [|split; [|split]]].
    + rewrite R1. simpl. destruct (passed x), acc; reflexivity.
    + rewrite R2, H2, Hres1, <- app_assoc. reflexivity.
    + simpl. rewrite R3. reflexivity.
    + constructor; [|exact R4]. exists inst. simpl.
      split; [rewrite Hi; exact Hflag1|]. split; [exact Hpar|exact Hx].
    + constructor; [simpl; auto|].
      rewrite H5, Hstage1 in R5. exact R5.
Qed.

Lemma complete_item item :
  complete item = true ->
  exists t b test_case rest,
    Server3.temperature item = Some t /\ Server3.band item = Some b
    /\ Server3.test_cases item = test_case :: rest
    /\ t <> [] /\ b <> [].
Proof.
  unfold complete, truthy.
  destruct (Server3.temperature item) as [[|c t]|]; try discriminate.
  destruct (Server3.band item) as [[|c' b]|]; try discriminate.
  destruct (Server3.test_cases item) as [|test_case rest]; try discriminate.
  intros _. exists (c :: t), (c' :: b), test_case, rest.
  repeat split; discriminate.
Qed.

(** With the flag raised the temperature is set and found stable, with
    three reports. *)
Lemma set_and_stabilize_running t self :
  is_running_func self = true ->
  set_and_stabilize_temperature t self =
  (true,
   report (lit "[ModelC] Temperature stabilized at " ++ t ++ lit ".") (lit "running")
     (report (lit "[ModelC] Waiting for temperature to stabilize at " ++ t ++ lit "...")
        (lit "running")
        (report (lit "[ModelC] Setting temperature to " ++ t) (lit "running") self))).
Proof.
  intros H. unfold set_and_stabilize_temperature, is_running_func, report, with_shared in *.
  cbn [shared status_callback is_running]. rewrite H. reflexivity.
Qed.

(** X22: [run_tests] returns false without dispatching a test, and so
    without storing a result, in three cases.  For an item without a
    temperature, a band or test cases it makes one report, "Skipping
    invalid loadlist item: ...", with status "error".  With the flag
    lowered it makes one report, "[ModelC] Setting temperature to ...",
    and stops there.  Without a test runner the first test case raises,
    and the last report is "[ModelC] Critical error during run for ...",
    with status "error". *)
Theorem run_tests_refuses_without_dispatching :
  forall (unicode_lower : text -> text) (getattr : text -> Attribute)
         (progress_text : nat -> nat -> text) (repr : Server3.item_fields -> text)
         (item : Server3.item_fields) (self : Model),
    let r := run_tests unicode_lower getattr progress_text repr item self in
    let t := Server3.get_or (Server3.temperature item) [] in
    let b := Server3.get_or (Server3.band item) [] in
    (complete item = false ->
     r = (false, report (lit "Skipping invalid loadlist item: " ++ repr item)
                   (lit "error") self))
    /\ (complete item = true -> is_running_func self = false ->
        r = (false, report (lit "[ModelC] Setting temperature to " ++ t)
                      (lit "running") self))
    /\ (complete item = true -> is_running_func self = true -> test_runner self = false ->
        fst r = false
        /\ test_results (snd r) = test_results self
        /\ exists earlier,
             reports (shared (snd r)) =
             earlier ++
             [(lit "[ModelC] Critical error during run for Temp=" ++ t ++
               lit ", Band=" ++ b ++
               lit ": 'NoneType' object has no attribute 'run_test_by_name'",
               lit "error")]).
Proof.
  intros ul getattr progress repr item self r t b. subst r t b.
  split; [|split].
  - intros Hc. unfold run_tests. cbv zeta. unfold complete in Hc. rewrite Hc. reflexivity.
  - intros Hc Hflag. unfold run_tests. cbv zeta.
    unfold complete in Hc. rewrite Hc. simpl negb. cbv iota.
    unfold set_and_stabilize_temperature. cbv zeta.
    change (is_running_func
              (report (lit "[ModelC] Setting temperature to " ++
                       Server3.get_or (Server3.temperature item) [])
                 (lit "running") self)) with (is_running_func self).
    rewrite Hflag. reflexivity.
  - intros Hc Hflag Hrunner. unfold run_tests. cbv zeta.
    destruct (complete_item item Hc) as (t & b & test_case & rest & Ht & Hb & Hcases & _).
    unfold complete in Hc. rewrite Hc. simpl negb. cbv iota.
    rewrite set_and_stabilize_running by exact Hflag.
    rewrite Hcases. simpl negb. cbv iota. rewrite run_cases_cons.
    match goal with |- context [is_running_func ?x] =>
      change (is_running_func x) with (is_running_func self) end.
    rewrite Hflag. simpl negb. cbv iota.
    unfold execute_single_test. cbv zeta.
    match goal with |- context [test_runner ?x] =>
      change (test_runner x) with (test_runner self) end.
    rewrite Hrunner. simpl negb. cbv iota. cbn [fst snd].
    split; [reflexivity|]. split; [reflexivity|].
    eexists. cbn [report with_shared shared status_callback reports]. reflexivity.
Qed.

Lemma run_tests_refuses_without_dispatching_witness :
  let stopped :=
    with_shared {| is_running := false; reports := []; model_number := None;
                   param_stage := None; param_temperature := None; param_band := None;
                   test_case_run_id := None; clock_ms := 0%N |} demo_model in
  let r := run_tests Session.no_unicode attributes demo_progress demo_repr demo_item
             stopped in
  fst r = false
  /\ reports (shared (snd r)) = [(lit "[ModelC] Setting temperature to 25C", lit "running")]
  /\ test_results (snd r) = [].
Proof.
  intros stopped r.
  pose proof (proj1 (proj2 (@run_tests_refuses_without_dispatching Session.no_unicode
                              attributes demo_progress demo_repr demo_item stopped))
                eq_refl eq_refl) as H.
  subst r. rewrite H. repeat split.
Defined.

(** What [run_tests] does with a complete item while the flag is raised. *)
Lemma run_tests_records :
  forall (unicode_lower : text -> text) (getattr : text -> Attribute)
         (progress_text : nat -> nat -> text) (repr : Server3.item_fields -> text)
         (item : Server3.item_fields) (self : Model),
    (forall name body i, getattr name = Method body ->
                         is_running (snd (body i)) = is_running i) ->
    complete item = true ->
    is_running_func self = true ->
    test_runner self = true ->
    let r := run_tests unicode_lower getattr progress_text repr item self in
    exists records,
      test_results (snd r) = test_results self ++ records
      /\ map r_test_case records = Server3.test_cases item
      /\ fst r = forallb (fun x => passed (r_result x)) records
      /\ Forall (fun x => exists inst,
                   is_running inst = true
                   /\ (param_stage inst = Some (r_stage x)
                       /\ param_temperature inst = Some (r_temperature x)
                       /\ param_band inst = Some (r_band x))
                   /\ fst (run_test_by_name unicode_lower getattr recording_callback
                             (r_test_case x) inst) =
                      Return (r_result x)) records
      /\ Forall (fun x => r_stage x = stage self
                          /\ Some (r_temperature x) = Server3.temperature item
                          /\ Some (r_band x) = Server3.band item) records.
Proof.
  intros ul getattr progress repr item self Hkeep Hc Hflag Hrunner r. subst r.
  unfold run_tests. cbv zeta.
  destruct (complete_item item Hc) as (t & b & test_case & rest & Ht & Hb & Hcases & _).
  unfold complete in Hc. rewrite Hc. simpl negb. cbv iota.
  rewrite set_and_stabilize_running by exact Hflag.
  simpl negb. cbv iota.
  match goal with |- context [run_cases _ _ _ ?t0 ?b0 ?n 0 ?cs true ?s0] =>
    destruct (@run_cases_all ul getattr progress t0 b0 n Hkeep cs 0 true s0 Hflag Hrunner)
      as (records & R1 & R2 & R3 & R4 & R5);
    destruct (run_cases ul getattr progress t0 b0 n 0 cs true s0) as [[res|e] self'];
      simpl in R1, R2; [|discriminate]
  end.
  injection R1 as ->. exists records. cbn [fst snd].
  split; [exact R2|]. split; [exact R3|]. split; [reflexivity|]. split; [exact R4|].
  rewrite Ht, Hb in R5 |- *. simpl in R5.
  eapply Forall_impl; [|exact R5].
  intros x (H1 & H2 & H3). rewrite H1, H2, H3. auto.
Qed.

(** X23: with the flag raised, [run_tests] on a complete item dispatches
    every test case of the item, in the order listed, whether or not
    earlier ones failed: each is handed to [run_test_by_name] on an
    instance whose test parameters are the stage of the model and the
    temperature and band of the item.  It stores one result for each,
    the one the dispatcher returned, with the same stage, temperature and
    band, and returns true exactly when every verdict was true.  (The
    test methods are taken not to change the flag themselves.) *)
Theorem run_tests_runs_every_test_case :
  forall (unicode_lower : text -> text) (getattr : text -> Attribute)
         (progress_text : nat -> nat -> text) (repr : Server3.item_fields -> text)
         (item : Server3.item_fields) (self : Model),
    (forall name body i, getattr name = Method body ->
                         is_running (snd (body i)) = is_running i) ->
    complete item = true ->
    is_running_func self = true ->
    test_runner self = true ->
    let r := run_tests unicode_lower getattr progress_text repr item self in
    exists records,
      test_results (snd r) = test_results self ++ records
      /\ map r_test_case records = Server3.test_cases item
      /\ fst r = forallb (fun x => passed (r_result x)) records
      /\ Forall (fun x => exists inst,
                   is_running inst = true
                   /\ (param_stage inst = Some (r_stage x)
                       /\ param_temperature inst = Some (r_temperature x)
                       /\ param_band inst = Some (r_band x))
                   /\ fst (run_test_by_name unicode_lower getattr recording_callback
                             (r_test_case x) inst) =
                      Return (r_result x)) records
      /\ Forall (fun x => r_stage x = stage self
                          /\ Some (r_temperature x) = Server3.temperature item
                          /\ Some (r_band x) = Server3.band item) records.
Proof. exact run_tests_records. Qed.

Lemma run_tests_runs_every_test_case_witness :
  let r := run_tests Session.no_unicode attributes demo_progress demo_repr demo_item
             demo_model in
  exists records,
    test_results (snd r) = records
    /\ map r_test_case records = [lit "Gain Flatness"; lit "Power Sweep"; lit "AM/PM"]
    /\ fst r = forallb (fun x => passed (r_result x)) records
    /\ fst r = false.
Proof.
  intros r.
  assert (Hkeep : forall name body i, attributes name = Method body ->
                                      is_running (snd (body i)) = is_running i).
  { intros name body i. unfold attributes.
    repeat match goal with
           | |- context [if ?c then _ else _] => destruct c
           end; intros H; try discriminate; injection H as <-;
      try reflexivity.
    unfold test_gain_flatness. destruct (negb (should_continue i)); reflexivity. }
  destruct (@run_tests_runs_every_test_case Session.no_unicode attributes demo_progress
              demo_repr demo_item demo_model Hkeep eq_refl eq_refl eq_refl)
    as (records & H1 & H2 & H3 & _).
  exists records. split; [exact H1|]. split; [exact H2|]. split; [exact H3|reflexivity].
Defined.

(** The test methods of [TestCases2] do not change the flag. *)
Lemma attributes_keep_flag name body i :
  attributes name = Method body -> is_running (snd (body i)) = is_running i.
Proof.
  unfold attributes.
  repeat match goal with
         | |- context [if ?c then _ else _] => destruct c
         end; intros H; try discriminate; injection H as <-;
    try reflexivity.
  unfold test_gain_flatness. destruct (negb (should_continue i)); reflexivity.
Qed.

(** While the flag is raised, the verdict on a test case is decided by
    the method its name resolves to. *)
Lemma attributes_verdict ul test_case inst x :
  is_running inst = true ->
  fst (run_test_by_name ul attributes recording_callback test_case inst) = Return x ->
  passed x = passes (method_name ul test_case).
Proof.
  intros Hflag. unfold run_test_by_name, passes.
  generalize (method_name ul test_case). intros name. unfold attributes.
  destruct (text_eqb name (lit "test_gain_flatness")) eqn:E1.
  { unfold test_gain_flatness, should_continue. rewrite Hflag. simpl.
    intros H. injection H as <-. reflexivity. }
  destruct (text_eqb name (lit "test_power_sweep")) eqn:E2.
  { apply text_eqb_eq in E2. subst name. simpl. intros H. injection H as <-. reflexivity. }
  destruct (text_eqb name (lit "test_am_pm")) eqn:E3.
  { simpl. intros H. injection H as <-. reflexivity. }
  destruct (text_eqb name (lit "test_spur")) eqn:E4.
  { simpl. intros H. injection H as <-. reflexivity. }
  destruct (text_eqb name (lit "test_config_dict")); simpl; intros H; injection H as <-;
    reflexivity.
Qed.

(** X24: with the test methods [TestCases2] has, and the flag raised, an
    item passes exactly when each of its test cases resolves to the gain
    flatness, the AM/PM or the spur test: for ASCII names, those that read
    "gain_flatness", "am_pm" or "spur" once letters are lowered and spaces
    and slashes are replaced by underscores.  A power sweep, whose
    placeholder returns false, or a name the class does not implement
    fails the item. *)
Theorem reference_tests_decide_the_item :
  forall (unicode_lower : text -> text) (progress_text : nat -> nat -> text)
         (repr : Server3.item_fields -> text) (item : Server3.item_fields)
         (self : Model),
    complete item = true ->
    is_running_func self = true ->
    test_runner self = true ->
    fst (run_tests unicode_lower attributes progress_text repr item self) =
      forallb (fun test_case => passes (method_name unicode_lower test_case))
        (Server3.test_cases item)
    /\ (forall test_case,
          Forall (fun c => (c < 128)%N) test_case ->
          (passes (method_name unicode_lower test_case) = true <->
           In (map normalize_ascii test_case)
              [lit "gain_flatness"; lit "am_pm"; lit "spur"])).
Proof.
  intros ul progress repr item self Hc Hflag Hrunner. split.
  - destruct (@run_tests_records ul attributes progress repr item self
                attributes_keep_flag Hc Hflag Hrunner)
      as (records & _ & H2 & H3 & H4 & _).
    rewrite H3, <- H2. clear H2 H3.
    induction H4 as [|x records (inst & Hi & _ & Hx) _ IH]; [reflexivity|].
    simpl. rewrite IH, (attributes_verdict ul _ inst Hi Hx). reflexivity.
  - intros test_case Ha. rewrite (TestCases2Facts.method_name_ascii ul Ha).
    generalize (map normalize_ascii test_case). intros n. unfold passes.
    change (text_eqb (lit "test_" ++ n) (lit "test_gain_flatness"))
      with (text_eqb n (lit "gain_flatness")).
    change (text_eqb (lit "test_" ++ n) (lit "test_am_pm"))
      with (text_eqb n (lit "am_pm")).
    change (text_eqb (lit "test_" ++ n) (lit "test_spur"))
      with (text_eqb n (lit "spur")).
    rewrite !orb_true_iff, !text_eqb_eq. simpl. intuition congruence.
Qed.

Lemma reference_tests_decide_the_item_witness :
  fst (run_tests Session.no_unicode attributes demo_progress demo_repr demo_item
         demo_model) = false
  /\ passes (method_name Session.no_unicode (lit "Power Sweep")) = false.
Proof.
  split; [|reflexivity].
  rewrite (proj1 (@reference_tests_decide_the_item Session.no_unicode demo_progress
                    demo_repr demo_item demo_model eq_refl eq_refl eq_refl)).
  reflexivity.
Defined.

End ModelCFacts.

(** ** The receive loop of the client over a stream cut into chunks *)

Module ReceiverFacts.
Import Json Channel JsonFacts ChannelFacts BufferFacts Receiver.

(** The characters written for one character of Unicode text: a short
    escape, the character itself, one [\uXXXX] or a surrogate pair. *)
Lemma escape_shape c :
  is_scalar c = true ->
  (exists x, escape c = [92%N; x])
  \/ (escape c = [c] /\ c <> 34%N /\ c <> 92%N /\ (c <? 32)%N = false)
  \/ (exists h1 h2 h3 h4, escape c = [92%N; 117%N; h1; h2; h3; h4])
  \/ (exists h1 h2 h3 h4 k1 k2 k3 k4 uni,
        escape c = [92%N; 117%N; h1; h2; h3; h4; 92%N; 117%N; k1; k2; k3; k4]
        /\ decode_uXXXX h1 h2 h3 h4 = Some uni /\ is_high_surrogate uni = true).
Proof.
  intros Hc. unfold escape.
  repeat match goal with
         | |- context [if (c =? ?k)%N then _ else _] =>
             destruct (c =? k)%N eqn:?; [left; eexists; reflexivity|]
         end.
  destruct ((32 <=? c)%N && (c <=? 126)%N) eqn:E8.
  - right; left. apply andb_true_iff in E8. destruct E8 as [E8 _]. apply N.leb_le in E8.
    repeat split.
    + apply N.eqb_neq. assumption.
    + apply N.eqb_neq. assumption.
    + apply N.ltb_ge. exact E8.
  - destruct (c <? 65536)%N eqn:E9.
    + right; right; left. unfold hex4. do 4 eexists. reflexivity.
    + right; right; right. apply N.ltb_ge in E9.
      assert (Hlt : (c < 1114112)%N).
      { unfold is_scalar in Hc. apply orb_true_iff in Hc. destruct Hc as [Hc|Hc].
        - apply N.ltb_lt in Hc. lia.
        - apply andb_true_iff in Hc. destruct Hc as [_ Hc]. apply N.ltb_lt in Hc. exact Hc. }
      pose proof (@surrogates_join _ E9 Hlt) as Hj. unfold surrogates_join_back in Hj.
      cbv zeta in Hj |- *.
      set (s1 := N.lor 55296 (N.land (N.shiftr (c - 65536) 10) 1023)) in *.
      set (s2 := N.lor 56320 (N.land (c - 65536) 1023)) in *.
      apply andb_true_iff in Hj. destruct Hj as [Hj _].
      apply andb_true_iff in Hj. destruct Hj as [Hhigh _].
      assert (B1 : (s1 < 65536)%N).
      { unfold is_high_surrogate in Hhigh. apply andb_true_iff in Hhigh.
        destruct Hhigh as [_ Hh]. apply N.leb_le in Hh. lia. }
      destruct (@hex4_decode _ B1) as (h1 & h2 & h3 & h4 & Hh & Hd).
      rewrite Hh. unfold hex4 at 1. simpl app.
      do 9 eexists. split; [reflexivity|]. split; [exact Hd|exact Hhigh].
Qed.

Ltac prefixes q H :=
  destruct q as [|? q];
  [ simpl in H
  | simpl in H; first [ discriminate H | injection H as ? H; subst; prefixes q H ] ].

(** A string cut inside the characters written for one of its characters
    is not scanned. *)
Lemma escape_truncated c q l :
  is_scalar c = true -> escape c = q ++ l -> l <> [] -> scanstring q = None.
Proof.
  intros Hc H Hl. symmetry in H.
  destruct (escape_shape c Hc)
    as [[x E]|[(E & H1 & H2 & H3)|[(h1 & h2 & h3 & h4 & E)|
        (h1 & h2 & h3 & h4 & k1 & k2 & k3 & k4 & uni & E & Hd & Hh)]]];
    rewrite E in H; clear E.
  - prefixes q H; try reflexivity. subst l. contradiction.
  - prefixes q H; try reflexivity. subst l. contradiction.
  - prefixes q H; try reflexivity. subst l. contradiction.
  - prefixes q H; try reflexivity;
      try (simpl; rewrite Hd, Hh; reflexivity).
    subst l. contradiction.
Qed.

(** A string cut before its closing quote is not scanned. *)
Lemma scanstring_truncated s :
  well_formed s = true ->
  forall q R, q ++ R = flat_map escape s -> scanstring q = None.
Proof.
  unfold well_formed. induction s as [|c s IH]; intros Hwf q R H.
  - simpl in H. apply app_eq_nil in H. destruct H as [-> _]. reflexivity.
  - simpl in Hwf. apply andb_true_iff in Hwf. destruct Hwf as [Hc Hs].
    simpl in H. apply app_eq_app in H.
    destruct H as [l [[-> Hl]|[Hq Hl]]].
    + rewrite scanstring_escape by exact Hc.
      rewrite (IH Hs l R (eq_sym Hl)). reflexivity.
    + destruct l as [|x l].
      * rewrite app_nil_r in Hq. subst q.
        rewrite <- (app_nil_r (escape c)), scanstring_escape by exact Hc. reflexivity.
      * apply (@escape_truncated c q (x :: l) Hc Hq). discriminate.
Qed.

Lemma object_members_unfold fuel s pairs :
  object_members (S fuel) s pairs =
  match scanstring s with
  | None => DecodeError
  | Some (key, s1) =>
      match skip_ws s1 with
      | [] => DecodeError
      | colon :: s2 =>
          if (colon =? 58)%N then
            match scan_member_value (skip_ws s2) with
            | Decoded (VString v) s3 =>
                match skip_ws s3 with
                | [] => DecodeError
                | nextchar :: s4 =>
                    if (nextchar =? 125)%N then
                      Decoded (VObject (dict_of_pairs (pairs ++ [(key, v)]))) s4
                    else if (nextchar =? 44)%N then
                      match skip_ws s4 with
                      | quote :: s5 =>
                          if (quote =? 34)%N
                          then object_members fuel s5 (pairs ++ [(key, v)])
                          else DecodeError
                      | [] => DecodeError
                      end
                    else DecodeError
                end
            | Decoded (VObject _) _ => Unsupported
            | DecodeError => DecodeError
            | Unsupported => Unsupported
            end
          else DecodeError
      end
  end.
Proof. reflexivity. Qed.

(** The members of an object cut before its closing brace are not
    decoded. *)
Lemma object_members_truncated d :
  forall k v pairs fuel q R,
    well_formed k = true -> well_formed v = true -> well_formed_dict d = true ->
    R <> [] ->
    q ++ R = member_tail k v (members_after d [125%N]) ->
    length q < fuel ->
    object_members fuel q pairs = DecodeError.
Proof.
  induction d as [|[k' v'] d IH]; intros k v pairs fuel q R Hk Hv Hd HR H Hfuel;
    (destruct fuel as [|fuel]; [lia|]).
  all: unfold member_tail in H; apply app_eq_app in H;
    destruct H as [l [[Hq Hl]|[Hq Hl]]];
    [|rewrite object_members_unfold,
        (@scanstring_truncated k Hk q l (eq_sym Hq)); reflexivity].
  all: destruct l as [|c1 l];
    [rewrite app_nil_r in Hq; subst q;
     rewrite object_members_unfold,
       (@scanstring_truncated k Hk (flat_map escape k) [] (app_nil_r _)); reflexivity|].
  all: simpl in Hl; injection Hl as <- Hl.
  all: destruct l as [|c2 l];
    [subst q; rewrite object_members_unfold, scanstring_encoded by exact Hk; reflexivity|].
  all: simpl in Hl; injection Hl as <- Hl.
  all: destruct l as [|c3 l];
    [subst q; rewrite object_members_unfold, scanstring_encoded by exact Hk; reflexivity|].
  all: simpl in Hl; injection Hl as <- Hl.
  all: destruct l as [|c4 l];
    [subst q; rewrite object_members_unfold, scanstring_encoded by exact Hk; reflexivity|].
  all: simpl in Hl; injection Hl as <- Hl.
  all: symmetry in Hl; apply app_eq_app in Hl; destruct Hl as [l2 [[Hl Hl2]|[Hl Hl2]]];
    [|subst q; rewrite object_members_unfold, scanstring_encoded by exact Hk;
      change (skip_ws (58 :: 32 :: 34 :: l)%N) with (58 :: 32 :: 34 :: l)%N; cbv iota;
      change (58 =? 58)%N with true; cbv iota;
      change (skip_ws (32 :: 34 :: l)%N) with (34 :: l)%N;
      change (scan_member_value (34 :: l)%N) with
        (match scanstring l with
         | Some (str, tl) => Decoded (VString str) tl
         | None => DecodeError
         end);
      rewrite (@scanstring_truncated v Hv l l2 (eq_sym Hl)); reflexivity].
  all: destruct l2 as [|c5 l2];
    [rewrite app_nil_r in Hl; subst l q;
     rewrite object_members_unfold, scanstring_encoded by exact Hk;
     change (skip_ws (58 :: 32 :: 34 :: flat_map escape v)%N)
       with (58 :: 32 :: 34 :: flat_map escape v)%N; cbv iota;
     change (58 =? 58)%N with true; cbv iota;
     change (skip_ws (32 :: 34 :: flat_map escape v)%N) with (34 :: flat_map escape v)%N;
     change (scan_member_value (34 :: flat_map escape v)%N) with
       (match scanstring (flat_map escape v) with
        | Some (str, tl) => Decoded (VString str) tl
        | None => DecodeError
        end);
     rewrite (@scanstring_truncated v Hv (flat_map escape v) [] (app_nil_r _));
     reflexivity|].
  all: simpl in Hl2; injection Hl2 as <- Hl2.
  all: assert (Eq : q = member_tail k v l2)
    by (subst q l; unfold member_tail; reflexivity).
  all: rewrite Eq, object_members_step by assumption.
  - (* the last member *)
    destruct l2 as [|c6 l2]; [reflexivity|].
    simpl in Hl2. injection Hl2 as _ Hl2. symmetry in Hl2.
    apply app_eq_nil in Hl2. destruct Hl2 as [_ ->]. contradiction.
  - (* another member follows *)
    simpl in Hd. apply andb_true_iff in Hd. destruct Hd as [Hkv Hd].
    apply andb_true_iff in Hkv. destruct Hkv as [Hk' Hv'].
    change (members_after ((k', v') :: d) [125%N])
      with (44 :: 32 :: 34 :: member_tail k' v' (members_after d [125%N]))%N in Hl2.
    destruct l2 as [|c6 l2]; [reflexivity|].
    simpl in Hl2. injection Hl2 as <- Hl2.
    destruct l2 as [|c7 l2]; [reflexivity|].
    simpl in Hl2. injection Hl2 as <- Hl2.
    destruct l2 as [|c8 l2]; [reflexivity|].
    simpl in Hl2. injection Hl2 as <- Hl2.
    change (skip_ws (44 :: 32 :: 34 :: l2)%N) with (44 :: 32 :: 34 :: l2)%N. cbv iota.
    change (44 =? 125)%N with false. change (44 =? 44)%N with true. cbv iota.
    change (skip_ws (32 :: 34 :: l2)%N) with (34 :: l2)%N. cbv iota.
    change (34 =? 34)%N with true. cbv iota.
    apply (IH k' v' (pairs ++ [(k, v)]) fuel l2 R Hk' Hv' Hd HR (eq_sym Hl2)).
    rewrite Eq in Hfuel. unfold member_tail in Hfuel.
    rewrite !length_app in Hfuel. simpl in Hfuel. rewrite !length_app in Hfuel.
    simpl in Hfuel. lia.
Qed.

(** An object cut before its end is not decoded. *)
Lemma raw_decode_truncated d T R :
  well_formed_dict d = true -> T ++ R = dumps d -> R <> [] ->
  raw_decode T = DecodeError.
Proof.
  intros Hwf H HR. rewrite <- (app_nil_r (dumps d)), dumps_shape in H.
  destruct d as [|[k v] d].
  - destruct T as [|c T]; [reflexivity|]. simpl in H. injection H as -> H.
    destruct T as [|c T]; [reflexivity|]. simpl in H. injection H as _ H.
    apply app_eq_nil in H. destruct H as [_ ->]. contradiction.
  - simpl in Hwf. apply andb_true_iff in Hwf. destruct Hwf as [Hkv Hd].
    apply andb_true_iff in Hkv. destruct Hkv as [Hk Hv].
    destruct T as [|c T]; [reflexivity|]. simpl in H. injection H as -> H.
    destruct T as [|c T]; [reflexivity|]. simpl in H. injection H as -> H.
    change (raw_decode (123 :: 34 :: T)%N) with (object_members (S (length T)) T []).
    apply (@object_members_truncated d k v [] (S (length T)) T R Hk Hv Hd HR H). lia.
Qed.

(** *** One opening brace per frame *)

Lemma hexdigit_no_brace n : (n < 16)%N -> negb (hexdigit n =? 123)%N = true.
Proof.
  intros H. apply negb_true_iff, N.eqb_neq. unfold hexdigit.
  destruct (n <? 10)%N; lia.
Qed.

Lemma hex4_no_brace n : no_brace (92 :: 117 :: hex4 n)%N = true.
Proof.
  unfold no_brace, hex4. simpl.
  rewrite !hexdigit_no_brace by (apply N.mod_lt; discriminate). reflexivity.
Qed.

Lemma escape_no_brace c : negb (c =? 123)%N = true -> no_brace (escape c) = true.
Proof.
  intros H. unfold escape.
  repeat match goal with
         | |- context [if (c =? ?k)%N then _ else _] => destruct (c =? k)%N; [reflexivity|]
         end.
  destruct ((32 <=? c)%N && (c <=? 126)%N).
  - unfold no_brace. simpl. rewrite H. reflexivity.
  - destruct (c <? 65536)%N; [apply hex4_no_brace|].
    cbv zeta. unfold no_brace. rewrite forallb_app.
    fold (no_brace (92 :: 117 :: hex4 (N.lor 55296 (N.land (N.shiftr (c - 65536) 10) 1023)))%N).
    fold (no_brace (92 :: 117 :: hex4 (N.lor 56320 (N.land (c - 65536) 1023)))%N).
    rewrite !hex4_no_brace. reflexivity.
Qed.

Lemma flat_map_escape_no_brace s :
  no_brace s = true -> no_brace (flat_map escape s) = true.
Proof.
  unfold no_brace. induction s as [|c s IH]; simpl; intros H; [reflexivity|].
  apply andb_true_iff in H. destruct H as [Hc Hs].
  rewrite forallb_app. fold (no_brace (escape c)).
  rewrite escape_no_brace, IH by assumption. reflexivity.
Qed.

(** The frame of an event without braces in its strings has its only
    opening brace at the start. *)
Lemma frame_braces e :
  brace_free e = true ->
  exists body, dumps (event_dict e) = 123%N :: body /\ no_brace body = true.
Proof.
  unfold brace_free. intros H. apply andb_true_iff in H. destruct H as [Hm Hs].
  apply flat_map_escape_no_brace in Hm, Hs.
  rewrite <- (app_nil_r (dumps (event_dict e))), dumps_shape.
  unfold event_dict. eexists. split; [reflexivity|].
  unfold member_tail, members_after, member_tail, no_brace in *.
  cbn [forallb]. rewrite forallb_app. cbn [forallb]. rewrite forallb_app.
  cbn [forallb]. rewrite forallb_app. cbn [forallb]. rewrite forallb_app.
  cbn [forallb]. rewrite Hm, Hs. reflexivity.
Qed.

Lemma no_brace_index s : no_brace s = true -> index_of_brace s = None.
Proof.
  unfold no_brace. induction s as [|c s IH]; simpl; intros H; [reflexivity|].
  apply andb_true_iff in H. destruct H as [Hc Hs].
  apply negb_true_iff in Hc. rewrite Hc, IH by exact Hs. reflexivity.
Qed.

Lemma drop_consumed_past pre T self :
  buffer self = pre ++ T -> drop_consumed (length pre) self = set_buffer T self.
Proof.
  intros H. unfold drop_consumed. destruct pre as [|c pre].
  - destruct self as [b o s h]. simpl in *. subst. reflexivity.
  - change (0 <? length (c :: pre)) with true. cbv iota.
    rewrite H, skipn_past. reflexivity.
Qed.

(** Text cut out of the frames does not start with a space. *)
Lemma frames_prefix_no_space T R events :
  T ++ R = frames events -> leading_spaces T = 0.
Proof.
  destruct T as [|c T]; [reflexivity|]. destruct events as [|e rest]; [discriminate|].
  destruct (frames_start e rest) as [more ->]. intros H. injection H as -> _.
  reflexivity.
Qed.

Lemma forallb_cons {A : Type} (f : A -> bool) x l :
  forallb f (x :: l) = true -> f x = true /\ forallb f l = true.
Proof. simpl. intros H. apply andb_true_iff in H. exact H. Qed.

(** *** The loop over a stream cut anywhere *)

(** With the buffer holding, from [start_pos] on, the start [T] of a
    stream of frames, the loop handles the events whose frames are
    complete and keeps what is left of [T] for the next chunk. *)
Lemma process_loop_stream events :
  forall fuel pre T R self,
    buffer self = pre ++ T ->
    T ++ R = frames events ->
    length T < fuel ->
    forallb well_formed_event events = true ->
    forallb brace_free events = true ->
    forallb short_frame events = true ->
    exists done todo b,
      events = done ++ todo
      /\ process_loop fuel (length pre) self =
         Processed (set_buffer b (handle_all done self))
      /\ between_chunks b R todo.
Proof.
  induction events as [|e rest IH]; intros fuel pre T R self Hbuf Hcut Hfuel Hwf Hbf Hsh;
    (destruct fuel as [|fuel]; [lia|]).
  - change (frames []) with (@nil N) in Hcut. apply app_eq_nil in Hcut.
    destruct Hcut as [-> ->].
    exists [], [], []. split; [reflexivity|]. split.
    + rewrite process_loop_turn.
      assert (Hlen : (length pre <? length (buffer self)) = false)
        by (rewrite Hbuf, app_nil_r; apply Nat.ltb_irrefl).
      rewrite Hlen, (@drop_consumed_past pre [] self Hbuf). reflexivity.
    + left. split; [reflexivity|left; reflexivity].
  - apply forallb_cons in Hwf, Hbf, Hsh.
    destruct Hwf as [He Hwf], Hbf as [Hb Hbf], Hsh as [Hs Hsh].
    unfold short_frame in Hs. apply Nat.leb_le in Hs.
    change (frames (e :: rest)) with (dumps (event_dict e) ++ 10%N :: frames rest) in Hcut.
    assert (Hcases :
              (exists l, l <> [] /\ dumps (event_dict e) = T ++ l) \/
              (exists l, T = dumps (event_dict e) ++ l /\ 10%N :: frames rest = l ++ R)).
    { apply app_eq_app in Hcut. destruct Hcut as [l [[H1 H2]|[H1 H2]]].
      - right. exists l. split; assumption.
      - destruct l as [|x l].
        + right. exists []. rewrite app_nil_r in H1. rewrite app_nil_r.
          split; [symmetry; exact H1|]. simpl in H2. rewrite H2. reflexivity.
        + left. exists (x :: l). split; [discriminate|exact H1]. }
    destruct Hcases as [[l [Hl Hf]]|[l [HT HR]]].
    + (* the frame of [e] is not complete *)
      exists [], (e :: rest), T. split; [reflexivity|]. split.
      * rewrite process_loop_turn.
        destruct T as [|c T'].
        { assert (Hlen : (length pre <? length (buffer self)) = false)
            by (rewrite Hbuf, app_nil_r; apply Nat.ltb_irrefl).
          rewrite Hlen, (@drop_consumed_past pre [] self Hbuf). reflexivity. }
        assert (Hlt : (length pre <? length (buffer self)) = true).
        { apply Nat.ltb_lt. rewrite Hbuf, length_app. simpl. lia. }
        assert (Hskip : skipn (length pre) (buffer self) = c :: T')
          by (rewrite Hbuf; apply skipn_past).
        rewrite Hlt, Hskip.
        rewrite (@raw_decode_truncated (event_dict e) (c :: T') l
                   (event_dict_well_formed e He) (eq_sym Hf) Hl).
        assert (Hbig : (1000 <? length (buffer self) - length pre) = false).
        { apply Nat.ltb_ge. rewrite Hbuf, length_app.
          assert (L : length (dumps (event_dict e)) = length (c :: T') + length l)
            by (rewrite Hf; apply length_app).
          lia. }
        rewrite Hbig.
        destruct (frame_braces e Hb) as [body [Hbody Hnb]].
        rewrite Hbody in Hf. simpl in Hf. injection Hf as <- Hf.
        assert (Hfind : find_brace (buffer self) (length pre + 1) = None).
        { unfold find_brace. rewrite Hbuf.
          replace (length pre + 1) with (length (pre ++ [123%N]))
            by (rewrite length_app; reflexivity).
          change (pre ++ 123%N :: T') with (pre ++ [123%N] ++ T').
          rewrite app_assoc, skipn_past.
          rewrite no_brace_index; [reflexivity|].
          rewrite Hf in Hnb. unfold no_brace in *. rewrite forallb_app in Hnb.
          apply andb_true_iff in Hnb. apply Hnb. }
        rewrite Hfind.
        rewrite (@drop_consumed_past pre (123%N :: T') self Hbuf). reflexivity.
      * left. split; [exact Hcut|].
        destruct T as [|c T']; [left; reflexivity|].
        right. exists e, rest, l. split; [reflexivity|]. split; assumption.
    + (* the frame of [e] is complete *)
      subst T.
      assert (Hturn :
                process_loop (S fuel) (length pre) self =
                process_loop fuel
                  (length (pre ++ dumps (event_dict e)) + leading_spaces l)
                  (handle_message (event_dict e) self)).
      { rewrite process_loop_turn, Hbuf.
        assert (Hlt : (length pre <? length (pre ++ dumps (event_dict e) ++ l)) = true).
        { apply Nat.ltb_lt. rewrite !length_app.
          destruct (frame_braces e Hb) as [body [-> _]]. simpl. lia. }
        rewrite Hlt, skipn_past.
        rewrite raw_decode_dumps
          by (first [apply event_dict_distinct | apply event_dict_well_formed; exact He]).
        replace (length (dumps (event_dict e) ++ l) - length l)
          with (length (dumps (event_dict e))) by (rewrite length_app; lia).
        replace (length pre + length (dumps (event_dict e)))
          with (length (pre ++ dumps (event_dict e))) by (apply length_app).
        rewrite app_assoc, skipn_past. reflexivity. }
      rewrite Hturn.
      assert (Hfuel' : 0 < fuel).
      { rewrite length_app in Hfuel.
        destruct (frame_braces e Hb) as [body [Hbody _]]. rewrite Hbody in Hfuel.
        simpl in Hfuel. lia. }
      destruct l as [|x T2].
      * (* the line break is still to come *)
        exists [e], rest, []. split; [reflexivity|]. split.
        { destruct fuel as [|fuel]; [lia|].
          change (leading_spaces []) with 0. rewrite Nat.add_0_r.
          rewrite process_loop_turn, handle_message_buffer.
          assert (Hlen : (length (pre ++ dumps (event_dict e)) <? length (buffer self)) = false)
            by (rewrite Hbuf, app_nil_r; apply Nat.ltb_irrefl).
          rewrite Hlen.
          rewrite (@drop_consumed_past (pre ++ dumps (event_dict e)) []
                     (handle_message (event_dict e) self))
            by (rewrite handle_message_buffer, Hbuf, <- app_assoc; reflexivity).
          reflexivity. }
        right. split; [simpl; symmetry; exact HR|left; reflexivity].
      * (* the next frame starts in [T2] *)
        simpl in HR. injection HR as <- HR. symmetry in HR.
        change (leading_spaces (10%N :: T2)) with (S (leading_spaces T2)).
        rewrite (@frames_prefix_no_space T2 R rest HR).
        replace (length (pre ++ dumps (event_dict e)) + 1)
          with (length ((pre ++ dumps (event_dict e)) ++ [10%N]))
          by (rewrite (length_app _ [10%N]); reflexivity).
        destruct (IH fuel ((pre ++ dumps (event_dict e)) ++ [10%N]) T2 R
                    (handle_message (event_dict e) self))
          as (done & todo & b & Hev & Hrun & Hinv); try assumption.
        { rewrite handle_message_buffer, Hbuf, <- !app_assoc. reflexivity. }
        { rewrite length_app in Hfuel. simpl in Hfuel. lia. }
        exists (e :: done), todo, b. split; [rewrite Hev; reflexivity|].
        split; [exact Hrun|exact Hinv].
Qed.

Lemma handle_all_set_buffer done : forall b self,
  handled (handle_all done (set_buffer b self)) = handled self ++ map event_dict done.
Proof. intros b self. rewrite handle_all_handled. reflexivity. Qed.

Lemma between_chunks_ascii b c R todo :
  between_chunks b (c ++ R) todo -> forallb is_ascii c = true.
Proof.
  intros [[H _]|[H _]].
  - pose proof (frames_ascii todo) as A. rewrite <- H, !forallb_app in A.
    apply andb_true_iff in A. destruct A as [_ A].
    apply andb_true_iff in A. apply A.
  - assert (A : forallb is_ascii (10%N :: frames todo) = true)
      by (simpl; apply frames_ascii).
    rewrite <- H, !forallb_app in A.
    apply andb_true_iff in A. destruct A as [_ A].
    apply andb_true_iff in A. apply A.
Qed.

(** One chunk: the events whose frames it completes are handled, and the
    loop is again between two chunks. *)
Lemma receive_between c R todo self :
  between_chunks (buffer self) (c ++ R) todo ->
  short_chunk c = true ->
  forallb well_formed_event todo = true ->
  forallb brace_free todo = true ->
  forallb short_frame todo = true ->
  exists done todo' self',
    todo = done ++ todo'
    /\ receive c self = Processed self'
    /\ handled self' = handled self ++ map event_dict done
    /\ between_chunks (buffer self') R todo'.
Proof.
  intros Hinv Hc Hwf Hbf Hsh.
  pose proof (@between_chunks_ascii _ _ _ _ Hinv) as Hascii.
  unfold short_chunk in Hc. apply andb_true_iff in Hc. destruct Hc as [Hc0 Hc1].
  apply Nat.ltb_lt in Hc0, Hc1.
  unfold receive, decode_utf8. rewrite Hascii. unfold process_buffer.
  set (self0 := set_buffer (buffer self ++ c) self).
  change (buffer self0) with (buffer self ++ c).
  destruct Hinv as [[Hcut _]|[Hcut Hb]].
  - (* a frame starts at the head of the buffer *)
    rewrite app_assoc in Hcut.
    destruct (@process_loop_stream todo (2 * length (buffer self ++ c) + 2) []
                (buffer self ++ c) R self0 eq_refl Hcut)
      as (done & todo' & b & Hev & Hrun & Hnext); try assumption; [lia|].
    exists done, todo', (set_buffer b (handle_all done self0)).
    split; [exact Hev|]. split; [exact Hrun|]. split; [|exact Hnext].
    apply handle_all_set_buffer.
  - (* the line break of the last frame is at the head of the buffer *)
    assert (Hhead : exists T, buffer self ++ c = 10%N :: T /\ T ++ R = frames todo
                              /\ length T < 1000).
    { destruct Hb as [Hb|Hb]; rewrite Hb in Hcut |- *; simpl in Hcut |- *.
      - destruct c as [|x c']; [simpl in Hc0; lia|].
        simpl in Hcut. injection Hcut as -> Hcut.
        exists c'. split; [reflexivity|]. split; [exact Hcut|]. simpl in Hc1. lia.
      - injection Hcut as Hcut. exists c. split; [reflexivity|]. split; [exact Hcut|lia]. }
    destruct Hhead as (T & HbT & HT & HlenT).
    assert (Hbuf0 : buffer self0 = [10%N] ++ T) by exact HbT.
    rewrite HbT.
    replace (2 * length (10%N :: T) + 2) with (S (2 * length (10%N :: T) + 1)) by lia.
    rewrite process_loop_turn, Hbuf0.
    change (0 <? length ([10%N] ++ T)) with true. cbv iota.
    change (raw_decode (skipn 0 ([10%N] ++ T))) with DecodeError. cbv iota.
    assert (Hbig : (1000 <? length ([10%N] ++ T) - 0) = false)
      by (apply Nat.ltb_ge; simpl; lia).
    rewrite Hbig.
    change (find_brace ([10%N] ++ T) (0 + 1)) with
      (match index_of_brace T with Some k => Some (1 + k) | None => None end).
    destruct T as [|x T'].
    + exists [], todo, self0. split; [reflexivity|].
      split; [reflexivity|]. split; [simpl; symmetry; apply app_nil_r|].
      right. rewrite Hbuf0. split; [simpl in HT |- *; rewrite HT; reflexivity|].
      right. reflexivity.
    + destruct todo as [|e rest]; [discriminate|].
      destruct (frames_start e rest) as [more Hmore].
      assert (Hx : x = 123%N) by (rewrite Hmore in HT; injection HT as -> _; reflexivity).
      subst x.
      change (index_of_brace (123%N :: T')) with (Some 0). cbv iota.
      change (1 + 0) with (length [10%N]).
      destruct (@process_loop_stream (e :: rest) (2 * length (10%N :: 123%N :: T') + 1)
                  [10%N] (123%N :: T') R self0 Hbuf0 HT)
        as (done & todo' & b & Hev & Hrun & Hnext); try assumption; [simpl; lia|].
      exists done, todo', (set_buffer b (handle_all done self0)).
      split; [exact Hev|]. split; [exact Hrun|]. split; [|exact Hnext].
      apply handle_all_set_buffer.
Qed.

(** The loop over the chunks, from any point between two chunks. *)
Lemma receive_all_between chunks :
  forall todo self,
    between_chunks (buffer self) (List.concat chunks) todo ->
    forallb short_chunk chunks = true ->
    forallb well_formed_event todo = true ->
    forallb brace_free todo = true ->
    forallb short_frame todo = true ->
    exists self',
      receive_all chunks self = Processed self'
      /\ handled self' = handled self ++ map event_dict todo
      /\ (buffer self' = [] \/ buffer self' = [10%N]).
Proof.
  induction chunks as [|c chunks IH]; intros todo self Hinv Hch Hwf Hbf Hsh.
  - exists self. split; [reflexivity|]. simpl in Hinv.
    destruct Hinv as [[Hcut Hb]|[Hcut Hb]]; rewrite app_nil_r in Hcut.
    + destruct Hb as [Hb|(e & rest & l & -> & Hf & Hl)].
      * rewrite Hb in Hcut. destruct todo as [|e rest].
        { split; [symmetry; apply app_nil_r|left; exact Hb]. }
        destruct (frames_start e rest) as [more Hmore]. rewrite Hmore in Hcut.
        discriminate.
      * exfalso.
        change (frames (e :: rest)) with (dumps (event_dict e) ++ 10%N :: frames rest)
          in Hcut.
        apply (f_equal (@length N)) in Hcut, Hf.
        rewrite length_app in Hcut, Hf. simpl in Hcut.
        destruct l; [contradiction|]. simpl in Hf. lia.
    + destruct Hb as [Hb|Hb]; rewrite Hb in Hcut; [discriminate|].
      injection Hcut as Hcut. destruct todo as [|e rest].
      * split; [symmetry; apply app_nil_r|right; exact Hb].
      * destruct (frames_start e rest) as [more Hmore]. rewrite Hmore in Hcut.
        discriminate.
  - apply forallb_cons in Hch. destruct Hch as [Hc Hch].
    change (List.concat (c :: chunks)) with (c ++ List.concat chunks) in Hinv.
    destruct (@receive_between _ _ _ _ Hinv Hc Hwf Hbf Hsh)
      as (done & todo' & self1 & Hev & Hrecv & Hh & Hnext).
    subst todo. rewrite forallb_app in Hwf, Hbf, Hsh.
    apply andb_true_iff in Hwf, Hbf, Hsh.
    destruct (IH todo' self1 Hnext Hch (proj2 Hwf) (proj2 Hbf) (proj2 Hsh))
      as (self' & Hrun & Hh' & Hb').
    exists self'.
    change (receive_all (c :: chunks) self) with
      (match receive c self with
       | Processed s => receive_all chunks s
       | HandlerRaised => HandlerRaised
       | Beyond => Beyond
       end).
    rewrite Hrecv. split; [exact Hrun|]. split; [|exact Hb'].
    rewrite Hh', Hh, map_app, app_assoc. reflexivity.
Qed.

(** X25: the events the server sends reach [handle_message] in order
    however the stream is cut into the chunks that [recv] returns, when no
    string of an event holds an opening brace, every frame has at most
    1000 characters and every chunk has fewer than 1000 bytes; the buffer
    is left empty, or with the line break of the last frame. *)
Theorem chunked_frames_are_delivered :
  forall (events : list Server3.Event) (chunks : list (list N)) (self : SocketManager),
    buffer self = [] ->
    send_all events = Some (List.concat chunks) ->
    forallb short_chunk chunks = true ->
    forallb well_formed_event events = true ->
    forallb brace_free events = true ->
    forallb short_frame events = true ->
    exists self',
      receive_all chunks self = Processed self'
      /\ handled self' = handled self ++ map event_dict events
      /\ (buffer self' = [] \/ buffer self' = [10%N]).
Proof.
  intros events chunks self Hbuf Hsend Hch Hwf Hbf Hsh.
  rewrite send_all_frames in Hsend. injection Hsend as Hsend.
  apply receive_all_between; try assumption.
  left. rewrite Hbuf. split; [simpl; symmetry; exact Hsend|left; reflexivity].
Qed.

Lemma chunked_frames_are_delivered_witness :
  let events :=
    [demo_event_2;
     {| Server3.message := lit "Test completed successfully for SN: SN001";
        Server3.status := lit "completed" |}] in
  let data := frames events in
  let chunks := [firstn 20 data; firstn 44 (skipn 20 data); skipn 64 data] in
  buffer fresh = []
  /\ send_all events = Some (List.concat chunks)
  /\ forallb short_chunk chunks = true
  /\ forallb well_formed_event events = true
  /\ forallb brace_free events = true
  /\ forallb short_frame events = true
  /\ exists self',
       receive_all chunks fresh = Processed self'
       /\ handled self' = map event_dict events
       /\ (buffer self' = [] \/ buffer self' = [10%N]).
Proof.
  intros events data chunks.
  repeat (split; [vm_compute; reflexivity|]).
  exact (@chunked_frames_are_delivered events chunks fresh
           eq_refl eq_refl eq_refl eq_refl eq_refl eq_refl).
Defined.

(** Why the chunks must be short: when a read ends between a frame and
    its line break and the next one brings more than 1000 characters, the
    buffer starts with the line break, is not decoded there and is cut
    down to its last 500 characters; of twenty events, eight are
    handled. *)
Example long_chunk_after_a_frame :
  let data := frames (repeat demo_event_2 20) in
  exists s,
    receive_all [firstn 64 data; skipn 64 data] fresh = Processed s
    /\ length (handled s) = 8.
Proof. eexists. split; vm_compute; reflexivity. Qed.

End ReceiverFacts.
